(** * Smooth transitions for plots: easing, value interpolation, frame schedule

    A shallow embedding of the two transition engines of the repository,

    - [Transitions]       : [lib/matplotlib/transitions.py]
    - [SmoothTransitions] : [smooth_transitions.py]

    Python floats and ints are read as real numbers; [0.5] is the real one
    half.  Rounding is modelled where an integer is cut out of a float, in
    the frame count [int(duration * fps)], whose product is the parameter
    [float_mul].  Calls into matplotlib and numpy that the functions make
    appear as parameters ([to_rgba], [np_array], the record [library]) where
    their outcome decides what a constructor or a frame does next, and as the
    commands a frame hands to the plotting layer otherwise. *)

From Stdlib Require Import Reals Lra Lia ZArith String List Bool.
Import ListNotations.
Set Warnings "-register-all".
Open Scope R_scope.

(** ** Python values, exceptions, results *)

Inductive exn : Type :=
| ValueError
| TypeError
| KeyError
| IndexError
| ZeroDivisionError.

Inductive result (A : Type) : Type :=
| Ok (a : A)
| Raise (e : exn).

Arguments Ok {A} a.
Arguments Raise {A} e.

Definition bind {A B : Type} (m : result A) (k : A -> result B) : result B :=
  match m with
  | Ok a => k a
  | Raise e => Raise e
  end.

Notation "x <- m ;; k" := (bind m (fun x => k))
  (at level 61, m at next level, right associativity).

(** The values the engines pass around.  [PNum] stands for an [int] or a
    [float]; [PArr] for a one-dimensional [numpy.ndarray] of numbers;
    [PRange n] for [range(n)]; [PObj] for any other object ([None], a
    dict, an enum member, ...), identified by a tag. *)
Inductive pyval : Type :=
| PNum (x : R)
| PArr (xs : list R)
| PList (vs : list pyval)
| PTuple (vs : list pyval)
| PStr (s : string)
| PRange (n : nat)
| PObj (tag : string).

(** A [dict] with string keys, in insertion order. *)
Definition dict : Type := list (string * pyval).

Fixpoint dict_get (d : dict) (key : string) : option pyval :=
  match d with
  | [] => None
  | (k, v) :: d' => if String.eqb k key then Some v else dict_get d' key
  end.

(** [key in d] *)
Definition dict_mem (d : dict) (key : string) : bool :=
  match dict_get d key with Some _ => true | None => false end.

(** [d[key]] *)
Definition dict_getitem (d : dict) (key : string) : result pyval :=
  match dict_get d key with Some v => Ok v | None => Raise KeyError end.

(** [d.get(key, default)] *)
Definition dict_get_default (d : dict) (key : string) (default : pyval) : pyval :=
  match dict_get d key with Some v => v | None => default end.

(** [len(v)] *)
Definition py_len (v : pyval) : result nat :=
  match v with
  | PArr xs => Ok (length xs)
  | PList vs | PTuple vs => Ok (length vs)
  | PStr s => Ok (String.length s)
  | PRange n => Ok n
  | PNum _ | PObj _ => Raise TypeError
  end.

(** [int(x)] on a float: truncation towards zero. *)
Definition py_int (x : R) : Z :=
  if Rle_dec 0 x then Zfloor x else Zceil x.

(** [a / b] with an [int] divisor. *)
Definition py_truediv (a : R) (b : Z) : result R :=
  if Z.eqb b 0 then Raise ZeroDivisionError else Ok (a / IZR b).

(** [range(n)] as the list of its members; empty when [n <= 0]. *)
Definition py_range (n : Z) : list Z :=
  map Z.of_nat (seq 0 (Z.to_nat n)).

(** ** numpy arithmetic on one-dimensional arrays

    Elementwise, with numpy's broadcasting rule for two one-dimensional
    operands: equal lengths pair up, an operand of length one is stretched,
    anything else is the "operands could not be broadcast together"
    [ValueError]. *)

Fixpoint zip_with {A B C : Type} (f : A -> B -> C) (xs : list A) (ys : list B) : list C :=
  match xs, ys with
  | x :: xs', y :: ys' => f x y :: zip_with f xs' ys'
  | _, _ => []
  end.

Definition np_binop (f : R -> R -> R) (xs ys : list R) : result (list R) :=
  if Nat.eqb (length xs) (length ys) then Ok (zip_with f xs ys)
  else match xs, ys with
       | [x], _ => Ok (map (f x) ys)
       | _, [y] => Ok (map (fun x => f x y) xs)
       | _, _ => Raise ValueError
       end.

(** [array * scalar] *)
Definition np_scale (xs : list R) (c : R) : list R :=
  map (fun x => x * c) xs.

(** [a + (b - a) * progress] on arrays, in Python's evaluation order. *)
Definition np_blend (a b : list R) (progress : R) : result (list R) :=
  d <- np_binop Rminus b a ;;
  np_binop Rplus a (np_scale d progress).

(** Colours: normalized RGBA. *)
Definition rgba : Type := (R * R * R * R)%type.

(** ** What a finished constructor hands back: [animation.FuncAnimation]

    Only what the engines pass to it is kept: the frame count, the timer
    interval and the per-frame callback.  The animation calls [func] on the
    members of [range(frames)], in order. *)
Record FuncAnimation (Frame : Type) : Type := mkFuncAnimation {
  frames : Z;
  interval : R;
  func : Z -> result Frame
}.

Arguments mkFuncAnimation {Frame}.
Arguments frames {Frame}.
Arguments interval {Frame}.
Arguments func {Frame}.

Definition frame_seq {Frame : Type} (anim : FuncAnimation Frame) : list Z :=
  py_range (frames anim).

Definition delivered {Frame : Type} (anim : FuncAnimation Frame) : list (result Frame) :=
  map (func anim) (frame_seq anim).

(** ** Calls whose outcome is decided outside the engines

    Python's own attribute lookup, the float product, and the calls into
    matplotlib and numpy that can stop a constructor or a frame: [Ok] when
    the call returns, [Raise] with its exception otherwise.

    - [python_attr name]: what Python itself finds under [name] on every
      class (the attributes of [object] and of [type], [__module__],
      [__dict__], ...), given by what calling it on the progress does, the
      number it returns or the exception it raises; [None] when Python knows
      no such attribute.  (An attribute whose call returns something other
      than a number has no image here; the statements below are about names
      for which this is [None], about bound names and about [__doc__].)
    - [float_mul x y]: the product [x * y] as the floats compute it, rounding
      included.
    - [plt_subplots figsize]: [plt.subplots(figsize=figsize)].
    - [axes_plot x y kw], [axes_scatter x y kw], [axes_bar x y kw]: the call
      [ax.plot(x, y, **kw)] and its two siblings.
    - [np_column_stack x y]: [np.column_stack([x, y])], an array of two
      columns, given by its rows.
    - [new_FuncAnimation frames interval]: [animation.FuncAnimation(fig,
      animate, frames=frames, interval=interval, blit=False, repeat=False)]. *)
Record library : Type := mk_library {
  python_attr : string -> option (R -> result R);
  float_mul : R -> R -> R;
  plt_subplots : pyval -> result unit;
  axes_plot : pyval -> pyval -> dict -> result unit;
  axes_scatter : pyval -> pyval -> dict -> result unit;
  axes_bar : pyval -> pyval -> dict -> result unit;
  np_column_stack : pyval -> pyval -> result (list (R * R));
  new_FuncAnimation : Z -> R -> result unit
}.

(** The function a class body binds to [name], if any. *)
Fixpoint lookup {A : Type} (cls : list (string * A)) (name : string) : option A :=
  match cls with
  | [] => None
  | (k, v) :: cls' => if String.eqb k name then Some v else lookup cls' name
  end.

(** [easing_func = getattr(EasingFunctions, name, EasingFunctions.linear)],
    as what the call [easing_func(progress)] of a frame then does.  A name
    of the table [cls] is the function of the class body.  [__doc__] is the
    docstring that both class bodies open with, a [str], and calling it is a
    [TypeError].  Any other name is Python's to look up, and only a name that
    is no attribute at all gives the default. *)
Definition getattr_easing (lib : library) (cls : list (string * (R -> R)))
    (default : R -> R) (name : string) : R -> result R :=
  match lookup cls name with
  | Some f => fun t => Ok (f t)
  | None =>
      if String.eqb name "__doc__" then fun _ => Raise TypeError
      else match python_attr lib name with
           | Some call => call
           | None => fun t => Ok (default t)
           end
  end.

(** [d[key] = v]: replaces the value of a key in place, appends a new key. *)
Fixpoint dict_set (d : dict) (key : string) (v : pyval) : dict :=
  match d with
  | [] => [(key, v)]
  | (k, w) :: d' => if String.eqb k key then (k, v) :: d' else (k, w) :: dict_set d' key v
  end.

(** [start_val if progress < 0.5 else end_val] *)
Definition threshold {A : Type} (start_val end_val : A) (progress : R) : A :=
  if Rlt_dec progress 0.5 then start_val else end_val.

(** ** The matplotlib objects the engines read

    A figure as the getters that [_extract_figure_state] and
    [smooth_transitions.transition_plot_state] call on it; the two
    [isinstance] tests are fields. *)
Record Line2D : Type := mk_Line2D {
  get_xdata : pyval;
  get_ydata : pyval;
  get_color : pyval;
  get_linewidth : pyval;
  get_linestyle : pyval;
  get_marker : pyval;
  get_markersize : pyval
}.

Record Collection : Type := mk_Collection {
  is_PathCollection : bool;
  get_offsets : pyval;
  get_sizes : pyval;
  get_facecolors : pyval
}.

Record Patch : Type := mk_Patch {
  is_Rectangle : bool;
  get_xy : pyval;
  get_width : pyval;
  get_height : pyval;
  patch_get_facecolor : pyval;
  get_edgecolor : pyval
}.

Record Axes : Type := mk_Axes {
  get_xlim : pyval;
  get_ylim : pyval;
  get_title : pyval;
  get_xlabel : pyval;
  get_ylabel : pyval;
  axes_get_facecolor : pyval;
  get_lines : list Line2D;
  axes_collections : list Collection;
  axes_patches : list Patch
}.

Record Figure : Type := mk_Figure {
  get_facecolor : pyval;
  get_size_inches : pyval;
  get_axes : list Axes
}.

(** * transitions.py *)
Module Transitions.

(** ** [class EasingFunctions] *)
Module EasingFunctions.

Definition linear (t : R) : R := t.

Definition ease_in_quad (t : R) : R := t * t.

Definition ease_out_quad (t : R) : R := 1 - (1 - t) * (1 - t).

Definition ease_in_out_quad (t : R) : R :=
  if Rlt_dec t 0.5 then 2 * t * t
  else 1 - (-2 * t + 2) ^ 2 / 2.

Definition ease_in_cubic (t : R) : R := t * t * t.

Definition ease_out_cubic (t : R) : R := 1 - (1 - t) ^ 3.

Definition ease_in_out_cubic (t : R) : R :=
  if Rlt_dec t 0.5 then 4 * t * t * t
  else 1 - (-2 * t + 2) ^ 3 / 2.

Definition ease_in_sine (t : R) : R := 1 - cos ((t * PI) / 2).

Definition ease_out_sine (t : R) : R := sin ((t * PI) / 2).

Definition ease_in_out_sine (t : R) : R := - (cos (PI * t) - 1) / 2.

(** The names the class body binds. *)
Definition attrs : list (string * (R -> R)) :=
  [ ("linear"%string, linear);
    ("ease_in_quad"%string, ease_in_quad);
    ("ease_out_quad"%string, ease_out_quad);
    ("ease_in_out_quad"%string, ease_in_out_quad);
    ("ease_in_cubic"%string, ease_in_cubic);
    ("ease_out_cubic"%string, ease_out_cubic);
    ("ease_in_out_cubic"%string, ease_in_out_cubic);
    ("ease_in_sine"%string, ease_in_sine);
    ("ease_out_sine"%string, ease_out_sine);
    ("ease_in_out_sine"%string, ease_in_out_sine) ].

End EasingFunctions.

Section Engine.

(** [matplotlib.colors.to_rgba]; [None] when it raises. *)
Variable to_rgba : pyval -> option rgba.

(** [numpy.array] *)
Variable np_array : pyval -> result pyval.

(** Python's attribute lookup, the float product, [FuncAnimation]. *)
Variable lib : library.

(** [matplotlib.colors.to_rgb(c)], which is [to_rgba(c)[:3]]. *)
Definition to_rgb (c : pyval) : option (R * R * R) :=
  match to_rgba c with
  | Some (r, g, b, _) => Some (r, g, b)
  | None => None
  end.

Definition rgb_tuple (c : R * R * R) : pyval :=
  let '(r, g, b) := c in PTuple [PNum r; PNum g; PNum b].

(** ** [interpolate_values]

    The body of the function, with the branch for two strings left to
    [on_str]; [interpolate_values] below fills it with the source's
    [try]/[except] block. *)
Fixpoint interpolate_with (on_str : string -> string -> R -> result pyval)
    (start_val end_val : pyval) (progress : R) {struct start_val} : result pyval :=
  match start_val, end_val with
  | PNum s, PNum e => Ok (PNum (s + (e - s) * progress))
  | PArr s, PArr e => r <- np_blend s e progress ;; Ok (PArr r)
  | PList ss, PList es | PList ss, PTuple es
  | PTuple ss, PList es | PTuple ss, PTuple es =>
      if Nat.eqb (length ss) (length es) then
        r <- (fix comprehension (ss es : list pyval) {struct ss} : result (list pyval) :=
                match ss, es with
                | s :: ss', e :: es' =>
                    x <- interpolate_with on_str s e progress ;;
                    xs <- comprehension ss' es' ;;
                    Ok (x :: xs)
                | _, _ => Ok []
                end) ss es ;;
        Ok (PList r)
      else Ok (threshold start_val end_val progress)
  | PStr s, PStr e => on_str s e progress
  | _, _ => Ok (threshold start_val end_val progress)
  end.

(** The [try] block for two strings; the bare [except] turns every failure
    into the threshold choice.  The inner call only ever sees two tuples of
    three floats, so its own string branch is never reached. *)
Definition interpolate_strings (s e : string) (progress : R) : result pyval :=
  match to_rgb (PStr s), to_rgb (PStr e) with
  | Some start_rgb, Some end_rgb =>
      match interpolate_with (fun s _ _ => Ok (PStr s))
              (rgb_tuple start_rgb) (rgb_tuple end_rgb) progress with
      | Ok interpolated_rgb => Ok interpolated_rgb
      | Raise _ => Ok (threshold (PStr s) (PStr e) progress)
      end
  | _, _ => Ok (threshold (PStr s) (PStr e) progress)
  end.

Definition interpolate_values (start_val end_val : pyval) (progress : R) : result pyval :=
  interpolate_with interpolate_strings start_val end_val progress.

(** ** [smooth_transition] *)

Inductive data_arg : Type :=
| DataDict (d : dict)
| DataVal (v : pyval).

Inductive easing_arg : Type :=
| EasingName (name : string)
| EasingCallable (f : R -> R).

Definition _normalize_data (data : data_arg) (plot_type : string) : result dict :=
  match data with
  | DataDict d => Ok d
  | DataVal v =>
      if String.eqb plot_type "line" then
        match v with
        | PList _ | PTuple _ | PArr _ => y <- np_array v ;; Ok [("y"%string, y)]
        | _ => Raise ValueError
        end
      else if String.eqb plot_type "scatter" then
        match v with
        | PList [d0; d1] | PTuple [d0; d1] =>
            x <- np_array d0 ;; y <- np_array d1 ;;
            Ok [("x"%string, x); ("y"%string, y)]
        | _ => Raise ValueError
        end
      else if String.eqb plot_type "bar" then
        match v with
        | PList _ | PTuple _ | PArr _ => h <- np_array v ;; Ok [("heights"%string, h)]
        | _ => Raise ValueError
        end
      else Raise ValueError
  end.

(** [easing_func], as what calling it on the progress does. *)
Definition easing_of (easing : easing_arg) : R -> result R :=
  match easing with
  | EasingName name => getattr_easing lib EasingFunctions.attrs EasingFunctions.linear name
  | EasingCallable f => fun t => Ok (f t)
  end.

(** [frame / (num_frames - 1) if num_frames > 1 else 1.0], then
    [max(0.0, min(1.0, progress))]. *)
Definition frame_progress (num_frames frame : Z) : R :=
  let progress :=
    if Z.ltb 1 num_frames then IZR frame / IZR (num_frames - 1) else 1.0 in
  Rmax 0.0 (Rmin 1.0 progress).

(** The loop that fills [current_data]. *)
Fixpoint interpolate_data (items to_data_norm : dict) (eased_progress : R) : result dict :=
  match items with
  | [] => Ok []
  | (key, v) :: rest =>
      cur <- match dict_get to_data_norm key with
             | Some w => interpolate_values v w eased_progress
             | None => Ok v
             end ;;
      rest' <- interpolate_data rest to_data_norm eased_progress ;;
      Ok ((key, cur) :: rest')
  end.

(** The plotting calls of one frame. *)
Inductive artist : Type :=
| ax_plot (x y : pyval) (kwargs : dict)
| ax_scatter (x y : pyval) (kwargs : dict)
| ax_bar (x heights : pyval) (kwargs : dict).

Definition draw (plot_type : string) (kwargs current_data : dict) : result (list artist) :=
  if String.eqb plot_type "line" then
    y0 <- dict_getitem current_data "y" ;;
    n <- py_len y0 ;;
    let x := dict_get_default current_data "x" (PRange n) in
    y <- dict_getitem current_data "y" ;;
    Ok [ax_plot x y kwargs]
  else if String.eqb plot_type "scatter" then
    let k1 :=
      match dict_get current_data "sizes" with
      | Some sizes => dict_set kwargs "s" sizes
      | None => if dict_mem kwargs "s" then kwargs else dict_set kwargs "s" (PNum 50)
      end in
    let k2 :=
      match dict_get current_data "colors" with
      | Some colors => dict_set k1 "c" colors
      | None => if negb (dict_mem k1 "c") && negb (dict_mem k1 "color")
                then dict_set k1 "c" (PStr "blue") else k1
      end in
    x <- dict_getitem current_data "x" ;;
    y <- dict_getitem current_data "y" ;;
    Ok [ax_scatter x y k2]
  else if String.eqb plot_type "bar" then
    h0 <- dict_getitem current_data "heights" ;;
    n <- py_len h0 ;;
    let x_pos := dict_get_default current_data "x" (PRange n) in
    let k1 :=
      match dict_get current_data "colors" with
      | Some colors => dict_set kwargs "color" colors
      | None => if dict_mem kwargs "color" then kwargs
                else dict_set kwargs "color" (PStr "blue")
      end in
    h <- dict_getitem current_data "heights" ;;
    Ok [ax_bar x_pos h k1]
  else Ok [].

Definition animate (easing_func : R -> result R) (from_data_norm to_data_norm : dict)
    (num_frames : Z) (plot_type : string) (kwargs : dict) (frame : Z)
    : result (list artist) :=
  let progress := frame_progress num_frames frame in
  eased_progress <- easing_func progress ;;
  current_data <- interpolate_data from_data_norm to_data_norm eased_progress ;;
  draw plot_type kwargs current_data.

Definition smooth_transition (from_data to_data : data_arg) (duration : R) (fps : Z)
    (easing : easing_arg) (plot_type : string) (kwargs : dict)
    : result (FuncAnimation (list artist)) :=
  let easing_func := easing_of easing in
  from_data_norm <- _normalize_data from_data plot_type ;;
  to_data_norm <- _normalize_data to_data plot_type ;;
  let num_frames := py_int (float_mul lib duration (IZR fps)) in
  interval <- py_truediv 1000 fps ;;
  _ <- new_FuncAnimation lib num_frames interval ;;
  Ok (mkFuncAnimation num_frames interval
        (animate easing_func from_data_norm to_data_norm num_frames plot_type kwargs)).

(** ** Figure states and [_render_interpolated_figure]

    The dictionaries built by [_extract_figure_state], as records: one field
    per key. *)

Record line_data : Type := mk_line {
  xdata : pyval;
  ydata : pyval;
  color : pyval;
  linewidth : pyval;
  linestyle : pyval;
  marker : pyval;
  markersize : pyval
}.

Record coll_data : Type := mk_coll {
  coll_type : string;
  offsets : pyval;
  sizes : pyval;
  colors : pyval
}.

Record patch_data : Type := mk_patch {
  patch_type : string;
  xy : pyval;
  width : pyval;
  height : pyval;
  facecolor : pyval;
  edgecolor : pyval
}.

Record ax_state : Type := mk_ax {
  xlim : pyval;
  ylim : pyval;
  title : pyval;
  xlabel : pyval;
  ylabel : pyval;
  ax_facecolor : pyval;
  lines : list line_data;
  collections : list coll_data;
  patches : list patch_data
}.

Record figure_props : Type := mk_props {
  fig_facecolor : pyval;
  size : pyval
}.

Record figure_state : Type := mk_state {
  axes : list ax_state;
  props : figure_props
}.

(** What one call draws on an axes. *)
Inductive drawn : Type :=
| plot (xdata ydata color linewidth linestyle marker markersize : pyval)
| scatter (x y sizes colors : pyval)
| add_patch (xy width height facecolor : pyval).

(** One axes after the call: limits, labels, background, and the artists
    in the order they were added.  This is the figure as a call that returns
    leaves it; a call that raises leaves on the figure what it had drawn
    until then, which the result [Raise] does not describe. *)
Record rendered_axes : Type := mk_rendered_axes {
  set_xlim : pyval;
  set_ylim : pyval;
  set_title : pyval;
  set_xlabel : pyval;
  set_ylabel : pyval;
  set_facecolor : pyval;
  artists : list drawn
}.

Record rendered_figure : Type := mk_rendered {
  patch_facecolor : pyval;
  rendered : list rendered_axes
}.

(** [for j in range(min(len(froms), len(tos)))] over the paired elements
    [froms[j]], [tos[j]]. *)
Fixpoint for_pairs {A B : Type} (body : A -> A -> result (list B))
    (froms tos : list A) (num : nat) : result (list B) :=
  match num, froms, tos with
  | S num', f :: froms', t :: tos' =>
      out <- body f t ;;
      outs <- for_pairs body froms' tos' num' ;;
      Ok (out ++ outs)
  | _, _, _ => Ok []
  end.

Definition render_line (progress : R) (from_line to_line : line_data) : result (list drawn) :=
  x <- interpolate_values (xdata from_line) (xdata to_line) progress ;;
  y <- interpolate_values (ydata from_line) (ydata to_line) progress ;;
  c <- interpolate_values (color from_line) (color to_line) progress ;;
  lw <- interpolate_values (linewidth from_line) (linewidth to_line) progress ;;
  ms <- interpolate_values (markersize from_line) (markersize to_line) progress ;;
  Ok [plot x y c lw (linestyle from_line) (marker from_line) ms].

(** [offsets[:, k]], a column of a two-dimensional array.  The values of
    this model hold no such array: numpy refuses to index a one-dimensional
    array in this way with [IndexError], and Python anything else with
    [TypeError]. *)
Definition column (offsets : pyval) (k : nat) : result pyval :=
  match offsets with
  | PArr _ => Raise IndexError
  | _ => Raise TypeError
  end.

Definition render_collection (progress : R) (from_coll to_coll : coll_data)
    : result (list drawn) :=
  if String.eqb (coll_type from_coll) "scatter" && String.eqb (coll_type to_coll) "scatter" then
    o <- interpolate_values (offsets from_coll) (offsets to_coll) progress ;;
    s <- interpolate_values (sizes from_coll) (sizes to_coll) progress ;;
    c <- interpolate_values (colors from_coll) (colors to_coll) progress ;;
    x <- column o 0 ;;
    y <- column o 1 ;;
    Ok [scatter x y s c]
  else Ok [].

Definition render_patch (progress : R) (from_patch to_patch : patch_data)
    : result (list drawn) :=
  if String.eqb (patch_type from_patch) "rectangle"
     && String.eqb (patch_type to_patch) "rectangle" then
    p <- interpolate_values (xy from_patch) (xy to_patch) progress ;;
    w <- interpolate_values (width from_patch) (width to_patch) progress ;;
    h <- interpolate_values (height from_patch) (height to_patch) progress ;;
    fc <- interpolate_values (facecolor from_patch) (facecolor to_patch) progress ;;
    Ok [add_patch p w h fc]
  else Ok [].

Definition render_axes (progress : R) (from_ax_state to_ax_state : ax_state)
    : result (list rendered_axes) :=
  xl <- interpolate_values (xlim from_ax_state) (xlim to_ax_state) progress ;;
  yl <- interpolate_values (ylim from_ax_state) (ylim to_ax_state) progress ;;
  let labels := threshold from_ax_state to_ax_state progress in
  fc <- interpolate_values (ax_facecolor from_ax_state) (ax_facecolor to_ax_state) progress ;;
  let num_lines := Nat.min (length (lines from_ax_state)) (length (lines to_ax_state)) in
  ls <- for_pairs (render_line progress) (lines from_ax_state) (lines to_ax_state) num_lines ;;
  let num_collections :=
    Nat.min (length (collections from_ax_state)) (length (collections to_ax_state)) in
  cs <- for_pairs (render_collection progress)
          (collections from_ax_state) (collections to_ax_state) num_collections ;;
  let num_patches := Nat.min (length (patches from_ax_state)) (length (patches to_ax_state)) in
  ps <- for_pairs (render_patch progress)
          (patches from_ax_state) (patches to_ax_state) num_patches ;;
  Ok [mk_rendered_axes xl yl (title labels) (xlabel labels) (ylabel labels) fc
        (ls ++ cs ++ ps)].

(** The two [figure_props] are dicts, so [interpolate_values] takes its
    last line for them. *)
Definition _render_interpolated_figure (from_state to_state : figure_state) (progress : R)
    : result rendered_figure :=
  let fig_props := threshold (props from_state) (props to_state) progress in
  let num_axes := Nat.min (length (axes from_state)) (length (axes to_state)) in
  axs <- for_pairs (render_axes progress) (axes from_state) (axes to_state) num_axes ;;
  Ok (mk_rendered (fig_facecolor fig_props) axs).

(** [transition_plot_state], from the point where both figure states have
    been extracted. *)
Definition transition_plot_state (from_states to_states : figure_state) (duration : R)
    (fps : Z) (easing : easing_arg) : result (FuncAnimation rendered_figure) :=
  let easing_func := easing_of easing in
  let num_frames := py_int (float_mul lib duration (IZR fps)) in
  interval <- py_truediv 1000 fps ;;
  _ <- new_FuncAnimation lib num_frames interval ;;
  Ok (mkFuncAnimation num_frames interval
        (fun frame =>
           let progress := frame_progress num_frames frame in
           eased_progress <- easing_func progress ;;
           _render_interpolated_figure from_states to_states eased_progress)).

(** ** [_extract_figure_state] *)

Definition extract_line (line : Line2D) : line_data :=
  mk_line (get_xdata line) (get_ydata line) (get_color line) (get_linewidth line)
    (get_linestyle line) (get_marker line) (get_markersize line).

(** The loop over [ax.collections]: only a [PathCollection] is kept. *)
Fixpoint extract_collections (cs : list Collection) : list coll_data :=
  match cs with
  | [] => []
  | collection :: cs' =>
      if is_PathCollection collection then
        mk_coll "scatter" (get_offsets collection) (get_sizes collection)
          (get_facecolors collection) :: extract_collections cs'
      else extract_collections cs'
  end.

(** The loop over [ax.patches]: only a [Rectangle] is kept. *)
Fixpoint extract_patches (ps : list Patch) : list patch_data :=
  match ps with
  | [] => []
  | patch :: ps' =>
      if is_Rectangle patch then
        mk_patch "rectangle" (get_xy patch) (get_width patch) (get_height patch)
          (patch_get_facecolor patch) (get_edgecolor patch) :: extract_patches ps'
      else extract_patches ps'
  end.

Definition extract_axes (ax : Axes) : ax_state :=
  mk_ax (get_xlim ax) (get_ylim ax) (get_title ax) (get_xlabel ax) (get_ylabel ax)
    (axes_get_facecolor ax)
    (map extract_line (get_lines ax))
    (extract_collections (axes_collections ax))
    (extract_patches (axes_patches ax)).

Definition _extract_figure_state (fig : Figure) : figure_state :=
  mk_state (map extract_axes (get_axes fig))
    (mk_props (get_facecolor fig) (get_size_inches fig)).

(** [transition_plot_state] on the two figures themselves. *)
Definition transition_plot_state_figures (fig_from fig_to : Figure) (duration : R)
    (fps : Z) (easing : easing_arg) : result (FuncAnimation rendered_figure) :=
  transition_plot_state (_extract_figure_state fig_from) (_extract_figure_state fig_to)
    duration fps easing.

(** ** Convenience functions

    Each one calls [smooth_transition(from_data=..., to_data=..., duration=...,
    fps=..., ax=..., plot_type=..., **kwargs)].  Of the parameters of
    [smooth_transition] only [easing] is left for [**kwargs] to fill; it is
    the argument [easing] here ([None] when the caller gives none, which
    leaves the default ['ease_in_out_quad']), and [kwargs] holds the other
    keywords.  A keyword that names a parameter already passed makes the call
    a [TypeError]. *)
Definition repeated_keyword (kwargs : dict) : bool :=
  dict_mem kwargs "from_data" || dict_mem kwargs "to_data" || dict_mem kwargs "plot_type".

Definition easing_or_default (easing : option easing_arg) : easing_arg :=
  match easing with
  | Some e => e
  | None => EasingName "ease_in_out_quad"
  end.

Definition transition_line_data (from_y to_y : pyval) (duration : R) (fps : Z)
    (easing : option easing_arg) (kwargs : dict) : result (FuncAnimation (list artist)) :=
  if repeated_keyword kwargs then Raise TypeError
  else smooth_transition (DataDict [("y"%string, from_y)]) (DataDict [("y"%string, to_y)])
         duration fps (easing_or_default easing) "line" kwargs.

(** [from_xy[0]], [from_xy[1]] on a pair. *)
Definition transition_scatter_data (from_xy to_xy : pyval * pyval) (duration : R) (fps : Z)
    (easing : option easing_arg) (kwargs : dict) : result (FuncAnimation (list artist)) :=
  if repeated_keyword kwargs then Raise TypeError
  else smooth_transition
         (DataDict [("x"%string, fst from_xy); ("y"%string, snd from_xy)])
         (DataDict [("x"%string, fst to_xy); ("y"%string, snd to_xy)])
         duration fps (easing_or_default easing) "scatter" kwargs.

Definition transition_bar_heights (from_heights to_heights : pyval) (duration : R) (fps : Z)
    (easing : option easing_arg) (kwargs : dict) : result (FuncAnimation (list artist)) :=
  if repeated_keyword kwargs then Raise TypeError
  else smooth_transition (DataDict [("heights"%string, from_heights)])
         (DataDict [("heights"%string, to_heights)])
         duration fps (easing_or_default easing) "bar" kwargs.

End Engine.

End Transitions.

(** * smooth_transitions.py *)
Module SmoothTransitions.

(** ** [class EasingFunctions] *)
Module EasingFunctions.

Definition linear (t : R) : R := t.

Definition ease_in_quad (t : R) : R := t * t.

Definition ease_out_quad (t : R) : R := 1 - (1 - t) * (1 - t).

Definition ease_in_out_quad (t : R) : R :=
  if Rlt_dec t 0.5 then 2 * t * t
  else 1 - 2 * (1 - t) * (1 - t).

Definition ease_in_cubic (t : R) : R := t * t * t.

Definition ease_out_cubic (t : R) : R := 1 - (1 - t) ^ 3.

Definition ease_in_out_cubic (t : R) : R :=
  if Rlt_dec t 0.5 then 4 * t * t * t
  else 1 - 4 * (1 - t) ^ 3.

Definition attrs : list (string * (R -> R)) :=
  [ ("linear"%string, linear);
    ("ease_in_quad"%string, ease_in_quad);
    ("ease_out_quad"%string, ease_out_quad);
    ("ease_in_out_quad"%string, ease_in_out_quad);
    ("ease_in_cubic"%string, ease_in_cubic);
    ("ease_out_cubic"%string, ease_out_cubic);
    ("ease_in_out_cubic"%string, ease_in_out_cubic) ].

End EasingFunctions.

(** [+], [-], [*] on the operands the signature of [interpolate_values]
    names, [float] and [numpy.ndarray]; any other operand is refused with
    [TypeError], as Python refuses [-] on strings, lists, tuples and
    [None]. *)
Definition py_binop (f : R -> R -> R) (a b : pyval) : result pyval :=
  match a, b with
  | PNum x, PNum y => Ok (PNum (f x y))
  | PArr xs, PArr ys => r <- np_binop f xs ys ;; Ok (PArr r)
  | PNum x, PArr ys => Ok (PArr (map (f x) ys))
  | PArr xs, PNum y => Ok (PArr (map (fun x => f x y) xs))
  | _, _ => Raise TypeError
  end.

(** [from_val + (to_val - from_val) * progress] *)
Definition interpolate_values (from_val to_val : pyval) (progress : R) : result pyval :=
  d <- py_binop Rminus to_val from_val ;;
  m <- py_binop Rmult d (PNum progress) ;;
  py_binop Rplus from_val m.

Section Engine.

(** [matplotlib.colors.to_rgba]; [None] when it raises [ValueError]. *)
Variable to_rgba : pyval -> option rgba.

(** [numpy.array] *)
Variable np_array : pyval -> result pyval.

(** Python's attribute lookup, the float product, and the calls into
    [pyplot], [Axes], numpy and [FuncAnimation]. *)
Variable lib : library.

Definition interpolate_colors (from_color to_color : pyval) (progress : R) : result rgba :=
  match to_rgba from_color with
  | None => Raise ValueError
  | Some (r0, g0, b0, a0) =>
      match to_rgba to_color with
      | None => Raise ValueError
      | Some (r1, g1, b1, a1) =>
          Ok (r0 + (r1 - r0) * progress,
              g0 + (g1 - g0) * progress,
              b0 + (b1 - b0) * progress,
              a0 + (a1 - a0) * progress)
      end
  end.

(** ** [smooth_transition] *)

(** [min(1.0, max(0.0, progress))] after
    [frame / (total_frames - 1) if total_frames > 1 else 1]. *)
Definition frame_progress (total_frames frame : Z) : R :=
  let progress :=
    if Z.ltb 1 total_frames then IZR frame / IZR (total_frames - 1) else 1 in
  Rmin 1.0 (Rmax 0.0 progress).

(** The setter calls of one frame on the plot object. *)
Inductive update : Type :=
| set_ydata (v : pyval)
| set_xdata (v : pyval)
| set_color (c : rgba)
| set_linewidth (v : pyval)
| set_offsets (offsets : list (R * R))
| set_sizes (v : pyval)
| bars_set_height (new_heights : pyval)
| bars_set_color (c : rgba).

(** [key in from_data and key in to_data] *)
Definition in_both (from_data to_data : dict) (key : string) : option (pyval * pyval) :=
  match dict_get from_data key, dict_get to_data key with
  | Some a, Some b => Some (a, b)
  | _, _ => None
  end.

Definition interpolate_arrays (a b : pyval) (eased_progress : R) : result pyval :=
  x <- np_array a ;;
  y <- np_array b ;;
  interpolate_values x y eased_progress.

Definition animate_line (from_data to_data : dict) (eased_progress : R) : result (list update) :=
  u1 <- match in_both from_data to_data "y" with
        | Some (a, b) => new_y <- interpolate_arrays a b eased_progress ;; Ok [set_ydata new_y]
        | None => Ok []
        end ;;
  u2 <- match in_both from_data to_data "x" with
        | Some (a, b) => new_x <- interpolate_arrays a b eased_progress ;; Ok [set_xdata new_x]
        | None => Ok []
        end ;;
  u3 <- match in_both from_data to_data "color" with
        | Some (a, b) => new_color <- interpolate_colors a b eased_progress ;;
                         Ok [set_color new_color]
        | None => Ok []
        end ;;
  u4 <- match in_both from_data to_data "linewidth" with
        | Some (a, b) => new_width <- interpolate_values a b eased_progress ;;
                         Ok [set_linewidth new_width]
        | None => Ok []
        end ;;
  Ok (u1 ++ u2 ++ u3 ++ u4).

Definition animate_scatter (from_data to_data : dict) (eased_progress : R)
    : result (list update) :=
  new_x <- match in_both from_data to_data "x" with
           | Some (a, b) => interpolate_arrays a b eased_progress
           | None => Ok (dict_get_default from_data "x" (PList []))
           end ;;
  new_y <- match in_both from_data to_data "y" with
           | Some (a, b) => interpolate_arrays a b eased_progress
           | None => Ok (dict_get_default from_data "y" (PList []))
           end ;;
  offsets <- np_column_stack lib new_x new_y ;;
  u2 <- match in_both from_data to_data "sizes" with
        | Some (a, b) => new_sizes <- interpolate_arrays a b eased_progress ;;
                         Ok [set_sizes new_sizes]
        | None => Ok []
        end ;;
  u3 <- match in_both from_data to_data "colors" with
        | Some (PStr a, PStr b) =>
            new_color <- interpolate_colors (PStr a) (PStr b) eased_progress ;;
            Ok [set_color new_color]
        | _ => Ok []
        end ;;
  Ok (set_offsets offsets :: u2 ++ u3).

Definition animate_bar (from_data to_data : dict) (eased_progress : R) : result (list update) :=
  u1 <- match in_both from_data to_data "y" with
        | Some (a, b) => new_heights <- interpolate_arrays a b eased_progress ;;
                         Ok [bars_set_height new_heights]
        | None => Ok []
        end ;;
  u2 <- match in_both from_data to_data "colors" with
        | Some (PStr a, PStr b) =>
            new_color <- interpolate_colors (PStr a) (PStr b) eased_progress ;;
            Ok [bars_set_color new_color]
        | _ => Ok []
        end ;;
  Ok (u1 ++ u2).

Definition animate (easing_func : R -> result R) (from_data to_data : dict)
    (total_frames : Z) (plot_type : string) (frame : Z) : result (list update) :=
  let progress := frame_progress total_frames frame in
  eased_progress <- easing_func progress ;;
  if String.eqb plot_type "line" then animate_line from_data to_data eased_progress
  else if String.eqb plot_type "scatter" then animate_scatter from_data to_data eased_progress
  else if String.eqb plot_type "bar" then animate_bar from_data to_data eased_progress
  else Ok [].

(** [{k: v for k, v in kwargs.items() if k not in ['figsize']}] *)
Definition without_figsize (kwargs : dict) : dict :=
  filter (fun kv => negb (String.eqb (fst kv) "figsize")) kwargs.

(** The keywords of a call [f(..., k1=v1, k2=v2, **extra)]: a key of [extra]
    that repeats a written keyword makes the call a [TypeError]. *)
Definition keywords (written extra : dict) : result dict :=
  if existsb (fun kv => dict_mem written (fst kv)) extra then Raise TypeError
  else Ok (written ++ extra).

(** The first drawing of [from_data], which makes [plot_obj]. *)
Definition first_drawing (from_data : dict) (plot_type : string) (kwargs : dict)
    : result unit :=
  let x := dict_get_default from_data "x" (PList []) in
  let y := dict_get_default from_data "y" (PList []) in
  if String.eqb plot_type "line" then
    kw <- keywords [("color"%string, dict_get_default from_data "color" (PStr "blue"));
                    ("linewidth"%string, dict_get_default from_data "linewidth" (PNum 2))]
            (without_figsize kwargs) ;;
    axes_plot lib x y kw
  else if String.eqb plot_type "scatter" then
    kw <- keywords [("c"%string, dict_get_default from_data "colors" (PStr "blue"));
                    ("s"%string, dict_get_default from_data "sizes" (PNum 50))]
            (without_figsize kwargs) ;;
    axes_scatter lib x y kw
  else if String.eqb plot_type "bar" then
    kw <- keywords [("color"%string, dict_get_default from_data "colors" (PStr "blue"));
                    ("width"%string, dict_get_default from_data "width" (PNum 0.8))]
            (without_figsize kwargs) ;;
    axes_bar lib x y kw
  else Raise ValueError.

(** [np.concatenate([a, b])] on the results of two [np.array] calls: numpy
    refuses anything that is not an array with a dimension. *)
Definition np_concatenate (a b : pyval) : result (list R) :=
  match a, b with
  | PArr xs, PArr ys => Ok (xs ++ ys)
  | _, _ => Raise ValueError
  end.

(** [(all.min() - 0.1 * (all.max() - all.min()),
      all.max() + 0.1 * (all.max() - all.min()))] on a nonempty array. *)
Definition padded_range (all : list R) : R * R :=
  let lo := fold_right Rmin (hd 0 all) all in
  let hi := fold_right Rmax (hd 0 all) all in
  (lo - 0.1 * (hi - lo), hi + 0.1 * (hi - lo)).

(** The axis limits set before the first frame: the arguments of
    [ax.set_xlim] and [ax.set_ylim], or [None] when neither is called. *)
Definition axis_limits (from_data to_data : dict) : result (option ((R * R) * (R * R))) :=
  from_x <- np_array (dict_get_default from_data "x" (PList [])) ;;
  to_x <- np_array (dict_get_default to_data "x" (PList [])) ;;
  all_x <- np_concatenate from_x to_x ;;
  from_y <- np_array (dict_get_default from_data "y" (PList [])) ;;
  to_y <- np_array (dict_get_default to_data "y" (PList [])) ;;
  all_y <- np_concatenate from_y to_y ;;
  if Nat.ltb 0 (length all_x) && Nat.ltb 0 (length all_y)
  then Ok (Some (padded_range all_x, padded_range all_y))
  else Ok None.

(** The constructor: the figure, the first drawing, the axis limits, and
    only then the animation object. *)
Definition smooth_transition (from_data to_data : dict) (duration : R) (fps : Z)
    (easing : string) (plot_type : string) (kwargs : dict)
    : result (FuncAnimation (list update)) :=
  let easing_func :=
    getattr_easing lib EasingFunctions.attrs EasingFunctions.linear easing in
  let total_frames := py_int (float_mul lib duration (IZR fps)) in
  _ <- plt_subplots lib (dict_get_default kwargs "figsize" (PTuple [PNum 10; PNum 6])) ;;
  _ <- first_drawing from_data plot_type kwargs ;;
  _ <- axis_limits from_data to_data ;;
  interval <- py_truediv 1000 fps ;;
  _ <- new_FuncAnimation lib total_frames interval ;;
  Ok (mkFuncAnimation total_frames interval
        (animate easing_func from_data to_data total_frames plot_type)).

(** ** [transition_plot_state] *)

(** One [ax_anim.plot(x, y, color=..., alpha=..., linewidth=...)]. *)
Record faded_line : Type := mk_faded {
  faded_x : pyval;
  faded_y : pyval;
  faded_color : pyval;
  faded_alpha : R;
  faded_linewidth : pyval
}.

(** What one frame does to the cleared [ax_anim]. *)
Record crossfade : Type := mk_crossfade {
  plotted : list faded_line;
  new_xlim : pyval;
  new_ylim : pyval;
  shown_xlabel : pyval;
  shown_ylabel : pyval;
  shown_title : pyval
}.

Definition fade (alpha : R) (line : Line2D) : faded_line :=
  mk_faded (get_xdata line) (get_ydata line) (get_color line) alpha (get_linewidth line).

Definition animate_state (easing_func : R -> result R) (ax_from ax_to : Axes)
    (total_frames : Z) (frame : Z) : result crossfade :=
  let progress := frame_progress total_frames frame in
  eased_progress <- easing_func progress ;;
  let alpha_from := 1 - eased_progress in
  let alpha_to := eased_progress in
  let drawn := map (fade alpha_from) (get_lines ax_from)
               ++ map (fade alpha_to) (get_lines ax_to) in
  xl <- interpolate_arrays (get_xlim ax_from) (get_xlim ax_to) eased_progress ;;
  yl <- interpolate_arrays (get_ylim ax_from) (get_ylim ax_to) eased_progress ;;
  let labels := threshold ax_from ax_to progress in
  Ok (mk_crossfade drawn xl yl (get_xlabel labels) (get_ylabel labels) (get_title labels)).

Definition transition_plot_state (fig_from fig_to : Figure) (duration : R) (fps : Z)
    (easing : string) : result (FuncAnimation crossfade) :=
  let easing_func :=
    getattr_easing lib EasingFunctions.attrs EasingFunctions.linear easing in
  let total_frames := py_int (float_mul lib duration (IZR fps)) in
  match get_axes fig_from, get_axes fig_to with
  | ax_from :: _, ax_to :: _ =>
      interval <- py_truediv 1000 fps ;;
      _ <- new_FuncAnimation lib total_frames interval ;;
      Ok (mkFuncAnimation total_frames interval
            (animate_state easing_func ax_from ax_to total_frames))
  | _, _ => Raise ValueError
  end.

End Engine.

End SmoothTransitions.

(** A fragment of [matplotlib.colors.to_rgba], enough to run examples: two
    CSS names, one hexadecimal string with an alpha byte, and lists or tuples
    of three or four channels in the unit range. *)
Definition in_unit (x : R) : bool :=
  if Rle_dec 0 x then (if Rle_dec x 1 then true else false) else false.

Definition to_rgba_fragment (c : pyval) : option rgba :=
  match c with
  | PStr s =>
      if String.eqb s "red" then Some (1, 0, 0, 1)
      else if String.eqb s "blue" then Some (0, 0, 1, 1)
      else if String.eqb s "#ff000080" then Some (1, 0, 0, 128 / 255)
      else None
  | PTuple [PNum r; PNum g; PNum b; PNum a] | PList [PNum r; PNum g; PNum b; PNum a] =>
      if in_unit r && in_unit g && in_unit b && in_unit a then Some (r, g, b, a) else None
  | PTuple [PNum r; PNum g; PNum b] | PList [PNum r; PNum g; PNum b] =>
      if in_unit r && in_unit g && in_unit b then Some (r, g, b, 1) else None
  | _ => None
  end.

(** A fragment of [numpy.array]: a list or tuple of numbers becomes the
    array of those numbers, an array stays as it is. *)
Fixpoint all_numbers (vs : list pyval) : option (list R) :=
  match vs with
  | [] => Some []
  | PNum x :: vs' =>
      match all_numbers vs' with Some xs => Some (x :: xs) | None => None end
  | _ :: _ => None
  end.

Definition np_array_fragment (v : pyval) : result pyval :=
  match v with
  | PArr xs => Ok (PArr xs)
  | PList vs | PTuple vs =>
      match all_numbers vs with Some xs => Ok (PArr xs) | None => Raise ValueError end
  | _ => Raise TypeError
  end.

(** A fragment of the calls of [library], enough to run examples.

    - Attribute lookup: two of the names Python resolves on every class,
      [__sizeof__] (called on a float it returns 24) and [__name__] (a
      [str], so that calling it is a [TypeError]); the other names of the
      examples are no attributes at all.
    - The float product where it is exact, as it is in the examples.
    - [plt.subplots] with a pair of positive numbers for [figsize].
    - [ax.plot], [ax.scatter], [ax.bar] on two sequences: accepted when they
      have one length (and, for [ax.plot], the [color] keyword is a colour),
      refused with [ValueError] otherwise.
    - [np.column_stack] on two arrays, or lists of numbers: the rows when
      they have one length, [ValueError] otherwise.
    - [FuncAnimation] with a frame count that is not negative. *)
Definition python_attr_fragment (name : string) : option (R -> result R) :=
  if String.eqb name "__sizeof__" then Some (fun _ => Ok 24)
  else if String.eqb name "__name__" then Some (fun _ => Raise TypeError)
  else None.

Definition plt_subplots_fragment (figsize : pyval) : result unit :=
  match figsize with
  | PTuple [PNum w; PNum h] | PList [PNum w; PNum h] =>
      if Rlt_dec 0 w then (if Rlt_dec 0 h then Ok tt else Raise ValueError)
      else Raise ValueError
  | _ => Raise TypeError
  end.

Definition colour_keyword_ok (kw : dict) : bool :=
  match dict_get kw "color" with
  | Some c => match to_rgba_fragment c with Some _ => true | None => false end
  | None => true
  end.

Definition axes_call_fragment (check_colour : bool) (x y : pyval) (kw : dict)
    : result unit :=
  match py_len x, py_len y with
  | Ok n, Ok m =>
      if Nat.eqb n m && (negb check_colour || colour_keyword_ok kw) then Ok tt
      else Raise ValueError
  | _, _ => Raise ValueError
  end.

Definition as_numbers (v : pyval) : option (list R) :=
  match v with
  | PArr xs => Some xs
  | PList vs | PTuple vs => all_numbers vs
  | _ => None
  end.

Definition np_column_stack_fragment (x y : pyval) : result (list (R * R)) :=
  match as_numbers x, as_numbers y with
  | Some xs, Some ys =>
      if Nat.eqb (length xs) (length ys) then Ok (combine xs ys) else Raise ValueError
  | _, _ => Raise ValueError
  end.

Definition new_FuncAnimation_fragment (frames : Z) (interval : R) : result unit :=
  if Z.leb 0 frames then Ok tt else Raise ValueError.

Definition library_fragment : library :=
  mk_library python_attr_fragment Rmult plt_subplots_fragment
    (axes_call_fragment true) (axes_call_fragment false) (axes_call_fragment false)
    np_column_stack_fragment new_FuncAnimation_fragment.

Module T := Transitions.
Module S := SmoothTransitions.

(** ** Vocabulary of the statements *)

(** Nondecreasing on the unit interval. *)
Definition monotone_on_unit (f : R -> R) : Prop :=
  forall s t : R, 0 <= s -> s <= t -> t <= 1 -> f s <= f t.

(** A name that is no attribute of an [EasingFunctions] class at all: the
    class body does not bind it, it is not the docstring, and Python finds
    nothing under it either. *)
Definition no_attribute (lib : library) (cls : list (string * (R -> R))) (name : string)
    : Prop :=
  lookup cls name = None /\ name <> "__doc__"%string /\ python_attr lib name = None.

(** The plot types the constructors name. *)
Definition known_plot_type (plot_type : string) : Prop :=
  plot_type = "line"%string \/ plot_type = "scatter"%string \/ plot_type = "bar"%string.

(** Induction over values, through the members of lists and tuples. *)
Section PyvalInduction.

Variable P : pyval -> Prop.
Hypothesis HNum : forall x, P (PNum x).
Hypothesis HArr : forall xs, P (PArr xs).
Hypothesis HList : forall vs, Forall P vs -> P (PList vs).
Hypothesis HTuple : forall vs, Forall P vs -> P (PTuple vs).
Hypothesis HStr : forall s, P (PStr s).
Hypothesis HRange : forall n, P (PRange n).
Hypothesis HObj : forall tag, P (PObj tag).

Fixpoint pyval_nested_ind (v : pyval) : P v :=
  match v with
  | PNum x => HNum x
  | PArr xs => HArr xs
  | PList vs =>
      HList vs ((fix all (vs : list pyval) : Forall P vs :=
                   match vs with
                   | [] => Forall_nil P
                   | v :: vs' => Forall_cons v (pyval_nested_ind v) (all vs')
                   end) vs)
  | PTuple vs =>
      HTuple vs ((fix all (vs : list pyval) : Forall P vs :=
                    match vs with
                    | [] => Forall_nil P
                    | v :: vs' => Forall_cons v (pyval_nested_ind v) (all vs')
                    end) vs)
  | PStr s => HStr s
  | PRange n => HRange n
  | PObj tag => HObj tag
  end.

End PyvalInduction.

(** Splits a successful sequence of binds into its successful steps. *)
Ltac bind_ok H :=
  repeat match type of H with
         | bind ?m _ = Ok _ =>
             let E := fresh "E" in
             destruct m eqn:E; cbn [bind] in H; [| discriminate H]
         end.


(** The list comprehension of [Transitions.interpolate_values], by itself. *)
Section Comprehension.

Variable on_str : string -> string -> R -> result pyval.
Variable progress : R.

Fixpoint comprehension (ss es : list pyval) {struct ss} : result (list pyval) :=
  match ss, es with
  | s :: ss', e :: es' =>
      x <- Transitions.interpolate_with on_str s e progress ;;
      xs <- comprehension ss' es' ;;
      Ok (x :: xs)
  | _, _ => Ok []
  end.

End Comprehension.

(** [a + (b - a) * progress] *)
Definition lerp (progress a b : R) : R := a + (b - a) * progress.

(** A list or a tuple with the given members. *)
Definition sequence (as_tuple : bool) (vs : list pyval) : pyval :=
  if as_tuple then PTuple vs else PList vs.

Definition numbers (xs : list R) : list pyval := map PNum xs.

(** Values that do not blend in [transitions.py]: a string that is not a
    colour specification, or an object of no interpolated type. *)
Definition categorical (to_rgba : pyval -> option rgba) (v : pyval) : Prop :=
  match v with
  | PStr s => to_rgba (PStr s) = None
  | PObj _ => True
  | _ => False
  end.

(** What [Transitions.interpolate_values] makes of a value blended with
    itself: sequences come back as lists, a colour string as the list of its
    red, green and blue channels. *)
Fixpoint self_blend (to_rgba : pyval -> option rgba) (v : pyval) : pyval :=
  match v with
  | PList vs | PTuple vs => PList (map (self_blend to_rgba) vs)
  | PStr s =>
      match to_rgba (PStr s) with
      | Some (r, g, b, _) => PList [PNum r; PNum g; PNum b]
      | None => PStr s
      end
  | _ => v
  end.

(** No tuple and no colour string anywhere inside. *)
Fixpoint plain (to_rgba : pyval -> option rgba) (v : pyval) : Prop :=
  match v with
  | PList vs => (fix all (vs : list pyval) : Prop :=
                   match vs with
                   | [] => True
                   | v :: vs' => plain to_rgba v /\ all vs'
                   end) vs
  | PTuple _ => False
  | PStr s => to_rgba (PStr s) = None
  | _ => True
  end.





(** The loop over [range(min(len(froms), len(tos)))]. *)
Definition for_pairs_of {A B : Type} (body : A -> A -> result (list B))
    (froms tos : list A) : result (list B) :=
  Transitions.for_pairs body froms tos (Nat.min (length froms) (length tos)).

(** Example figure states: one axes each, with three lines and with two. *)
Definition example_line (y0 y1 : R) (c : string) : Transitions.line_data :=
  Transitions.mk_line (PArr [0; 1]) (PArr [y0; y1]) (PStr c) (PNum 1.5)
    (PStr "-") (PStr "None") (PNum 6).

Definition example_axes (ls : list Transitions.line_data) : Transitions.ax_state :=
  Transitions.mk_ax (PTuple [PNum 0; PNum 1]) (PTuple [PNum 0; PNum 4])
    (PStr "") (PStr "") (PStr "")
    (PTuple [PNum 1; PNum 1; PNum 1; PNum 1]) ls [] [].

Definition example_figure (ls : list Transitions.line_data) : Transitions.figure_state :=
  Transitions.mk_state [example_axes ls]
    (Transitions.mk_props (PTuple [PNum 1; PNum 1; PNum 1; PNum 1])
       (PArr [6.4; 4.8])).

Definition three_lines : Transitions.figure_state :=
  example_figure [example_line 0 1 "red"; example_line 1 2 "blue"; example_line 2 3 "red"].

Definition two_lines : Transitions.figure_state :=
  example_figure [example_line 3 4 "blue"; example_line 0 0 "red"].

(** All four channels between 0 and 1. *)
Definition normalized (c : rgba) : Prop :=
  let '(r, g, b, a) := c in
  0 <= r <= 1 /\ 0 <= g <= 1 /\ 0 <= b <= 1 /\ 0 <= a <= 1.

(** Example live figures: one axes each; the first holds a collection that
    is no [PathCollection]. *)
Definition example_live_from : Figure :=
  mk_Figure (PStr "red") (PArr [6.4; 4.8])
    [mk_Axes (PTuple [PNum 0; PNum 1]) (PTuple [PNum 0; PNum 1])
       (PStr "a") (PStr "x") (PStr "y") (PStr "red")
       [mk_Line2D (PArr [0; 1]) (PArr [0; 1]) (PStr "red") (PNum 1.5)
          (PStr "-") (PStr "None") (PNum 6)]
       [mk_Collection false (PObj "None") (PObj "None") (PObj "None")] []].

Definition example_live_to : Figure :=
  mk_Figure (PStr "blue") (PArr [6.4; 4.8])
    [mk_Axes (PTuple [PNum 0; PNum 2]) (PTuple [PNum 0; PNum 2])
       (PStr "b") (PStr "x") (PStr "y") (PStr "blue")
       [mk_Line2D (PArr [0; 1]) (PArr [1; 0]) (PStr "blue") (PNum 2.5)
          (PStr "--") (PStr "o") (PNum 6)]
       [mk_Collection true (PArr [0; 0]) (PArr [1]) (PStr "red")] []].

(* ================================================================== *)
(** * Properties *)

(** ** Easing library *)

(** Read as real functions, the tails of the two ease-in-out pairs,
    [1 - pow(-2t+2, n)/2] in [transitions.py] and [1 - 2(1-t)(1-t)],
    [1 - 4(1-t)**3] in [smooth_transitions.py], are the same polynomials. *)
Lemma T_in_out_quad_eq (t : R) :
  T.EasingFunctions.ease_in_out_quad t = S.EasingFunctions.ease_in_out_quad t.
Proof.
  unfold T.EasingFunctions.ease_in_out_quad, S.EasingFunctions.ease_in_out_quad.
  destruct (Rlt_dec t 0.5); [reflexivity | field].
Qed.

Lemma T_in_out_cubic_eq (t : R) :
  T.EasingFunctions.ease_in_out_cubic t = S.EasingFunctions.ease_in_out_cubic t.
Proof.
  unfold T.EasingFunctions.ease_in_out_cubic, S.EasingFunctions.ease_in_out_cubic.
  destruct (Rlt_dec t 0.5); [reflexivity | field].
Qed.

Lemma mono_linear : monotone_on_unit T.EasingFunctions.linear.
Proof. unfold monotone_on_unit, T.EasingFunctions.linear; intros; lra. Qed.

Lemma mono_in_quad : monotone_on_unit T.EasingFunctions.ease_in_quad.
Proof. unfold monotone_on_unit, T.EasingFunctions.ease_in_quad; intros; nra. Qed.

Lemma mono_out_quad : monotone_on_unit T.EasingFunctions.ease_out_quad.
Proof. unfold monotone_on_unit, T.EasingFunctions.ease_out_quad; intros; nra. Qed.

Lemma mono_in_out_quad : monotone_on_unit T.EasingFunctions.ease_in_out_quad.
Proof.
  unfold monotone_on_unit, T.EasingFunctions.ease_in_out_quad; intros s t Hs Hst Ht.
  destruct (Rlt_dec s 0.5), (Rlt_dec t 0.5); nra.
Qed.

Lemma cube_le (a b : R) : 0 <= a -> a <= b -> a ^ 3 <= b ^ 3.
Proof.
  intros Ha Hab.
  assert (H2 : a * a <= b * b) by nra.
  assert (0 <= a * a) by nra.
  simpl. nra.
Qed.

Lemma mono_in_cubic : monotone_on_unit T.EasingFunctions.ease_in_cubic.
Proof.
  unfold monotone_on_unit, T.EasingFunctions.ease_in_cubic; intros s t Hs Hst Ht.
  pose proof (cube_le s t Hs Hst) as H. simpl in H. nra.
Qed.

Lemma mono_out_cubic : monotone_on_unit T.EasingFunctions.ease_out_cubic.
Proof.
  unfold monotone_on_unit, T.EasingFunctions.ease_out_cubic; intros s t Hs Hst Ht.
  pose proof (cube_le (1 - t) (1 - s)) as H. lra.
Qed.

Lemma mono_in_out_cubic : monotone_on_unit T.EasingFunctions.ease_in_out_cubic.
Proof.
  unfold monotone_on_unit, T.EasingFunctions.ease_in_out_cubic; intros s t Hs Hst Ht.
  destruct (Rlt_dec s 0.5), (Rlt_dec t 0.5).
  - pose proof (cube_le s t Hs Hst) as H. simpl in H. nra.
  - pose proof (cube_le s 0.5 Hs) as H1.
    pose proof (cube_le (-2 * t + 2) 1) as H2.
    simpl in H1, H2. nra.
  - lra.
  - pose proof (cube_le (-2 * t + 2) (-2 * s + 2)) as H. lra.
Qed.

Lemma mono_in_sine : monotone_on_unit T.EasingFunctions.ease_in_sine.
Proof.
  unfold monotone_on_unit, T.EasingFunctions.ease_in_sine; intros s t Hs Hst Ht.
  pose proof PI_RGT_0 as Hpi.
  assert (cos (t * PI / 2) <= cos (s * PI / 2)); [| lra].
  apply cos_decr_1; nra.
Qed.

Lemma mono_out_sine : monotone_on_unit T.EasingFunctions.ease_out_sine.
Proof.
  unfold monotone_on_unit, T.EasingFunctions.ease_out_sine; intros s t Hs Hst Ht.
  pose proof PI_RGT_0 as Hpi.
  apply sin_incr_1; nra.
Qed.

Lemma mono_in_out_sine : monotone_on_unit T.EasingFunctions.ease_in_out_sine.
Proof.
  unfold monotone_on_unit, T.EasingFunctions.ease_in_out_sine; intros s t Hs Hst Ht.
  pose proof PI_RGT_0 as Hpi.
  assert (cos (PI * t) <= cos (PI * s)); [| lra].
  apply cos_decr_1; nra.
Qed.

Lemma monotone_ext (f g : R -> R) :
  (forall t, f t = g t) -> monotone_on_unit f -> monotone_on_unit g.
Proof. intros E M s t Hs Hst Ht. rewrite <- !E. now apply M. Qed.

Lemma frame_progress_unit n i :
  0 <= T.frame_progress n i <= 1 /\ 0 <= S.frame_progress n i <= 1.
Proof.
  unfold T.frame_progress, S.frame_progress.
  replace 0.0 with 0 by lra. replace 1.0 with 1 by lra.
  repeat split.
  - apply Rmax_l.
  - apply Rmax_lub; [lra | apply Rmin_l].
  - apply Rmin_glb; [lra | apply Rmax_l].
  - apply Rmin_l.
Qed.

Lemma frame_progress_mono n i j :
  (i <= j)%Z ->
  T.frame_progress n i <= T.frame_progress n j
  /\ S.frame_progress n i <= S.frame_progress n j.
Proof.
  intro Hij. unfold T.frame_progress, S.frame_progress.
  destruct (Z.ltb_spec 1 n) as [Hn | Hn]; [| split; lra].
  assert (Hpos : 0 < IZR (n - 1)) by (apply IZR_lt; lia).
  assert (Hle : IZR i / IZR (n - 1) <= IZR j / IZR (n - 1)).
  { unfold Rdiv. apply Rmult_le_compat_r.
    - left. now apply Rinv_0_lt_compat.
    - now apply IZR_le. }
  split.
  - now apply Rle_max_compat_l, Rle_min_compat_l.
  - now apply Rle_min_compat_l, Rle_max_compat_l.
Qed.

Lemma easing_monotone_T :
  Forall (fun entry : string * (R -> R) => monotone_on_unit (snd entry))
         T.EasingFunctions.attrs.
Proof.
  unfold T.EasingFunctions.attrs.
  repeat (apply Forall_cons; [cbn |]); try apply Forall_nil.
  - apply mono_linear.
  - apply mono_in_quad.
  - apply mono_out_quad.
  - apply mono_in_out_quad.
  - apply mono_in_cubic.
  - apply mono_out_cubic.
  - apply mono_in_out_cubic.
  - apply mono_in_sine.
  - apply mono_out_sine.
  - apply mono_in_out_sine.
Qed.

Lemma easing_monotone_S :
  Forall (fun entry : string * (R -> R) => monotone_on_unit (snd entry))
         S.EasingFunctions.attrs.
Proof.
  unfold S.EasingFunctions.attrs.
  repeat (apply Forall_cons; [cbn |]); try apply Forall_nil.
  - apply mono_linear.
  - apply mono_in_quad.
  - apply mono_out_quad.
  - apply (monotone_ext _ _ T_in_out_quad_eq mono_in_out_quad).
  - apply mono_in_cubic.
  - apply mono_out_cubic.
  - apply (monotone_ext _ _ T_in_out_cubic_eq mono_in_out_cubic).
Qed.

(** C10.  Every function bound in either [EasingFunctions] class is
    nondecreasing on the unit interval: [0 <= s <= t <= 1] gives
    [f s <= f t].  Hence, within one session, the eased progress of a frame
    is never below the eased progress of an earlier frame. *)
Theorem easing_monotone :
  Forall (fun entry : string * (R -> R) =>
            forall s t : R, 0 <= s -> s <= t -> t <= 1 -> snd entry s <= snd entry t)
         T.EasingFunctions.attrs
  /\ Forall (fun entry : string * (R -> R) =>
               forall s t : R, 0 <= s -> s <= t -> t <= 1 -> snd entry s <= snd entry t)
            S.EasingFunctions.attrs
  /\ (forall (name : string) (f : R -> R) (total_frames i j : Z),
        (i <= j)%Z ->
        (In (name, f) T.EasingFunctions.attrs ->
         f (T.frame_progress total_frames i) <= f (T.frame_progress total_frames j))
        /\ (In (name, f) S.EasingFunctions.attrs ->
            f (S.frame_progress total_frames i) <= f (S.frame_progress total_frames j))).
Proof.
  split; [exact easing_monotone_T | split; [exact easing_monotone_S |]].
  intros name f n i j Hij.
  destruct (frame_progress_unit n i) as [[Ti0 _] [Si0 _]].
  destruct (frame_progress_unit n j) as [[_ Tj1] [_ Sj1]].
  destruct (frame_progress_mono n i j Hij) as [HT HS].
  split; intro Hin.
  - pose proof easing_monotone_T as M. rewrite Forall_forall in M.
    exact (M _ Hin _ _ Ti0 HT Tj1).
  - pose proof easing_monotone_S as M. rewrite Forall_forall in M.
    exact (M _ Hin _ _ Si0 HS Sj1).
Qed.

Lemma easing_monotone_witness :
  T.EasingFunctions.ease_in_out_sine (T.frame_progress 60 10)
    <= T.EasingFunctions.ease_in_out_sine (T.frame_progress 60 11)
  /\ S.EasingFunctions.ease_in_out_cubic (S.frame_progress 60 29)
     <= S.EasingFunctions.ease_in_out_cubic (S.frame_progress 60 30).
Proof.
  destruct easing_monotone as (_ & _ & H).
  split.
  - apply (H "ease_in_out_sine"%string _ 60%Z 10%Z 11%Z); [lia |].
    cbn. tauto.
  - apply (H "ease_in_out_cubic"%string _ 60%Z 29%Z 30%Z); [lia |].
    cbn. tauto.
Defined.

(** ** Value interpolator *)


Lemma interpolate_with_sequences on_str a b ss es progress :
  T.interpolate_with on_str (sequence a ss) (sequence b es) progress =
  if Nat.eqb (length ss) (length es)
  then r <- comprehension on_str progress ss es ;; Ok (PList r)
  else Ok (threshold (sequence a ss) (sequence b es) progress).
Proof. destruct a, b; reflexivity. Qed.

Lemma zip_with_length {A B C} (f : A -> B -> C) xs ys :
  length xs = length ys -> length (zip_with f xs ys) = length xs.
Proof.
  revert ys; induction xs as [|x xs IH]; intros [|y ys] H; simpl in *; try congruence.
  f_equal; apply IH; congruence.
Qed.

Lemma np_binop_same_length f xs ys :
  length xs = length ys -> np_binop f xs ys = Ok (zip_with f xs ys).
Proof. intro H. unfold np_binop. rewrite H, Nat.eqb_refl. reflexivity. Qed.

Lemma zip_with_blend progress xs ys :
  length xs = length ys ->
  zip_with Rplus xs (np_scale (zip_with Rminus ys xs) progress)
  = zip_with (lerp progress) xs ys.
Proof.
  revert ys; induction xs as [|x xs IH]; intros [|y ys] H; simpl in *; try congruence.
  f_equal. apply IH. congruence.
Qed.

Lemma np_blend_same_length xs ys progress :
  length xs = length ys ->
  np_blend xs ys progress = Ok (zip_with (lerp progress) xs ys).
Proof.
  intro H. unfold np_blend.
  rewrite (np_binop_same_length Rminus ys xs) by congruence. simpl.
  rewrite np_binop_same_length.
  - now rewrite zip_with_blend.
  - unfold np_scale. rewrite length_map, zip_with_length; congruence.
Qed.

Lemma np_binop_mismatch f xs ys :
  length xs <> length ys -> length xs <> 1%nat -> length ys <> 1%nat ->
  np_binop f xs ys = Raise ValueError.
Proof.
  intros H Hx Hy. unfold np_binop.
  destruct (Nat.eqb_spec (length xs) (length ys)); [contradiction |].
  destruct xs as [|x [|x' xs]], ys as [|y [|y' ys]]; simpl in *; congruence.
Qed.

Lemma comprehension_numbers on_str progress xs ys :
  length xs = length ys ->
  comprehension on_str progress (numbers xs) (numbers ys)
  = Ok (numbers (zip_with (lerp progress) xs ys)).
Proof.
  revert ys; induction xs as [|x xs IH]; intros [|y ys] H; simpl in *; try congruence.
  rewrite IH by congruence. reflexivity.
Qed.

Lemma threshold_low {A} (a b : A) progress : progress < 0.5 -> threshold a b progress = a.
Proof. intro H. unfold threshold. destruct (Rlt_dec progress 0.5); [reflexivity | lra]. Qed.

Lemma threshold_high {A} (a b : A) progress : 0.5 <= progress -> threshold a b progress = b.
Proof. intro H. unfold threshold. destruct (Rlt_dec progress 0.5); [lra | reflexivity]. Qed.

Lemma threshold_same {A} (a : A) progress : threshold a a progress = a.
Proof. unfold threshold. destruct (Rlt_dec progress 0.5); reflexivity. Qed.

Lemma to_rgb_none to_rgba c : to_rgba c = None -> T.to_rgb to_rgba c = None.
Proof. intro H. unfold T.to_rgb. now rewrite H. Qed.

Lemma interpolate_strings_fallback to_rgba s e progress :
  to_rgba (PStr s) = None \/ to_rgba (PStr e) = None ->
  T.interpolate_values to_rgba (PStr s) (PStr e) progress
  = Ok (threshold (PStr s) (PStr e) progress).
Proof.
  intros [H | H]; cbn; unfold T.interpolate_strings.
  - now rewrite (to_rgb_none _ _ H).
  - rewrite (to_rgb_none _ _ H). now destruct (T.to_rgb to_rgba (PStr s)).
Qed.

Lemma categorical_threshold to_rgba a b progress :
  categorical to_rgba a -> categorical to_rgba b ->
  T.interpolate_values to_rgba a b progress = Ok (threshold a b progress).
Proof.
  intros Ha Hb.
  destruct a; simpl in Ha; try contradiction;
    destruct b; simpl in Hb; try contradiction; try reflexivity.
  apply interpolate_strings_fallback. now left.
Qed.

(** C2.  For two categorical values the result of
    [transitions.interpolate_values] is the first one at every progress
    below 0.5 and the second one from 0.5 on; with "solid" and "dashed",
    which are no colour specifications, 0.49 gives "solid" and 0.5 gives
    "dashed". *)
Theorem categorical_hard_switch (to_rgba : pyval -> option rgba) (a b : pyval) :
  categorical to_rgba a -> categorical to_rgba b ->
  (forall progress, progress < 0.5 ->
     T.interpolate_values to_rgba a b progress = Ok a)
  /\ (forall progress, 0.5 <= progress ->
        T.interpolate_values to_rgba a b progress = Ok b)
  /\ (to_rgba (PStr "solid") = None -> to_rgba (PStr "dashed") = None ->
      T.interpolate_values to_rgba (PStr "solid") (PStr "dashed") 0.49 = Ok (PStr "solid")
      /\ T.interpolate_values to_rgba (PStr "solid") (PStr "dashed") 0.5 = Ok (PStr "dashed")).
Proof.
  intros Ha Hb. split; [| split].
  - intros progress H. rewrite categorical_threshold by assumption.
    now rewrite threshold_low.
  - intros progress H. rewrite categorical_threshold by assumption.
    now rewrite threshold_high.
  - intros Hs Hd. rewrite !categorical_threshold by assumption.
    rewrite threshold_low by lra. rewrite threshold_high by lra. split; reflexivity.
Qed.

Lemma categorical_hard_switch_witness :
  T.interpolate_values to_rgba_fragment (PStr "solid") (PStr "dashed") 0.49
    = Ok (PStr "solid")
  /\ T.interpolate_values to_rgba_fragment (PStr "solid") (PStr "dashed") 0.5
    = Ok (PStr "dashed").
Proof.
  apply (categorical_hard_switch to_rgba_fragment (PStr "solid") (PStr "dashed"));
    reflexivity.
Defined.

Lemma interpolate_number_lists to_rgba a b xs ys progress :
  length xs = length ys ->
  T.interpolate_values to_rgba (sequence a (numbers xs)) (sequence b (numbers ys)) progress
  = Ok (PList (numbers (zip_with (lerp progress) xs ys))).
Proof.
  intro H. unfold T.interpolate_values.
  rewrite interpolate_with_sequences.
  unfold numbers at 1 2. rewrite !length_map, H, Nat.eqb_refl.
  fold (numbers xs) (numbers ys).
  now rewrite comprehension_numbers.
Qed.

Lemma interpolate_unequal_sequences to_rgba a b ss es progress :
  length ss <> length es ->
  T.interpolate_values to_rgba (sequence a ss) (sequence b es) progress
  = Ok (threshold (sequence a ss) (sequence b es) progress).
Proof.
  intro H. unfold T.interpolate_values.
  rewrite interpolate_with_sequences.
  now destruct (Nat.eqb_spec (length ss) (length es)).
Qed.

Lemma S_interpolate_arrays xs ys progress :
  S.interpolate_values (PArr xs) (PArr ys) progress
  = (r <- np_blend xs ys progress ;; Ok (PArr r)).
Proof.
  unfold S.interpolate_values, np_blend. cbn.
  destruct (np_binop Rminus ys xs) as [d | e]; cbn; [| reflexivity].
  reflexivity.
Qed.

Lemma np_blend_mismatch xs ys progress :
  length xs <> length ys -> length xs <> 1%nat -> length ys <> 1%nat ->
  np_blend xs ys progress = Raise ValueError.
Proof.
  intros H Hx Hy. unfold np_blend.
  rewrite np_binop_mismatch; auto.
Qed.

(** C1 (claim as written, refuted).  Two lists of lengths three and two:
    [transitions.interpolate_values] raises nothing and hands back the
    first list unchanged. *)
Lemma unequal_lists_raise_nothing :
  T.interpolate_values to_rgba_fragment
    (PList [PNum 0; PNum 0; PNum 0]) (PList [PNum 10; PNum 20]) 0.25
  = Ok (PList [PNum 0; PNum 0; PNum 0])
  /\ ~ (exists e : exn,
          T.interpolate_values to_rgba_fragment
            (PList [PNum 0; PNum 0; PNum 0]) (PList [PNum 10; PNum 20]) 0.25
          = Raise e).
Proof.
  assert (E : T.interpolate_values to_rgba_fragment
                (PList [PNum 0; PNum 0; PNum 0]) (PList [PNum 10; PNum 20]) 0.25
              = Ok (PList [PNum 0; PNum 0; PNum 0])).
  { cbn. now rewrite threshold_low by lra. }
  split; [exact E |].
  intros [e He]. rewrite E in He. discriminate.
Qed.

(** C1 (amended).  Scalars blend as [a + (b - a) * progress] in both
    engines; so do, member by member, two arrays of equal length (both
    engines) and two lists or tuples of numbers of equal length
    ([transitions.py], which answers with a list).  Two lists or tuples of
    unequal length raise nothing in [transitions.py]: the answer is the
    first below progress 0.5 and the second from there on.  Two arrays of
    unequal length, neither of length one, end in numpy's [ValueError] in
    both engines. *)
Theorem interpolate_scalars_and_vectors (to_rgba : pyval -> option rgba) (progress : R) :
  (forall a b : R,
     T.interpolate_values to_rgba (PNum a) (PNum b) progress
       = Ok (PNum (a + (b - a) * progress))
     /\ S.interpolate_values (PNum a) (PNum b) progress
       = Ok (PNum (a + (b - a) * progress)))
  /\ (forall xs ys : list R, length xs = length ys ->
        T.interpolate_values to_rgba (PArr xs) (PArr ys) progress
          = Ok (PArr (zip_with (fun a b => a + (b - a) * progress) xs ys))
        /\ S.interpolate_values (PArr xs) (PArr ys) progress
          = Ok (PArr (zip_with (fun a b => a + (b - a) * progress) xs ys)))
  /\ (forall (s t : bool) (xs ys : list R), length xs = length ys ->
        T.interpolate_values to_rgba (sequence s (numbers xs)) (sequence t (numbers ys))
          progress
        = Ok (PList (numbers (zip_with (fun a b => a + (b - a) * progress) xs ys))))
  /\ (forall (s t : bool) (ss es : list pyval), length ss <> length es ->
        T.interpolate_values to_rgba (sequence s ss) (sequence t es) progress
        = Ok (if Rlt_dec progress 0.5 then sequence s ss else sequence t es))
  /\ (forall xs ys : list R,
        length xs <> length ys -> length xs <> 1%nat -> length ys <> 1%nat ->
        T.interpolate_values to_rgba (PArr xs) (PArr ys) progress = Raise ValueError
        /\ S.interpolate_values (PArr xs) (PArr ys) progress = Raise ValueError).
Proof.
  split; [| split; [| split; [| split]]].
  - intros a b. split; reflexivity.
  - intros xs ys H. split.
    + cbn. now rewrite np_blend_same_length.
    + rewrite S_interpolate_arrays, np_blend_same_length; auto.
  - intros s t xs ys H. now apply interpolate_number_lists.
  - intros s t ss es H. now apply interpolate_unequal_sequences.
  - intros xs ys H Hx Hy. split.
    + cbn. now rewrite np_blend_mismatch.
    + rewrite S_interpolate_arrays, np_blend_mismatch; auto.
Qed.

Lemma interpolate_scalars_and_vectors_witness :
  T.interpolate_values to_rgba_fragment
    (PList [PNum 1; PNum 2; PNum 3]) (PList [PNum 4; PNum 5; PNum 6]) 0.5
  = Ok (PList [PNum (1 + (4 - 1) * 0.5); PNum (2 + (5 - 2) * 0.5); PNum (3 + (6 - 3) * 0.5)])
  /\ T.interpolate_values to_rgba_fragment
       (PList [PNum 0; PNum 0; PNum 0]) (PList [PNum 10; PNum 20]) 0.25
     = Ok (if Rlt_dec 0.25 0.5 then PList [PNum 0; PNum 0; PNum 0]
           else PList [PNum 10; PNum 20])
  /\ S.interpolate_values (PArr [0; 0; 0]) (PArr [10; 20; 30]) 0.5
     = Ok (PArr [0 + (10 - 0) * 0.5; 0 + (20 - 0) * 0.5; 0 + (30 - 0) * 0.5])
  /\ S.interpolate_values (PArr [0; 0; 0]) (PArr [10; 20]) 0.5 = Raise ValueError.
Proof.
  destruct (interpolate_scalars_and_vectors to_rgba_fragment 0.5)
    as (_ & Harr & Hseq & _ & Hbad).
  destruct (interpolate_scalars_and_vectors to_rgba_fragment 0.25)
    as (_ & _ & _ & Hneq & _).
  split; [| split; [| split]].
  - apply (Hseq false false [1; 2; 3] [4; 5; 6]). reflexivity.
  - apply (Hneq false false [PNum 0; PNum 0; PNum 0] [PNum 10; PNum 20]).
    simpl. lia.
  - apply (Harr [0; 0; 0] [10; 20; 30]). reflexivity.
  - apply (Hbad [0; 0; 0] [10; 20]); simpl; lia.
Defined.

(** *** Colours *)

Lemma interpolate_colour_strings to_rgba s e progress r0 g0 b0 a0 r1 g1 b1 a1 :
  to_rgba (PStr s) = Some (r0, g0, b0, a0) ->
  to_rgba (PStr e) = Some (r1, g1, b1, a1) ->
  T.interpolate_values to_rgba (PStr s) (PStr e) progress
  = Ok (PList [PNum (r0 + (r1 - r0) * progress);
               PNum (g0 + (g1 - g0) * progress);
               PNum (b0 + (b1 - b0) * progress)]).
Proof.
  intros Hs He. cbn. unfold T.interpolate_strings, T.to_rgb.
  rewrite Hs, He. reflexivity.
Qed.

(** The string branch calls the function itself on the two RGB tuples. *)
Lemma interpolate_strings_unfold to_rgba s e progress start_rgb end_rgb :
  T.to_rgb to_rgba (PStr s) = Some start_rgb ->
  T.to_rgb to_rgba (PStr e) = Some end_rgb ->
  T.interpolate_values to_rgba (PStr s) (PStr e) progress
  = T.interpolate_values to_rgba (T.rgb_tuple start_rgb) (T.rgb_tuple end_rgb) progress.
Proof.
  intros Hs He. cbn. unfold T.interpolate_strings. rewrite Hs, He.
  destruct start_rgb as [[r0 g0] b0], end_rgb as [[r1 g1] b1]. reflexivity.
Qed.

(** C3 (claim as written, refuted).  "red" is a colour and "no-such-colour"
    is not: at progress 0.75 [transitions.interpolate_values] answers with
    the "to" value, not with the "from" value, and
    [smooth_transitions.interpolate_colors] raises. *)
Lemma failed_conversion_is_no_from_fallback :
  T.interpolate_values to_rgba_fragment (PStr "red") (PStr "no-such-colour") 0.75
    = Ok (PStr "no-such-colour")
  /\ T.interpolate_values to_rgba_fragment (PStr "red") (PStr "no-such-colour") 0.75
    <> Ok (PStr "red")
  /\ S.interpolate_colors to_rgba_fragment (PStr "red") (PStr "no-such-colour") 0.75
    = Raise ValueError.
Proof.
  assert (E : T.interpolate_values to_rgba_fragment (PStr "red") (PStr "no-such-colour") 0.75
              = Ok (PStr "no-such-colour")).
  { rewrite interpolate_strings_fallback by (right; reflexivity).
    now rewrite threshold_high by lra. }
  split; [exact E | split].
  - rewrite E. discriminate.
  - reflexivity.
Qed.

(** C3 (amended).  [smooth_transitions.interpolate_colors] converts both
    inputs with [to_rgba] and blends the four channels, alpha included; when
    a conversion fails it raises [ValueError].  In [transitions.py] two RGBA
    tuples blend channel by channel, alpha included, so that (1,0,0,1) and
    (0,0,1,1) meet at (0.5,0,0.5,1); two colour strings are converted with
    [to_rgb] and blend on red, green and blue only; when the conversion of
    either string fails the answer is the "from" value below progress 0.5
    and the "to" value from there on. *)
Theorem interpolate_colours (to_rgba : pyval -> option rgba) (progress : R) :
  (forall from_color to_color r0 g0 b0 a0 r1 g1 b1 a1,
     to_rgba from_color = Some (r0, g0, b0, a0) ->
     to_rgba to_color = Some (r1, g1, b1, a1) ->
     S.interpolate_colors to_rgba from_color to_color progress
     = Ok (r0 + (r1 - r0) * progress, g0 + (g1 - g0) * progress,
           b0 + (b1 - b0) * progress, a0 + (a1 - a0) * progress))
  /\ (forall from_color to_color,
        to_rgba from_color = None \/ to_rgba to_color = None ->
        S.interpolate_colors to_rgba from_color to_color progress = Raise ValueError)
  /\ (forall (s t : bool) r0 g0 b0 a0 r1 g1 b1 a1,
        T.interpolate_values to_rgba
          (sequence s [PNum r0; PNum g0; PNum b0; PNum a0])
          (sequence t [PNum r1; PNum g1; PNum b1; PNum a1]) progress
        = Ok (PList [PNum (r0 + (r1 - r0) * progress); PNum (g0 + (g1 - g0) * progress);
                     PNum (b0 + (b1 - b0) * progress); PNum (a0 + (a1 - a0) * progress)]))
  /\ (forall s e r0 g0 b0 a0 r1 g1 b1 a1,
        to_rgba (PStr s) = Some (r0, g0, b0, a0) ->
        to_rgba (PStr e) = Some (r1, g1, b1, a1) ->
        T.interpolate_values to_rgba (PStr s) (PStr e) progress
        = Ok (PList [PNum (r0 + (r1 - r0) * progress); PNum (g0 + (g1 - g0) * progress);
                     PNum (b0 + (b1 - b0) * progress)]))
  /\ (forall s e,
        to_rgba (PStr s) = None \/ to_rgba (PStr e) = None ->
        T.interpolate_values to_rgba (PStr s) (PStr e) progress
        = Ok (if Rlt_dec progress 0.5 then PStr s else PStr e))
  /\ (progress = 0.5 ->
      T.interpolate_values to_rgba
        (PTuple [PNum 1; PNum 0; PNum 0; PNum 1])
        (PTuple [PNum 0; PNum 0; PNum 1; PNum 1]) progress
      = Ok (PList [PNum 0.5; PNum 0; PNum 0.5; PNum 1])).
Proof.
  split; [| split; [| split; [| split; [| split]]]].
  - intros from_color to_color r0 g0 b0 a0 r1 g1 b1 a1 H0 H1.
    unfold S.interpolate_colors. now rewrite H0, H1.
  - intros from_color to_color [H | H]; unfold S.interpolate_colors; rewrite H.
    + reflexivity.
    + now destruct (to_rgba from_color) as [[[[r0 g0] b0] a0] |].
  - intros s t r0 g0 b0 a0 r1 g1 b1 a1. now destruct s, t.
  - intros s e r0 g0 b0 a0 r1 g1 b1 a1. apply interpolate_colour_strings.
  - intros s e H. now apply interpolate_strings_fallback.
  - intros ->. cbn.
    replace (1 + (0 - 1) * 0.5) with 0.5 by lra.
    replace (0 + (0 - 0) * 0.5) with 0 by lra.
    replace (0 + (1 - 0) * 0.5) with 0.5 by lra.
    replace (1 + (1 - 1) * 0.5) with 1 by lra.
    reflexivity.
Qed.

Lemma interpolate_colours_witness :
  S.interpolate_colors to_rgba_fragment
    (PTuple [PNum 1; PNum 0; PNum 0; PNum 1]) (PTuple [PNum 0; PNum 0; PNum 1; PNum 1]) 0.5
  = Ok (1 + (0 - 1) * 0.5, 0 + (0 - 0) * 0.5, 0 + (1 - 0) * 0.5, 1 + (1 - 1) * 0.5)
  /\ T.interpolate_values to_rgba_fragment (PStr "red") (PStr "blue") 0.5
     = Ok (PList [PNum (1 + (0 - 1) * 0.5); PNum (0 + (0 - 0) * 0.5);
                  PNum (0 + (1 - 0) * 0.5)])
  /\ T.interpolate_values to_rgba_fragment (PStr "red") (PStr "no-such-colour") 0.75
     = Ok (if Rlt_dec 0.75 0.5 then PStr "red" else PStr "no-such-colour")
  /\ S.interpolate_colors to_rgba_fragment (PStr "red") (PStr "no-such-colour") 0.75
     = Raise ValueError
  /\ T.interpolate_values to_rgba_fragment
       (PTuple [PNum 1; PNum 0; PNum 0; PNum 1])
       (PTuple [PNum 0; PNum 0; PNum 1; PNum 1]) 0.5
     = Ok (PList [PNum 0.5; PNum 0; PNum 0.5; PNum 1]).
Proof.
  destruct (interpolate_colours to_rgba_fragment 0.5) as (HS & _ & _ & HT & _ & Hex).
  destruct (interpolate_colours to_rgba_fragment 0.75) as (_ & HSbad & _ & _ & HTbad & _).
  assert (U : forall x, x = 0 \/ x = 1 -> in_unit x = true).
  { intros x [-> | ->]; unfold in_unit;
      destruct (Rle_dec 0 _); try lra; destruct (Rle_dec _ 1); try lra; reflexivity. }
  split; [| split; [| split; [| split]]].
  - apply HS; cbn; rewrite !U by auto; reflexivity.
  - apply (HT "red"%string "blue"%string 1 0 0 1 0 0 1 1); reflexivity.
  - apply HTbad. right. reflexivity.
  - apply HSbad. right. reflexivity.
  - apply Hex. reflexivity.
Defined.

(** *** Blending a value with itself *)

Lemma zip_with_lerp_same progress xs : zip_with (lerp progress) xs xs = xs.
Proof.
  induction xs as [|x xs IH]; simpl; [reflexivity |].
  rewrite IH. f_equal. unfold lerp. ring.
Qed.

Lemma np_blend_same xs progress : np_blend xs xs progress = Ok xs.
Proof. rewrite np_blend_same_length by reflexivity. now rewrite zip_with_lerp_same. Qed.

Lemma comprehension_same to_rgba progress vs :
  Forall (fun v => T.interpolate_values to_rgba v v progress = Ok (self_blend to_rgba v)) vs ->
  comprehension (T.interpolate_strings to_rgba) progress vs vs
  = Ok (map (self_blend to_rgba) vs).
Proof.
  induction 1 as [|v vs Hv _ IH]; simpl; [reflexivity |].
  unfold T.interpolate_values in Hv. rewrite Hv. simpl. now rewrite IH.
Qed.

Lemma interpolate_self to_rgba progress v :
  T.interpolate_values to_rgba v v progress = Ok (self_blend to_rgba v).
Proof.
  induction v as [x | xs | vs IH | vs IH | s | n | tag] using pyval_nested_ind.
  - cbn. do 2 f_equal. ring.
  - cbn. now rewrite np_blend_same.
  - change (PList vs) with (sequence false vs) at 1 2. unfold T.interpolate_values.
    rewrite interpolate_with_sequences, Nat.eqb_refl.
    now rewrite comprehension_same.
  - change (PTuple vs) with (sequence true vs) at 1 2. unfold T.interpolate_values.
    rewrite interpolate_with_sequences, Nat.eqb_refl.
    now rewrite comprehension_same.
  - simpl self_blend.
    destruct (to_rgba (PStr s)) as [[[[r g] b] a] |] eqn:E.
    + rewrite (interpolate_colour_strings _ _ _ _ _ _ _ _ _ _ _ _ E E).
      replace (r + (r - r) * progress) with r by ring.
      replace (g + (g - g) * progress) with g by ring.
      replace (b + (b - b) * progress) with b by ring.
      reflexivity.
    + rewrite interpolate_strings_fallback by now left.
      now rewrite threshold_same.
  - cbn. now rewrite threshold_same.
  - cbn. now rewrite threshold_same.
Qed.

Lemma self_blend_plain to_rgba v : plain to_rgba v -> self_blend to_rgba v = v.
Proof.
  induction v as [x | xs | vs IH | vs IH | s | n | tag] using pyval_nested_ind;
    simpl; intro H; try reflexivity; try contradiction.
  - f_equal. induction IH as [|v vs Hv _ IHvs]; simpl; [reflexivity |].
    destruct H as [H1 H2]. rewrite Hv by assumption. f_equal. now apply IHvs.
  - now rewrite H.
Qed.

(** C9 (claim as written, refuted).  The half transparent red "#ff000080"
    blended with itself comes back from [transitions.interpolate_values] as
    the list of three channels (1, 0, 0): not the value that went in, and
    not the same colour either, since read as a colour that list is opaque
    red. *)
Lemma colour_string_identity_fails :
  T.interpolate_values to_rgba_fragment (PStr "#ff000080") (PStr "#ff000080") 0.5
    = Ok (PList [PNum 1; PNum 0; PNum 0])
  /\ T.interpolate_values to_rgba_fragment (PStr "#ff000080") (PStr "#ff000080") 0.5
    <> Ok (PStr "#ff000080")
  /\ to_rgba_fragment (PList [PNum 1; PNum 0; PNum 0])
    <> to_rgba_fragment (PStr "#ff000080").
Proof.
  rewrite interpolate_self. cbn. split; [reflexivity | split; [discriminate |]].
  assert (U : forall x, x = 0 \/ x = 1 -> in_unit x = true).
  { intros x [-> | ->]; unfold in_unit;
      destruct (Rle_dec 0 _); try lra; destruct (Rle_dec _ 1); try lra; reflexivity. }
  rewrite !U by auto. cbn. intro H. injection H as H. lra.
Qed.

(** C9 (amended).  In [transitions.py], blending a value with itself gives,
    at every progress: the same number, the same array, the same
    categorical value; for a list or a tuple, the list of the members each
    blended with itself; for a colour string, the list of its red, green and
    blue channels (no alpha).  A value free of tuples and colour strings
    therefore comes back unchanged.  In [smooth_transitions.py],
    [interpolate_values] gives back the same number and the same array, and
    [interpolate_colors] gives back the RGBA conversion of the colour. *)
Theorem interpolate_identity (to_rgba : pyval -> option rgba) (progress : R) :
  (forall a : pyval,
     T.interpolate_values to_rgba a a progress = Ok (self_blend to_rgba a))
  /\ (forall a : pyval, plain to_rgba a ->
        T.interpolate_values to_rgba a a progress = Ok a)
  /\ (forall (s : bool) (xs : list R),
        T.interpolate_values to_rgba (sequence s (numbers xs)) (sequence s (numbers xs))
          progress = Ok (PList (numbers xs)))
  /\ (forall x : R, S.interpolate_values (PNum x) (PNum x) progress = Ok (PNum x))
  /\ (forall xs : list R, S.interpolate_values (PArr xs) (PArr xs) progress = Ok (PArr xs))
  /\ (forall (a : pyval) (c : rgba), to_rgba a = Some c ->
        S.interpolate_colors to_rgba a a progress = Ok c).
Proof.
  split; [| split; [| split; [| split; [| split]]]].
  - intro a. apply interpolate_self.
  - intros a H. rewrite interpolate_self. now rewrite self_blend_plain.
  - intros s xs. rewrite interpolate_number_lists by reflexivity.
    now rewrite zip_with_lerp_same.
  - intro x. cbn. do 2 f_equal. ring.
  - intro xs. rewrite S_interpolate_arrays, np_blend_same. reflexivity.
  - intros a [[[r g] b] al] H. unfold S.interpolate_colors. rewrite H.
    replace (r + (r - r) * progress) with r by ring.
    replace (g + (g - g) * progress) with g by ring.
    replace (b + (b - b) * progress) with b by ring.
    replace (al + (al - al) * progress) with al by ring.
    reflexivity.
Qed.

Lemma interpolate_identity_witness :
  T.interpolate_values to_rgba_fragment
    (PList [PNum 1; PArr [2; 3]; PStr "solid"]) (PList [PNum 1; PArr [2; 3]; PStr "solid"]) 0.3
  = Ok (PList [PNum 1; PArr [2; 3]; PStr "solid"])
  /\ S.interpolate_colors to_rgba_fragment (PStr "red") (PStr "red") 0.3 = Ok (1, 0, 0, 1).
Proof.
  destruct (interpolate_identity to_rgba_fragment 0.3) as (_ & Hplain & _ & _ & _ & Hcol).
  split.
  - apply Hplain. simpl. repeat split; reflexivity.
  - apply Hcol. reflexivity.
Defined.

(** ** Frame schedule and construction *)

Lemma py_int_nonneg x : 0 <= x -> py_int x = Zfloor x.
Proof. intro H. unfold py_int. now destruct (Rle_dec 0 x). Qed.

Lemma py_range_nonpos n : (n <= 0)%Z -> py_range n = [].
Proof. intro H. unfold py_range. destruct n; try reflexivity. lia. Qed.

Lemma py_range_length n : (0 <= n)%Z -> Z.of_nat (length (py_range n)) = n.
Proof. intro H. unfold py_range. rewrite length_map, length_seq. lia. Qed.

Lemma py_truediv_nonzero a b : b <> 0%Z -> py_truediv a b = Ok (a / IZR b).
Proof. intro H. unfold py_truediv. now destruct (Z.eqb_spec b 0). Qed.

Lemma unknown_plot_type_test plot_type :
  ~ known_plot_type plot_type ->
  String.eqb plot_type "line" = false /\ String.eqb plot_type "scatter" = false
  /\ String.eqb plot_type "bar" = false.
Proof.
  intro H. unfold known_plot_type in H.
  repeat split; apply String.eqb_neq; intro E; apply H; auto.
Qed.

Lemma clamp_T_inside x : 0 <= x <= 1 -> Rmax 0.0 (Rmin 1.0 x) = x.
Proof. intro H. rewrite Rmin_right by lra. rewrite Rmax_right; lra. Qed.

Lemma clamp_S_inside x : 0 <= x <= 1 -> Rmin 1.0 (Rmax 0.0 x) = x.
Proof. intro H. rewrite Rmax_right by lra. rewrite Rmin_right; lra. Qed.

Lemma frame_ratio_bounds n i :
  (1 < n)%Z -> (0 <= i <= n - 1)%Z -> 0 <= IZR i / IZR (n - 1) <= 1.
Proof.
  intros Hn Hi.
  assert (0 < IZR (n - 1)) by (apply IZR_lt; lia).
  assert (0 <= IZR i) by (apply IZR_le; lia).
  assert (IZR i <= IZR (n - 1)) by (apply IZR_le; lia).
  split.
  - apply Rmult_le_pos; [assumption |]. left. now apply Rinv_0_lt_compat.
  - apply Rmult_le_reg_r with (IZR (n - 1)); [assumption |].
    unfold Rdiv. rewrite Rmult_assoc, Rinv_l by lra. lra.
Qed.

Lemma frame_progress_inside n i :
  (1 < n)%Z -> (0 <= i <= n - 1)%Z ->
  T.frame_progress n i = IZR i / IZR (n - 1)
  /\ S.frame_progress n i = IZR i / IZR (n - 1).
Proof.
  intros Hn Hi. pose proof (frame_ratio_bounds n i Hn Hi) as B.
  unfold T.frame_progress, S.frame_progress.
  destruct (Z.ltb_spec 1 n); [| lia].
  now rewrite clamp_T_inside, clamp_S_inside.
Qed.

Lemma frame_progress_single n i :
  (n <= 1)%Z -> T.frame_progress n i = 1 /\ S.frame_progress n i = 1.
Proof.
  intro Hn. unfold T.frame_progress, S.frame_progress.
  destruct (Z.ltb_spec 1 n); [lia |].
  rewrite clamp_T_inside by lra. rewrite clamp_S_inside by lra. split; lra.
Qed.

(** ** Easing lookup *)

Lemma getattr_easing_bound lib cls default name f :
  lookup cls name = Some f ->
  getattr_easing lib cls default name = fun t => Ok (f t).
Proof. unfold getattr_easing. now intros ->. Qed.

Lemma getattr_easing_docstring lib cls default :
  lookup cls "__doc__" = None ->
  getattr_easing lib cls default "__doc__" = fun _ => Raise TypeError.
Proof. unfold getattr_easing. now intros ->. Qed.

Lemma getattr_easing_absent lib cls default name :
  no_attribute lib cls name ->
  getattr_easing lib cls default name = fun t => Ok (default t).
Proof.
  intros (Hc & Hd & Hp). unfold getattr_easing. rewrite Hc, Hp.
  apply String.eqb_neq in Hd. now rewrite Hd.
Qed.

Lemma lookup_In_T name f :
  In (name, f) T.EasingFunctions.attrs -> lookup T.EasingFunctions.attrs name = Some f.
Proof.
  unfold T.EasingFunctions.attrs. intro H.
  repeat (destruct H as [H | H]; [injection H as <- <-; reflexivity |]).
  destruct H.
Qed.

Lemma lookup_In_S name f :
  In (name, f) S.EasingFunctions.attrs -> lookup S.EasingFunctions.attrs name = Some f.
Proof.
  unfold S.EasingFunctions.attrs. intro H.
  repeat (destruct H as [H | H]; [injection H as <- <-; reflexivity |]).
  destruct H.
Qed.

(** ** What the animation delivers *)

Lemma delivered_frames {Frame : Type} (anim : FuncAnimation Frame) (n : Z) :
  frames anim = n ->
  frame_seq anim = map Z.of_nat (seq 0 (Z.to_nat n))
  /\ ((0 <= n)%Z -> Z.of_nat (length (delivered anim)) = n)
  /\ (n = 1%Z -> delivered anim = [func anim 0])
  /\ ((n <= 0)%Z -> delivered anim = []).
Proof.
  intros <-. unfold delivered, frame_seq. split; [reflexivity | split; [| split]].
  - intro H. rewrite length_map. now apply py_range_length.
  - intros ->. reflexivity.
  - intro H. now rewrite py_range_nonpos.
Qed.

Lemma plt_subplots_default :
  plt_subplots library_fragment (dict_get_default [] "figsize" (PTuple [PNum 10; PNum 6]))
  = Ok tt.
Proof.
  cbn. destruct (Rlt_dec 0 10); [| lra]. destruct (Rlt_dec 0 6); [reflexivity | lra].
Qed.

Lemma py_int_exact (x : R) (z : Z) : x = IZR z -> py_int x = z.
Proof.
  intros ->. unfold py_int. destruct (Rle_dec 0 (IZR z)).
  - apply ZfloorZ.
  - apply Zceil_eq. lra.
Qed.

Lemma py_int_below_one (x : R) : 0 <= x < 1 -> py_int x = 0%Z.
Proof.
  intros [H0 H1]. rewrite py_int_nonneg by assumption.
  apply Zfloor_eq. simpl. lra.
Qed.

Section Scheduler.

Variable to_rgba : pyval -> option rgba.
Variable np_array : pyval -> result pyval.
Variable lib : library.

(** C4 (amended).  With a positive duration and a positive frame rate, whose
    float product is then not negative, the constructors ([smooth_transition]
    of both engines and [transition_plot_state]) hand back, when matplotlib's
    calls go through, an animation of [floor(duration * fps)] frames, the
    product being the one the floats compute.  Frame [i] is the blend of the
    two states at the eased progress of [i]: the interpolation of the data
    followed by the drawing calls in [transitions.py], the setter calls on
    the interpolated data in [smooth_transitions.py], the rendering of the
    two figure states in [transition_plot_state].  The animation calls the
    frames [0 .. totalFrames - 1] in order.  When the count exceeds one,
    frame [i] has progress [i / (totalFrames - 1)] clamped to the unit
    interval: 0 for the first index and 1 for the last.  When the count is
    one, the single frame has progress 1; when it is zero, no frame is
    delivered at all.  Two seconds at 30 frames per second are 60 frames. *)
Theorem frame_schedule (duration : R) (fps : Z) :
  0 < duration -> (0 < fps)%Z -> 0 <= float_mul lib duration (IZR fps) ->
  let total_frames := Zfloor (float_mul lib duration (IZR fps)) in
  (forall from_data to_data from_data_norm to_data_norm easing plot_type kwargs,
     T._normalize_data np_array from_data plot_type = Ok from_data_norm ->
     T._normalize_data np_array to_data plot_type = Ok to_data_norm ->
     (new_FuncAnimation lib total_frames (1000 / IZR fps) = Ok tt ->
      exists anim,
        T.smooth_transition to_rgba np_array lib from_data to_data duration fps easing
          plot_type kwargs = Ok anim)
     /\ forall anim,
          T.smooth_transition to_rgba np_array lib from_data to_data duration fps easing
            plot_type kwargs = Ok anim ->
          frames anim = total_frames
          /\ interval anim = 1000 / IZR fps
          /\ forall frame,
               func anim frame
               = (eased_progress <-
                    T.easing_of lib easing (T.frame_progress total_frames frame) ;;
                  current_data <-
                    T.interpolate_data to_rgba from_data_norm to_data_norm eased_progress ;;
                  T.draw plot_type kwargs current_data))
  /\ (forall from_data to_data easing plot_type kwargs,
        (forall limits,
           plt_subplots lib (dict_get_default kwargs "figsize" (PTuple [PNum 10; PNum 6]))
           = Ok tt ->
           S.first_drawing lib from_data plot_type kwargs = Ok tt ->
           S.axis_limits np_array from_data to_data = Ok limits ->
           new_FuncAnimation lib total_frames (1000 / IZR fps) = Ok tt ->
           exists anim,
             S.smooth_transition to_rgba np_array lib from_data to_data duration fps easing
               plot_type kwargs = Ok anim)
        /\ forall anim,
             S.smooth_transition to_rgba np_array lib from_data to_data duration fps easing
               plot_type kwargs = Ok anim ->
             frames anim = total_frames
             /\ interval anim = 1000 / IZR fps
             /\ forall frame,
                  func anim frame
                  = (eased_progress <-
                       getattr_easing lib S.EasingFunctions.attrs S.EasingFunctions.linear
                         easing (S.frame_progress total_frames frame) ;;
                     if String.eqb plot_type "line"
                     then S.animate_line to_rgba np_array from_data to_data eased_progress
                     else if String.eqb plot_type "scatter"
                     then S.animate_scatter to_rgba np_array lib from_data to_data
                            eased_progress
                     else if String.eqb plot_type "bar"
                     then S.animate_bar to_rgba np_array from_data to_data eased_progress
                     else Ok []))
  /\ (forall from_states to_states easing,
        (new_FuncAnimation lib total_frames (1000 / IZR fps) = Ok tt ->
         exists anim,
           T.transition_plot_state to_rgba lib from_states to_states duration fps easing
           = Ok anim)
        /\ forall anim,
             T.transition_plot_state to_rgba lib from_states to_states duration fps easing
             = Ok anim ->
             frames anim = total_frames
             /\ interval anim = 1000 / IZR fps
             /\ forall frame,
                  func anim frame
                  = (eased_progress <-
                       T.easing_of lib easing (T.frame_progress total_frames frame) ;;
                     T._render_interpolated_figure to_rgba from_states to_states
                       eased_progress))
  /\ (forall (Frame : Type) (anim : FuncAnimation Frame),
        frames anim = total_frames ->
        frame_seq anim = map Z.of_nat (seq 0 (Z.to_nat total_frames))
        /\ Z.of_nat (length (delivered anim)) = total_frames
        /\ (total_frames = 1%Z -> delivered anim = [func anim 0])
        /\ (total_frames = 0%Z -> delivered anim = []))
  /\ ((1 < total_frames)%Z ->
      (forall i : Z,
         T.frame_progress total_frames i = Rmax 0 (Rmin 1 (IZR i / IZR (total_frames - 1)))
         /\ S.frame_progress total_frames i
            = Rmin 1 (Rmax 0 (IZR i / IZR (total_frames - 1))))
      /\ (forall i : Z, (0 <= i <= total_frames - 1)%Z ->
            T.frame_progress total_frames i = IZR i / IZR (total_frames - 1)
            /\ S.frame_progress total_frames i = IZR i / IZR (total_frames - 1))
      /\ T.frame_progress total_frames 0 = 0
      /\ S.frame_progress total_frames 0 = 0
      /\ T.frame_progress total_frames (total_frames - 1) = 1
      /\ S.frame_progress total_frames (total_frames - 1) = 1)
  /\ ((total_frames <= 1)%Z ->
      forall i : Z,
        T.frame_progress total_frames i = 1 /\ S.frame_progress total_frames i = 1)
  /\ (duration = 2.0 -> fps = 30%Z -> float_mul lib 2.0 30 = 60 -> total_frames = 60%Z).
Proof.
  intros Hd Hf Hprod total_frames.
  assert (Hint : py_int (float_mul lib duration (IZR fps)) = total_frames)
    by now apply py_int_nonneg.
  assert (Hnz : fps <> 0%Z) by lia.
  assert (Hnonneg : (0 <= total_frames)%Z).
  { unfold total_frames. apply Zfloor_lub. exact Hprod. }
  split; [| split; [| split; [| split; [| split; [| split]]]]].
  - intros from_data to_data from_data_norm to_data_norm easing plot_type kwargs Hfrom Hto.
    unfold T.smooth_transition. rewrite Hfrom, Hto. cbn [bind].
    rewrite py_truediv_nonzero by assumption. cbn [bind]. rewrite Hint.
    split.
    + intros ->. cbn [bind]. eexists. reflexivity.
    + intros anim H.
      destruct (new_FuncAnimation lib total_frames (1000 / IZR fps)); cbn [bind] in H;
        [| discriminate H].
      injection H as <-. cbn [frames interval func]. repeat split.
  - intros from_data to_data easing plot_type kwargs.
    unfold S.smooth_transition. rewrite Hint. split.
    + intros limits -> -> -> . cbn [bind].
      rewrite py_truediv_nonzero by assumption. cbn [bind].
      intros ->. cbn [bind]. eexists. reflexivity.
    + intros anim H. bind_ok H.
      rewrite py_truediv_nonzero in E2 by assumption. injection E2 as <-.
      injection H as <-. cbn [frames interval func]. repeat split.
  - intros from_states to_states easing.
    unfold T.transition_plot_state.
    rewrite py_truediv_nonzero by assumption. cbn [bind]. rewrite Hint. split.
    + intros ->. cbn [bind]. eexists. reflexivity.
    + intros anim H. bind_ok H. injection H as <-.
      cbn [frames interval func]. repeat split.
  - intros Frame anim Hn.
    destruct (delivered_frames anim total_frames Hn) as (H1 & H2 & H3 & H4).
    split; [exact H1 | split; [now apply H2 | split; [exact H3 |]]].
    intro H0. apply H4. lia.
  - intro Hgt. split; [| split; [| repeat split]].
    + intro i. unfold T.frame_progress, S.frame_progress.
      destruct (Z.ltb_spec 1 total_frames); [| lia].
      replace 0.0 with 0 by lra. replace 1.0 with 1 by lra. split; reflexivity.
    + intros i Hi. now apply frame_progress_inside.
    + destruct (frame_progress_inside total_frames 0 Hgt) as [E _]; [lia |].
      rewrite E. unfold Rdiv. apply Rmult_0_l.
    + destruct (frame_progress_inside total_frames 0 Hgt) as [_ E]; [lia |].
      rewrite E. unfold Rdiv. apply Rmult_0_l.
    + destruct (frame_progress_inside total_frames (total_frames - 1) Hgt) as [E _]; [lia |].
      rewrite E. apply Rdiv_diag. apply not_0_IZR. lia.
    + destruct (frame_progress_inside total_frames (total_frames - 1) Hgt) as [_ E]; [lia |].
      rewrite E. apply Rdiv_diag. apply not_0_IZR. lia.
  - intros Hle i. now apply frame_progress_single.
  - intros Ed Ef E. unfold total_frames. rewrite Ed, Ef, E. apply ZfloorZ.
Qed.

End Scheduler.

(** C4 (claim as written, refuted).  Half a second at one frame per second:
    the duration and the frame rate are positive and the frame count is 0,
    which is at most 1; the animation is handed back and delivers no frame,
    so there is no single rendered frame at progress 1. *)
Lemma no_frame_at_count_zero :
  exists anim,
    T.smooth_transition to_rgba_fragment np_array_fragment library_fragment
      (T.DataDict [("y"%string, PArr [1; 2])]) (T.DataDict [("y"%string, PArr [3; 4])])
      0.5 1 (T.EasingName "linear") "line" [] = Ok anim
    /\ 0 < 0.5 /\ (0 < 1)%Z
    /\ frames anim = 0%Z
    /\ delivered anim = [].
Proof.
  assert (E0 : py_int (float_mul library_fragment 0.5 (IZR 1)) = 0%Z).
  { apply py_int_below_one. cbn. lra. }
  unfold T.smooth_transition. cbn [T._normalize_data bind]. rewrite E0.
  cbn. eexists. split; [reflexivity |]. split; [lra |]. split; [lia |].
  split; reflexivity.
Qed.

Lemma frame_schedule_witness :
  exists animT animS,
    T.smooth_transition to_rgba_fragment np_array_fragment library_fragment
      (T.DataVal (PList [PNum 1; PNum 2])) (T.DataVal (PList [PNum 3; PNum 4]))
      2.0 30 (T.EasingName "ease_in_out_quad") "line" [] = Ok animT
    /\ frames animT = 60%Z
    /\ (forall frame,
          let e := T.EasingFunctions.ease_in_out_quad (T.frame_progress 60 frame) in
          func animT frame
          = Ok [T.ax_plot (PRange 2) (PArr [1 + (3 - 1) * e; 2 + (4 - 2) * e]) []])
    /\ Z.of_nat (length (delivered animT)) = 60%Z
    /\ S.smooth_transition to_rgba_fragment np_array_fragment library_fragment
         [("x"%string, PList [PNum 0; PNum 1]); ("y"%string, PList [PNum 1; PNum 2])]
         [("x"%string, PList [PNum 0; PNum 1]); ("y"%string, PList [PNum 3; PNum 4])]
         2.0 30 "ease_in_out_quad" "line" [] = Ok animS
    /\ frames animS = 60%Z
    /\ (forall frame,
          let e := S.EasingFunctions.ease_in_out_quad (S.frame_progress 60 frame) in
          func animS frame
          = Ok [S.set_ydata (PArr [1 + (3 - 1) * e; 2 + (4 - 2) * e]);
                S.set_xdata (PArr [0 + (0 - 0) * e; 1 + (1 - 1) * e])])
    /\ T.frame_progress 60 0 = 0
    /\ T.frame_progress 60 59 = 1.
Proof.
  assert (Hd : 0 < 2.0) by lra.
  assert (Hf : (0 < 30)%Z) by lia.
  assert (Hp : 0 <= float_mul library_fragment 2.0 (IZR 30)) by (cbn; lra).
  destruct (frame_schedule to_rgba_fragment np_array_fragment library_fragment 2.0 30
              Hd Hf Hp) as (HT & HS & _ & Hdel & Hmany & _ & H60).
  assert (E60 : Zfloor (float_mul library_fragment 2.0 (IZR 30)) = 60%Z).
  { apply H60; try reflexivity. cbn. lra. }
  rewrite E60 in HT, HS, Hdel, Hmany.
  destruct (HT (T.DataVal (PList [PNum 1; PNum 2])) (T.DataVal (PList [PNum 3; PNum 4]))
              _ _ (T.EasingName "ease_in_out_quad") "line"%string [] eq_refl eq_refl)
    as (HTex & HTfr).
  destruct HTex as [animT HanimT]; [reflexivity |].
  destruct (HS [("x"%string, PList [PNum 0; PNum 1]); ("y"%string, PList [PNum 1; PNum 2])]
              [("x"%string, PList [PNum 0; PNum 1]); ("y"%string, PList [PNum 3; PNum 4])]
              "ease_in_out_quad"%string "line"%string []) as (HSex & HSfr).
  destruct (HSex _ plt_subplots_default eq_refl eq_refl eq_refl) as [animS HanimS].
  destruct (HTfr animT HanimT) as (HTn & _ & HTframes).
  destruct (HSfr animS HanimS) as (HSn & _ & HSframes).
  destruct (Hdel _ animT HTn) as (_ & Hlen & _).
  destruct Hmany as (_ & _ & Hfirst & _ & Hlast & _); [lia |].
  exists animT, animS.
  split; [exact HanimT |]. split; [exact HTn |].
  split; [intros frame e; rewrite HTframes; reflexivity |].
  split; [exact Hlen |]. split; [exact HanimS |]. split; [exact HSn |].
  split; [intros frame e; rewrite HSframes; reflexivity |].
  split; [exact Hfirst | exact Hlast].
Defined.

(** C5 (claim as written, refuted).  A duration of zero with valid data: both
    constructors hand the animation object back, with no frame in it;
    nothing is raised. *)
Lemma nonpositive_descriptor_constructs :
  (exists anim,
     T.smooth_transition to_rgba_fragment np_array_fragment library_fragment
       (T.DataDict [("y"%string, PArr [1; 2])]) (T.DataDict [("y"%string, PArr [3; 4])])
       0 30 (T.EasingName "linear") "line" [] = Ok anim
     /\ frames anim = 0%Z
     /\ delivered anim = [])
  /\ (exists anim,
        S.smooth_transition to_rgba_fragment np_array_fragment library_fragment
          [("x"%string, PList [PNum 0; PNum 1]); ("y"%string, PList [PNum 1; PNum 2])]
          [("x"%string, PList [PNum 0; PNum 1]); ("y"%string, PList [PNum 3; PNum 4])]
          0 30 "linear" "line" [] = Ok anim
        /\ frames anim = 0%Z
        /\ delivered anim = []).
Proof.
  assert (E0 : py_int (float_mul library_fragment 0 (IZR 30)) = 0%Z).
  { apply py_int_below_one. cbn. lra. }
  split.
  - unfold T.smooth_transition. cbn [T._normalize_data bind]. rewrite E0.
    cbn. eexists. split; [reflexivity |]. split; reflexivity.
  - unfold S.smooth_transition. rewrite E0, plt_subplots_default.
    cbn. eexists. split; [reflexivity |]. split; reflexivity.
Qed.

Section Construction.

Variable to_rgba : pyval -> option rgba.
Variable np_array : pyval -> result pyval.
Variable lib : library.

(** C5 (amended).  An unrecognized plot type is refused with [ValueError]
    by the constructor, before any animation object exists: in
    [smooth_transitions.py] as soon as [plt.subplots] has returned, and in
    [transitions.py] when one of the two data arguments is not a dict.
    Neither constructor checks the duration or the frame rate.  Once the
    data is accepted (in [smooth_transitions.py]: the figure made, the first
    drawing and the axis limits gone through), a frame rate of zero stops
    the constructor at [1000/fps] with [ZeroDivisionError]; any other
    duration and frame rate reach [FuncAnimation] with [int(duration * fps)]
    frames, and the constructor raises what that call raises or hands back
    the animation object, which delivers no frame when the count is not
    positive. *)
Theorem construction_errors (duration : R) (fps : Z) (plot_type : string) :
  (~ known_plot_type plot_type ->
   (forall from_data to_data easing kwargs,
      plt_subplots lib (dict_get_default kwargs "figsize" (PTuple [PNum 10; PNum 6]))
      = Ok tt ->
      S.smooth_transition to_rgba np_array lib from_data to_data duration fps easing
        plot_type kwargs = Raise ValueError)
   /\ (forall v to_data easing kwargs,
         T.smooth_transition to_rgba np_array lib (T.DataVal v) to_data duration fps easing
           plot_type kwargs = Raise ValueError)
   /\ (forall d v easing kwargs,
         T.smooth_transition to_rgba np_array lib (T.DataDict d) (T.DataVal v) duration fps
           easing plot_type kwargs = Raise ValueError))
  /\ (fps = 0%Z ->
      (forall from_data to_data easing kwargs limits,
         plt_subplots lib (dict_get_default kwargs "figsize" (PTuple [PNum 10; PNum 6]))
         = Ok tt ->
         S.first_drawing lib from_data plot_type kwargs = Ok tt ->
         S.axis_limits np_array from_data to_data = Ok limits ->
         S.smooth_transition to_rgba np_array lib from_data to_data duration fps easing
           plot_type kwargs = Raise ZeroDivisionError)
      /\ (forall from_data to_data easing kwargs,
            T.smooth_transition to_rgba np_array lib (T.DataDict from_data)
              (T.DataDict to_data) duration fps easing plot_type kwargs
            = Raise ZeroDivisionError))
  /\ (fps <> 0%Z ->
      let n := py_int (float_mul lib duration (IZR fps)) in
      (forall from_data to_data easing kwargs,
         (forall e, new_FuncAnimation lib n (1000 / IZR fps) = Raise e ->
            T.smooth_transition to_rgba np_array lib (T.DataDict from_data)
              (T.DataDict to_data) duration fps easing plot_type kwargs = Raise e)
         /\ (new_FuncAnimation lib n (1000 / IZR fps) = Ok tt ->
             exists anim,
               T.smooth_transition to_rgba np_array lib (T.DataDict from_data)
                 (T.DataDict to_data) duration fps easing plot_type kwargs = Ok anim
               /\ frames anim = n
               /\ ((n <= 0)%Z -> delivered anim = [])))
      /\ (forall from_data to_data easing kwargs limits,
            plt_subplots lib (dict_get_default kwargs "figsize" (PTuple [PNum 10; PNum 6]))
            = Ok tt ->
            S.first_drawing lib from_data plot_type kwargs = Ok tt ->
            S.axis_limits np_array from_data to_data = Ok limits ->
            (forall e, new_FuncAnimation lib n (1000 / IZR fps) = Raise e ->
               S.smooth_transition to_rgba np_array lib from_data to_data duration fps
                 easing plot_type kwargs = Raise e)
            /\ (new_FuncAnimation lib n (1000 / IZR fps) = Ok tt ->
                exists anim,
                  S.smooth_transition to_rgba np_array lib from_data to_data duration fps
                    easing plot_type kwargs = Ok anim
                  /\ frames anim = n
                  /\ ((n <= 0)%Z -> delivered anim = [])))).
Proof.
  split; [| split].
  - intro Hu. destruct (unknown_plot_type_test _ Hu) as (E1 & E2 & E3).
    split; [| split].
    + intros from_data to_data easing kwargs Hfig. unfold S.smooth_transition.
      rewrite Hfig. cbn [bind]. unfold S.first_drawing. now rewrite E1, E2, E3.
    + intros. unfold T.smooth_transition, T._normalize_data. now rewrite E1, E2, E3.
    + intros. unfold T.smooth_transition, T._normalize_data. now rewrite E1, E2, E3.
  - intros ->. split.
    + intros from_data to_data easing kwargs limits Hfig Hdraw Hlim.
      unfold S.smooth_transition. now rewrite Hfig, Hdraw, Hlim.
    + reflexivity.
  - intros Hnz n. split.
    + intros from_data to_data easing kwargs.
      unfold T.smooth_transition. cbn [T._normalize_data bind].
      rewrite py_truediv_nonzero by assumption. cbn [bind]. fold n. split.
      * intros e ->. reflexivity.
      * intros ->. cbn [bind]. eexists. split; [reflexivity |].
        split; [reflexivity |]. intro Hle.
        unfold delivered, frame_seq. cbn [frames].
        now rewrite py_range_nonpos.
    + intros from_data to_data easing kwargs limits Hfig Hdraw Hlim.
      unfold S.smooth_transition. rewrite Hfig, Hdraw, Hlim. cbn [bind].
      rewrite py_truediv_nonzero by assumption. cbn [bind]. fold n. split.
      * intros e ->. reflexivity.
      * intros ->. cbn [bind]. eexists. split; [reflexivity |].
        split; [reflexivity |]. intro Hle.
        unfold delivered, frame_seq. cbn [frames].
        now rewrite py_range_nonpos.
Qed.

End Construction.

Lemma construction_errors_witness :
  S.smooth_transition to_rgba_fragment np_array_fragment library_fragment
    [("x"%string, PList [PNum 0; PNum 1]); ("y"%string, PList [PNum 1; PNum 2])]
    [("x"%string, PList [PNum 0; PNum 1]); ("y"%string, PList [PNum 3; PNum 4])]
    1 30 "linear" "pie" [] = Raise ValueError
  /\ T.smooth_transition to_rgba_fragment np_array_fragment library_fragment
       (T.DataVal (PList [PNum 1; PNum 2])) (T.DataVal (PList [PNum 3; PNum 4]))
       1 30 (T.EasingName "linear") "pie" [] = Raise ValueError
  /\ S.smooth_transition to_rgba_fragment np_array_fragment library_fragment
       [("x"%string, PList [PNum 0; PNum 1]); ("y"%string, PList [PNum 1; PNum 2])]
       [("x"%string, PList [PNum 0; PNum 1]); ("y"%string, PList [PNum 3; PNum 4])]
       1 0 "linear" "line" [] = Raise ZeroDivisionError
  /\ T.smooth_transition to_rgba_fragment np_array_fragment library_fragment
       (T.DataDict [("y"%string, PArr [1; 2])]) (T.DataDict [("y"%string, PArr [3; 4])])
       1 0 (T.EasingName "linear") "line" [] = Raise ZeroDivisionError
  /\ (exists anim,
        T.smooth_transition to_rgba_fragment np_array_fragment library_fragment
          (T.DataDict [("y"%string, PArr [1; 2])]) (T.DataDict [("y"%string, PArr [3; 4])])
          0 30 (T.EasingName "linear") "line" [] = Ok anim
        /\ frames anim = py_int (float_mul library_fragment 0 (IZR 30))
        /\ delivered anim = []).
Proof.
  assert (Hpie : ~ known_plot_type "pie").
  { intros [H | [H | H]]; discriminate. }
  assert (E0 : py_int (float_mul library_fragment 0 (IZR 30)) = 0%Z).
  { apply py_int_below_one. cbn. lra. }
  destruct (construction_errors to_rgba_fragment np_array_fragment library_fragment
              1 30 "pie") as ((HS & HT & _) & _ & _); [exact Hpie |].
  destruct (construction_errors to_rgba_fragment np_array_fragment library_fragment
              1 0 "line") as (_ & (HZS & HZT) & _); [reflexivity |].
  destruct (construction_errors to_rgba_fragment np_array_fragment library_fragment
              0 30 "line") as (_ & _ & (HN & _)); [discriminate |].
  split; [apply HS; exact plt_subplots_default | split; [apply HT | split; [| split]]].
  - eapply HZS; [exact plt_subplots_default | reflexivity | reflexivity].
  - apply HZT.
  - destruct (HN [("y"%string, PArr [1; 2])] [("y"%string, PArr [3; 4])]
                (T.EasingName "linear") []) as [_ Hok].
    destruct Hok as (anim & Hanim & Hn & Hdel).
    + rewrite E0. reflexivity.
    + exists anim. split; [exact Hanim | split; [exact Hn |]].
      apply Hdel. rewrite E0. lia.
Defined.

Section Fallback.

Variable to_rgba : pyval -> option rgba.
Variable np_array : pyval -> result pyval.
Variable lib : library.

(** C7 (the code against the claim).  An easing name that is no attribute
    of the [EasingFunctions] class at all selects [linear]: the eased
    progress of every frame is the progress itself, and the constructors
    behave exactly as for the name "linear".  But ["__doc__"], which denotes
    no easing function, is not such a name: [getattr] finds the docstring of
    the class, the constructors take it for the easing function and hand the
    animation back, and every frame then raises [TypeError] where it calls
    it; no frame is produced and [linear] is not used. *)
Theorem docstring_taken_for_easing :
  (forall progress : R,
     T.easing_of lib (T.EasingName "__doc__") progress = Raise TypeError
     /\ getattr_easing lib S.EasingFunctions.attrs S.EasingFunctions.linear "__doc__"
          progress = Raise TypeError)
  /\ (forall from_data to_data duration fps plot_type kwargs anim,
        T.smooth_transition to_rgba np_array lib from_data to_data duration fps
          (T.EasingName "__doc__") plot_type kwargs = Ok anim ->
        forall frame, func anim frame = Raise TypeError)
  /\ (forall from_data to_data duration fps plot_type kwargs anim,
        S.smooth_transition to_rgba np_array lib from_data to_data duration fps
          "__doc__" plot_type kwargs = Ok anim ->
        forall frame, func anim frame = Raise TypeError)
  /\ (forall from_states to_states duration fps anim,
        T.transition_plot_state to_rgba lib from_states to_states duration fps
          (T.EasingName "__doc__") = Ok anim ->
        forall frame, func anim frame = Raise TypeError)
  /\ (forall name : string, no_attribute lib T.EasingFunctions.attrs name ->
        (forall progress : R, T.easing_of lib (T.EasingName name) progress = Ok progress)
        /\ (forall from_data to_data duration fps plot_type kwargs,
              T.smooth_transition to_rgba np_array lib from_data to_data duration fps
                (T.EasingName name) plot_type kwargs
              = T.smooth_transition to_rgba np_array lib from_data to_data duration fps
                  (T.EasingName "linear") plot_type kwargs)
        /\ (forall from_states to_states duration fps,
              T.transition_plot_state to_rgba lib from_states to_states duration fps
                (T.EasingName name)
              = T.transition_plot_state to_rgba lib from_states to_states duration fps
                  (T.EasingName "linear")))
  /\ (forall name : string, no_attribute lib S.EasingFunctions.attrs name ->
        (forall progress : R,
           getattr_easing lib S.EasingFunctions.attrs S.EasingFunctions.linear name progress
           = Ok progress)
        /\ (forall from_data to_data duration fps plot_type kwargs,
              S.smooth_transition to_rgba np_array lib from_data to_data duration fps name
                plot_type kwargs
              = S.smooth_transition to_rgba np_array lib from_data to_data duration fps
                  "linear" plot_type kwargs)).
Proof.
  assert (DT : getattr_easing lib T.EasingFunctions.attrs T.EasingFunctions.linear "__doc__"
               = fun _ => Raise TypeError).
  { now apply getattr_easing_docstring. }
  assert (DS : getattr_easing lib S.EasingFunctions.attrs S.EasingFunctions.linear "__doc__"
               = fun _ => Raise TypeError).
  { now apply getattr_easing_docstring. }
  split; [| split; [| split; [| split; [| split]]]].
  - intro progress. cbn [T.easing_of]. now rewrite DT, DS.
  - intros from_data to_data duration fps plot_type kwargs anim H frame.
    unfold T.smooth_transition in H. bind_ok H. injection H as <-.
    cbn [func T.easing_of]. unfold T.animate. rewrite ?DT. reflexivity.
  - intros from_data to_data duration fps plot_type kwargs anim H frame.
    unfold S.smooth_transition in H. bind_ok H. injection H as <-.
    cbn [func]. unfold S.animate. rewrite ?DS. reflexivity.
  - intros from_states to_states duration fps anim H frame.
    unfold T.transition_plot_state in H. bind_ok H. injection H as <-.
    cbn [func T.easing_of]. rewrite ?DT. reflexivity.
  - intros name Hno.
    assert (E : T.easing_of lib (T.EasingName name)
                = T.easing_of lib (T.EasingName "linear")).
    { cbn [T.easing_of]. rewrite (getattr_easing_absent _ _ _ _ Hno).
      now rewrite (getattr_easing_bound _ _ _ "linear" T.EasingFunctions.linear). }
    split; [| split].
    + intro progress. cbn [T.easing_of].
      now rewrite (getattr_easing_absent _ _ _ _ Hno).
    + intros. unfold T.smooth_transition. now rewrite E.
    + intros. unfold T.transition_plot_state. now rewrite E.
  - intros name Hno.
    assert (E : getattr_easing lib S.EasingFunctions.attrs S.EasingFunctions.linear name
                = getattr_easing lib S.EasingFunctions.attrs S.EasingFunctions.linear
                    "linear").
    { rewrite (getattr_easing_absent _ _ _ _ Hno).
      now rewrite (getattr_easing_bound _ _ _ "linear" S.EasingFunctions.linear). }
    split.
    + intro progress. now rewrite (getattr_easing_absent _ _ _ _ Hno).
    + intros. unfold S.smooth_transition. now rewrite E.
Qed.

End Fallback.

Lemma docstring_taken_for_easing_witness :
  (exists anim,
     T.smooth_transition to_rgba_fragment np_array_fragment library_fragment
       (T.DataDict [("y"%string, PArr [1; 2])]) (T.DataDict [("y"%string, PArr [3; 4])])
       1 10 (T.EasingName "__doc__") "line" [] = Ok anim
     /\ forall frame, func anim frame = Raise TypeError)
  /\ (exists anim,
        T.smooth_transition to_rgba_fragment np_array_fragment library_fragment
          (T.DataDict [("y"%string, PArr [1; 2])]) (T.DataDict [("y"%string, PArr [3; 4])])
          1 10 (T.EasingName "linear") "line" [] = Ok anim
        /\ func anim 9
           = Ok [T.ax_plot (PRange 2)
                   (PArr [1 + (3 - 1) * T.frame_progress 10 9;
                          2 + (4 - 2) * T.frame_progress 10 9]) []])
  /\ (forall progress : R,
        T.easing_of library_fragment (T.EasingName "bounce") progress = Ok progress).
Proof.
  destruct (docstring_taken_for_easing to_rgba_fragment np_array_fragment library_fragment)
    as (_ & HT & _ & _ & Hno & _).
  assert (E10 : py_int (float_mul library_fragment 1 (IZR 10)) = 10%Z).
  { apply py_int_exact. cbn. lra. }
  split; [| split].
  - assert (Hanim : exists anim,
              T.smooth_transition to_rgba_fragment np_array_fragment library_fragment
                (T.DataDict [("y"%string, PArr [1; 2])])
                (T.DataDict [("y"%string, PArr [3; 4])])
                1 10 (T.EasingName "__doc__") "line" [] = Ok anim).
    { unfold T.smooth_transition. cbn [T._normalize_data bind]. rewrite E10.
      cbn. eexists. reflexivity. }
    destruct Hanim as [anim Hanim]. exists anim. split; [exact Hanim |].
    exact (HT _ _ _ _ _ _ _ Hanim).
  - unfold T.smooth_transition. cbn [T._normalize_data bind]. rewrite E10.
    cbn. eexists. split; reflexivity.
  - apply Hno. repeat split; try reflexivity. discriminate.
Defined.

(** ** Positional pairing of figure states *)



Lemma for_pairs_singletons {A B} (body : A -> A -> result (list B)) froms tos outs :
  (forall f t out, In f froms -> In t tos -> body f t = Ok out -> exists d, out = [d]) ->
  for_pairs_of body froms tos = Ok outs ->
  length outs = Nat.min (length froms) (length tos)
  /\ forall j f t, nth_error froms j = Some f -> nth_error tos j = Some t ->
       exists d, nth_error outs j = Some d /\ body f t = Ok [d].
Proof.
  unfold for_pairs_of.
  revert tos outs; induction froms as [|f froms IH]; intros [|t tos] outs Hone H;
    simpl in H; try (injection H as <-; split; [reflexivity |];
                     intros [|j] f' t' Hf Ht; simpl in Hf, Ht; discriminate).
  bind_ok H. injection H as <-.
  destruct (Hone f t a) as [d ->]; simpl; auto.
  destruct (IH tos a0) as [Hlen Hnth].
  - intros f' t' out Hf Ht. apply Hone; simpl; auto.
  - exact E0.
  - split; [simpl; now rewrite Hlen |].
    intros [|j] f' t' Hf Ht; simpl in Hf, Ht.
    + injection Hf as <-. injection Ht as <-. exists d. now split.
    + simpl. now apply Hnth.
Qed.


Lemma render_line_one to_rgba progress f t out :
  T.render_line to_rgba progress f t = Ok out -> exists d, out = [d].
Proof. unfold T.render_line. intro H. bind_ok H. injection H as <-. eauto. Qed.





Lemma render_axes_one to_rgba progress f t out :
  T.render_axes to_rgba progress f t = Ok out -> exists d, out = [d].
Proof. unfold T.render_axes. intro H. bind_ok H. injection H as <-. eauto. Qed.








(* ================================================================== *)
(** * Further properties of the engines *)

(** ** Easing library: end points and range *)

Lemma Forall_attrs_T (P : (R -> R) -> Prop) :
  P T.EasingFunctions.linear -> P T.EasingFunctions.ease_in_quad ->
  P T.EasingFunctions.ease_out_quad -> P T.EasingFunctions.ease_in_out_quad ->
  P T.EasingFunctions.ease_in_cubic -> P T.EasingFunctions.ease_out_cubic ->
  P T.EasingFunctions.ease_in_out_cubic -> P T.EasingFunctions.ease_in_sine ->
  P T.EasingFunctions.ease_out_sine -> P T.EasingFunctions.ease_in_out_sine ->
  Forall (fun entry : string * (R -> R) => P (snd entry)) T.EasingFunctions.attrs.
Proof.
  intros. unfold T.EasingFunctions.attrs.
  repeat (apply Forall_cons; [cbn; assumption |]). apply Forall_nil.
Qed.

Lemma Forall_attrs_S (P : (R -> R) -> Prop) :
  P S.EasingFunctions.linear -> P S.EasingFunctions.ease_in_quad ->
  P S.EasingFunctions.ease_out_quad -> P S.EasingFunctions.ease_in_out_quad ->
  P S.EasingFunctions.ease_in_cubic -> P S.EasingFunctions.ease_out_cubic ->
  P S.EasingFunctions.ease_in_out_cubic ->
  Forall (fun entry : string * (R -> R) => P (snd entry)) S.EasingFunctions.attrs.
Proof.
  intros. unfold S.EasingFunctions.attrs.
  repeat (apply Forall_cons; [cbn; assumption |]). apply Forall_nil.
Qed.

Lemma in_out_quad_ends :
  T.EasingFunctions.ease_in_out_quad 0 = 0 /\ T.EasingFunctions.ease_in_out_quad 1 = 1.
Proof.
  unfold T.EasingFunctions.ease_in_out_quad.
  destruct (Rlt_dec 0 0.5); [| lra]. destruct (Rlt_dec 1 0.5); [lra |]. split; lra.
Qed.

Lemma in_out_cubic_ends :
  T.EasingFunctions.ease_in_out_cubic 0 = 0 /\ T.EasingFunctions.ease_in_out_cubic 1 = 1.
Proof.
  unfold T.EasingFunctions.ease_in_out_cubic.
  destruct (Rlt_dec 0 0.5); [| lra]. destruct (Rlt_dec 1 0.5); [lra |]. split; lra.
Qed.

Lemma sine_ends :
  (T.EasingFunctions.ease_in_sine 0 = 0 /\ T.EasingFunctions.ease_in_sine 1 = 1)
  /\ (T.EasingFunctions.ease_out_sine 0 = 0 /\ T.EasingFunctions.ease_out_sine 1 = 1)
  /\ (T.EasingFunctions.ease_in_out_sine 0 = 0 /\ T.EasingFunctions.ease_in_out_sine 1 = 1).
Proof.
  unfold T.EasingFunctions.ease_in_sine, T.EasingFunctions.ease_out_sine,
    T.EasingFunctions.ease_in_out_sine.
  replace (0 * PI / 2) with 0 by lra. replace (1 * PI / 2) with (PI / 2) by lra.
  replace (PI * 0) with 0 by lra. replace (PI * 1) with PI by lra.
  rewrite cos_0, cos_PI2, sin_0, sin_PI2, cos_PI. repeat split; lra.
Qed.

Lemma easing_ends_T :
  Forall (fun entry : string * (R -> R) => snd entry 0 = 0 /\ snd entry 1 = 1)
         T.EasingFunctions.attrs.
Proof.
  pose proof in_out_quad_ends as Hq. pose proof in_out_cubic_ends as Hc.
  destruct sine_ends as (Hs1 & Hs2 & Hs3).
  apply (Forall_attrs_T (fun f => f 0 = 0 /\ f 1 = 1)); try assumption;
    unfold T.EasingFunctions.linear, T.EasingFunctions.ease_in_quad,
      T.EasingFunctions.ease_out_quad, T.EasingFunctions.ease_in_cubic,
      T.EasingFunctions.ease_out_cubic; split; lra.
Qed.

Lemma easing_ends_S :
  Forall (fun entry : string * (R -> R) => snd entry 0 = 0 /\ snd entry 1 = 1)
         S.EasingFunctions.attrs.
Proof.
  pose proof in_out_quad_ends as Hq. pose proof in_out_cubic_ends as Hc.
  apply (Forall_attrs_S (fun f => f 0 = 0 /\ f 1 = 1));
    try (unfold S.EasingFunctions.linear, S.EasingFunctions.ease_in_quad,
           S.EasingFunctions.ease_out_quad, S.EasingFunctions.ease_in_cubic,
           S.EasingFunctions.ease_out_cubic; split; lra).
  - now rewrite <- !T_in_out_quad_eq.
  - now rewrite <- !T_in_out_cubic_eq.
Qed.

(** X1.  Every easing function of both classes starts at 0, [f 0 = 0]; and
    every polynomial one, which is every function of [smooth_transitions.py]
    and the function of the same name in [transitions.py], ends at 1,
    [f 1 = 1]. *)
Theorem easing_end_points :
  Forall (fun entry : string * (R -> R) => snd entry 0 = 0) T.EasingFunctions.attrs
  /\ Forall (fun entry : string * (R -> R) => snd entry 0 = 0 /\ snd entry 1 = 1)
            S.EasingFunctions.attrs
  /\ Forall (fun entry : string * (R -> R) =>
               exists g, lookup T.EasingFunctions.attrs (fst entry) = Some g /\ g 1 = 1)
            S.EasingFunctions.attrs.
Proof.
  split; [| split; [exact easing_ends_S |]].
  - eapply Forall_impl; [| exact easing_ends_T]. now intros entry [H _].
  - destruct in_out_quad_ends as [_ Hq]. destruct in_out_cubic_ends as [_ Hc].
    unfold S.EasingFunctions.attrs.
    repeat (apply Forall_cons; [cbn; eexists; split; [reflexivity |] |]);
      try apply Forall_nil; try assumption;
      unfold T.EasingFunctions.linear, T.EasingFunctions.ease_in_quad,
        T.EasingFunctions.ease_out_quad, T.EasingFunctions.ease_in_cubic,
        T.EasingFunctions.ease_out_cubic; lra.
Qed.

Lemma unit_range_of_monotone (f : R -> R) :
  monotone_on_unit f -> f 0 = 0 -> f 1 = 1 ->
  forall t, 0 <= t <= 1 -> 0 <= f t <= 1.
Proof.
  intros M H0 H1 t [Ht0 Ht1]. split.
  - rewrite <- H0. apply M; lra.
  - rewrite <- H1. apply M; lra.
Qed.

Lemma easing_unit_range_T :
  Forall (fun entry : string * (R -> R) =>
            forall t, 0 <= t <= 1 -> 0 <= snd entry t <= 1) T.EasingFunctions.attrs.
Proof.
  pose proof easing_ends_T as E. pose proof easing_monotone_T as M.
  rewrite Forall_forall in *. intros entry Hin.
  destruct (E entry Hin). now apply unit_range_of_monotone; [apply M | |].
Qed.

Lemma easing_unit_range_S :
  Forall (fun entry : string * (R -> R) =>
            forall t, 0 <= t <= 1 -> 0 <= snd entry t <= 1) S.EasingFunctions.attrs.
Proof.
  pose proof easing_ends_S as E. pose proof easing_monotone_S as M.
  rewrite Forall_forall in *. intros entry Hin.
  destruct (E entry Hin). now apply unit_range_of_monotone; [apply M | |].
Qed.

(** X2.  A function bound in either [EasingFunctions] class maps the unit
    interval into the unit interval, and its name selects it whatever else
    Python knows; so does the function that a name selects which is no
    attribute at all.  The eased progress of every frame of such an easing,
    whatever the frame index and the frame count, therefore lies between 0
    and 1. *)
Theorem eased_progress_in_unit_range (lib : library) (name : string)
    (total_frames frame : Z) :
  (forall f, In (name, f) T.EasingFunctions.attrs ->
     (forall t, T.easing_of lib (T.EasingName name) t = Ok (f t))
     /\ (forall t, 0 <= t <= 1 -> 0 <= f t <= 1)
     /\ 0 <= f (T.frame_progress total_frames frame) <= 1)
  /\ (forall f, In (name, f) S.EasingFunctions.attrs ->
        (forall t, getattr_easing lib S.EasingFunctions.attrs S.EasingFunctions.linear name t
                   = Ok (f t))
        /\ (forall t, 0 <= t <= 1 -> 0 <= f t <= 1)
        /\ 0 <= f (S.frame_progress total_frames frame) <= 1)
  /\ (no_attribute lib T.EasingFunctions.attrs name ->
      exists e, T.easing_of lib (T.EasingName name) (T.frame_progress total_frames frame)
                = Ok e /\ 0 <= e <= 1)
  /\ (no_attribute lib S.EasingFunctions.attrs name ->
      exists e, getattr_easing lib S.EasingFunctions.attrs S.EasingFunctions.linear name
                  (S.frame_progress total_frames frame) = Ok e /\ 0 <= e <= 1).
Proof.
  destruct (frame_progress_unit total_frames frame) as [PT PS].
  split; [| split; [| split]].
  - intros f Hin. pose proof easing_unit_range_T as U. rewrite Forall_forall in U.
    pose proof (U _ Hin) as Uf. cbn [snd] in Uf.
    split; [| split; [exact Uf | now apply Uf]].
    intro t. cbn [T.easing_of].
    now rewrite (getattr_easing_bound _ _ _ _ _ (lookup_In_T _ _ Hin)).
  - intros f Hin. pose proof easing_unit_range_S as U. rewrite Forall_forall in U.
    pose proof (U _ Hin) as Uf. cbn [snd] in Uf.
    split; [| split; [exact Uf | now apply Uf]].
    intro t. now rewrite (getattr_easing_bound _ _ _ _ _ (lookup_In_S _ _ Hin)).
  - intro Hno. eexists. split.
    + cbn [T.easing_of]. now rewrite (getattr_easing_absent _ _ _ _ Hno).
    + exact PT.
  - intro Hno. eexists. split.
    + now rewrite (getattr_easing_absent _ _ _ _ Hno).
    + exact PS.
Qed.

Lemma eased_progress_in_unit_range_witness :
  0 <= T.EasingFunctions.ease_out_sine (T.frame_progress 60 7) <= 1
  /\ exists e, T.easing_of library_fragment (T.EasingName "bounce") (T.frame_progress 60 7)
               = Ok e /\ 0 <= e <= 1.
Proof.
  destruct (eased_progress_in_unit_range library_fragment "ease_out_sine" 60 7)
    as (H & _).
  destruct (eased_progress_in_unit_range library_fragment "bounce" 60 7)
    as (_ & _ & Hno & _).
  split.
  - apply (H T.EasingFunctions.ease_out_sine). cbn. tauto.
  - apply Hno. repeat split; try reflexivity. discriminate.
Defined.

(** ** Frame progress *)

Lemma clamp_order x : Rmax 0.0 (Rmin 1.0 x) = Rmin 1.0 (Rmax 0.0 x).
Proof.
  destruct (Rle_dec x 0) as [H0 | H0]; [| destruct (Rle_dec x 1) as [H1 | H1]].
  - rewrite (Rmin_right 1.0 x) by lra. rewrite (Rmax_left 0.0 x) by lra.
    rewrite Rmin_right; lra.
  - rewrite clamp_T_inside, clamp_S_inside; lra.
  - rewrite (Rmin_left 1.0 x) by lra. rewrite (Rmax_right 0.0 x) by lra.
    rewrite Rmax_right by lra. rewrite Rmin_left; lra.
Qed.

(** X4.  The two engines clamp in opposite orders, [max(0, min(1, p))] and
    [min(1, max(0, p))], and compute the same progress for every frame count
    and every frame index, in range or not; it always lies between 0 and
    1. *)
Theorem frame_progress_engines_agree (total_frames frame : Z) :
  T.frame_progress total_frames frame = S.frame_progress total_frames frame
  /\ 0 <= T.frame_progress total_frames frame <= 1.
Proof.
  split; [| apply frame_progress_unit].
  unfold T.frame_progress, S.frame_progress.
  destruct (Z.ltb 1 total_frames); [apply clamp_order |].
  rewrite clamp_order. do 2 f_equal. lra.
Qed.

(** ** Value interpolator: broadcasting, the two engines, colours *)

Lemma lerp_between progress a b :
  0 <= progress <= 1 -> Rmin a b <= lerp progress a b <= Rmax a b.
Proof.
  intros [H0 H1]. unfold lerp, Rmin, Rmax.
  destruct (Rle_dec a b); split; nra.
Qed.

(** X7.  An array of length one is stretched over the other array instead
    of being refused: the blend of [[x]] with [ys], and of [xs] with [[y]],
    is taken against that one member throughout and has the length of the
    longer operand.  Both engines. *)
Theorem singleton_array_is_broadcast (to_rgba : pyval -> option rgba) (progress : R)
    (x y : R) (xs ys : list R) :
  T.interpolate_values to_rgba (PArr [x]) (PArr ys) progress
    = Ok (PArr (map (fun y' => x + (y' - x) * progress) ys))
  /\ T.interpolate_values to_rgba (PArr xs) (PArr [y]) progress
    = Ok (PArr (map (fun x' => x' + (y - x') * progress) xs))
  /\ S.interpolate_values (PArr [x]) (PArr ys) progress
    = Ok (PArr (map (fun y' => x + (y' - x) * progress) ys))
  /\ S.interpolate_values (PArr xs) (PArr [y]) progress
    = Ok (PArr (map (fun x' => x' + (y - x') * progress) xs)).
Proof.
  assert (A : np_blend [x] ys progress = Ok (map (fun y' => x + (y' - x) * progress) ys)).
  { unfold np_blend, np_binop, np_scale.
    destruct ys as [| y0 [| y1 ys]]; cbn; try reflexivity.
    rewrite !map_map. reflexivity. }
  assert (B : np_blend xs [y] progress = Ok (map (fun x' => x' + (y - x') * progress) xs)).
  { unfold np_blend, np_binop, np_scale.
    destruct xs as [| x0 [| x1 xs]]; cbn; try reflexivity.
    rewrite !map_map. rewrite length_map. cbn.
    rewrite Nat.eqb_refl. cbn. do 3 f_equal.
    clear. induction xs as [| a xs IH]; cbn; [reflexivity | now rewrite IH]. }
  split; [| split; [| split]].
  - cbn. now rewrite A.
  - cbn. now rewrite B.
  - now rewrite S_interpolate_arrays, A.
  - now rewrite S_interpolate_arrays, B.
Qed.

(** X9.  On two numbers and on two arrays, of any lengths, the two engines'
    [interpolate_values] give the same answer, the failure included.  They
    part on a number against an array: [smooth_transitions.py] spreads the
    number over the array, [transitions.py] picks one of the two values by
    the 0.5 threshold. *)
Theorem interpolate_engines_agree (to_rgba : pyval -> option rgba) (progress : R) :
  (forall a b : R,
     T.interpolate_values to_rgba (PNum a) (PNum b) progress
     = S.interpolate_values (PNum a) (PNum b) progress)
  /\ (forall xs ys : list R,
        T.interpolate_values to_rgba (PArr xs) (PArr ys) progress
        = S.interpolate_values (PArr xs) (PArr ys) progress)
  /\ (forall (a : R) (ys : list R),
        S.interpolate_values (PNum a) (PArr ys) progress
          = Ok (PArr (map (fun y => a + (y - a) * progress) ys))
        /\ T.interpolate_values to_rgba (PNum a) (PArr ys) progress
          = Ok (if Rlt_dec progress 0.5 then PNum a else PArr ys)).
Proof.
  split; [| split].
  - reflexivity.
  - intros xs ys. now rewrite S_interpolate_arrays.
  - intros a ys. split; [| reflexivity].
    unfold S.interpolate_values. cbn. rewrite !map_map. reflexivity.
Qed.

(** X10.  When [to_rgba] answers with channels between 0 and 1 and the
    progress is between 0 and 1, the colour that [interpolate_colors] returns
    has its four channels between 0 and 1, and the three channels that
    [transitions.interpolate_values] returns for two colour strings are
    between 0 and 1 as well. *)
Theorem blended_colour_is_normalized (to_rgba : pyval -> option rgba) (progress : R)
    (from_color to_color : pyval) (c0 c1 : rgba) :
  0 <= progress <= 1 ->
  to_rgba from_color = Some c0 -> normalized c0 ->
  to_rgba to_color = Some c1 -> normalized c1 ->
  (exists c, S.interpolate_colors to_rgba from_color to_color progress = Ok c
             /\ normalized c)
  /\ (forall s e, from_color = PStr s -> to_color = PStr e ->
        exists r g b,
          T.interpolate_values to_rgba (PStr s) (PStr e) progress
          = Ok (PList [PNum r; PNum g; PNum b])
          /\ 0 <= r <= 1 /\ 0 <= g <= 1 /\ 0 <= b <= 1).
Proof.
  destruct c0 as [[[r0 g0] b0] a0], c1 as [[[r1 g1] b1] a1].
  intros Hp H0 N0 H1 N1. cbn in N0, N1.
  assert (L : forall x y, 0 <= x <= 1 -> 0 <= y <= 1 -> 0 <= x + (y - x) * progress <= 1).
  { intros x y Hx Hy. pose proof (lerp_between progress x y Hp) as B.
    unfold lerp, Rmin, Rmax in B. destruct (Rle_dec x y); lra. }
  split.
  - eexists. split.
    + unfold S.interpolate_colors. rewrite H0, H1. reflexivity.
    + cbn. repeat split; apply L; tauto.
  - intros s e -> ->. do 3 eexists. split.
    + now apply (interpolate_colour_strings to_rgba s e progress r0 g0 b0 a0 r1 g1 b1 a1).
    + repeat split; apply L; tauto.
Qed.

Lemma blended_colour_is_normalized_witness :
  exists c, S.interpolate_colors to_rgba_fragment (PStr "red") (PStr "blue") 0.5 = Ok c
            /\ normalized c.
Proof.
  assert (Hp : 0 <= 0.5 <= 1) by lra.
  assert (N0 : normalized (1, 0, 0, 1)) by (cbn; lra).
  assert (N1 : normalized (0, 0, 1, 1)) by (cbn; lra).
  exact (proj1 (blended_colour_is_normalized to_rgba_fragment 0.5
                  (PStr "red") (PStr "blue") (1, 0, 0, 1) (0, 0, 1, 1)
                  Hp eq_refl N0 eq_refl N1)).
Defined.

(** ** The data of a frame *)

Lemma interpolate_data_spec to_rgba to_data progress from_data :
  forall cur, T.interpolate_data to_rgba from_data to_data progress = Ok cur ->
  map fst cur = map fst from_data
  /\ (forall key, dict_get to_data key = None -> dict_get cur key = dict_get from_data key)
  /\ (forall key v w, dict_get from_data key = Some v -> dict_get to_data key = Some w ->
        exists r, T.interpolate_values to_rgba v w progress = Ok r
                  /\ dict_get cur key = Some r).
Proof.
  induction from_data as [| [k v] rest IH]; intros cur H; simpl in H.
  - injection H as <-. repeat split; intros; simpl in *; try reflexivity; discriminate.
  - bind_ok H. injection H as <-.
    destruct (IH _ eq_refl) as (Hkeys & Habsent & Hboth).
    split; [simpl; now rewrite Hkeys | split].
    + intros key Hto. simpl. destruct (String.eqb_spec k key) as [-> | Hne].
      * rewrite Hto in E. now injection E as <-.
      * now apply Habsent.
    + intros key v' w Hfrom Hto. simpl in *.
      destruct (String.eqb_spec k key) as [-> | Hne].
      * injection Hfrom as <-. rewrite Hto in E. eauto.
      * now apply Hboth.
Qed.

(** X11.  When the data of a frame is computed, it has the keys of the
    "from" data, in the same order, and no other: a key that the "to" data
    lacks keeps its "from" value in every frame, a key of both holds the
    blend of the two values, and a key that only the "to" data has never
    shows. *)
Theorem current_data_keys (to_rgba : pyval -> option rgba) (from_data to_data cur : dict)
    (eased_progress : R) :
  T.interpolate_data to_rgba from_data to_data eased_progress = Ok cur ->
  map fst cur = map fst from_data
  /\ (forall key, dict_get to_data key = None -> dict_get cur key = dict_get from_data key)
  /\ (forall key v w, dict_get from_data key = Some v -> dict_get to_data key = Some w ->
        exists r, T.interpolate_values to_rgba v w eased_progress = Ok r
                  /\ dict_get cur key = Some r)
  /\ (forall key, dict_get from_data key = None -> dict_get cur key = None).
Proof.
  intro H. destruct (interpolate_data_spec _ _ _ _ _ H) as (Hkeys & Habsent & Hboth).
  repeat split; try assumption.
  intros key Hnone.
  assert (G : forall d d' : dict, map fst d = map fst d' ->
                dict_get d' key = None -> dict_get d key = None).
  { clear. induction d as [| [k v] d IH]; intros [| [k' v'] d'] Hm Hn; simpl in *;
      try reflexivity; try discriminate.
    injection Hm as -> Hm. destruct (String.eqb k' key); [discriminate |]. now apply (IH d'). }
  now apply (G cur from_data).
Qed.

Lemma current_data_keys_witness :
  exists cur,
    T.interpolate_data to_rgba_fragment
      [("y"%string, PArr [1; 2]); ("label"%string, PStr "a")]
      [("y"%string, PArr [3; 4]); ("extra"%string, PNum 1)] 0.5 = Ok cur
    /\ dict_get cur "label" = Some (PStr "a")
    /\ dict_get cur "extra" = None.
Proof.
  eexists. split; [reflexivity |].
  destruct (current_data_keys to_rgba_fragment
              [("y"%string, PArr [1; 2]); ("label"%string, PStr "a")]
              [("y"%string, PArr [3; 4]); ("extra"%string, PNum 1)] _ 0.5 eq_refl)
    as (_ & Habsent & _ & Hnone).
  split.
  - rewrite Habsent; reflexivity.
  - apply Hnone. reflexivity.
Defined.

(** X12.  [_normalize_data] hands a dict back as it is, whatever the plot
    type.  For anything else the result, when there is one, has exactly the
    key ['y'] for a line plot, the keys ['x', 'y'] for a scatter plot and the
    key ['heights'] for a bar plot.  A scatter plot takes only a list or tuple
    of exactly two members: another length, or an array, is a
    [ValueError]. *)
Theorem normalize_data_keys (np_array : pyval -> result pyval) :
  (forall d plot_type, T._normalize_data np_array (T.DataDict d) plot_type = Ok d)
  /\ (forall v plot_type d,
        T._normalize_data np_array (T.DataVal v) plot_type = Ok d ->
        (plot_type = "line"%string /\ map fst d = ["y"%string])
        \/ (plot_type = "scatter"%string /\ map fst d = ["x"%string; "y"%string])
        \/ (plot_type = "bar"%string /\ map fst d = ["heights"%string]))
  /\ (forall (t : bool) (vs : list pyval), length vs <> 2%nat ->
        T._normalize_data np_array (T.DataVal (sequence t vs)) "scatter" = Raise ValueError)
  /\ (forall xs : list R,
        T._normalize_data np_array (T.DataVal (PArr xs)) "scatter" = Raise ValueError).
Proof.
  split; [reflexivity | split; [| split; [| reflexivity]]].
  - intros v plot_type d H. unfold T._normalize_data in H.
    destruct (String.eqb_spec plot_type "line") as [-> | _].
    { left. split; [reflexivity |].
      destruct v; try discriminate H; bind_ok H; now injection H as <-. }
    destruct (String.eqb_spec plot_type "scatter") as [-> | _].
    { right; left. split; [reflexivity |].
      destruct v as [| | [| d0 [| d1 [| ? ?]]] | [| d0 [| d1 [| ? ?]]] | | |];
        try discriminate H; bind_ok H; now injection H as <-. }
    destruct (String.eqb_spec plot_type "bar") as [-> | _]; [| discriminate H].
    right; right. split; [reflexivity |].
    destruct v; try discriminate H; bind_ok H; now injection H as <-.
  - intros t vs Hlen. unfold T._normalize_data. cbn.
    destruct t, vs as [| d0 [| d1 [| ? ?]]]; cbn in *; try reflexivity; lia.
Qed.

Lemma normalize_data_keys_witness :
  T._normalize_data np_array_fragment
    (T.DataVal (PList [PList [PNum 1]; PList [PNum 2]; PList [PNum 3]])) "scatter"
  = Raise ValueError.
Proof.
  destruct (normalize_data_keys np_array_fragment) as (_ & _ & H & _).
  apply (H false). simpl. lia.
Defined.

Lemma dict_get_set_same d key v : dict_get (dict_set d key v) key = Some v.
Proof.
  induction d as [| [k w] d IH]; simpl.
  - now rewrite String.eqb_refl.
  - destruct (String.eqb_spec k key) as [-> | Hne]; simpl.
    + now rewrite String.eqb_refl.
    + apply String.eqb_neq in Hne. now rewrite Hne.
Qed.

Lemma dict_get_set_other d key key' v :
  key <> key' -> dict_get (dict_set d key v) key' = dict_get d key'.
Proof.
  intro Hne. induction d as [| [k w] d IH]; simpl.
  - apply String.eqb_neq in Hne. now rewrite Hne.
  - destruct (String.eqb_spec k key) as [-> | Hk]; simpl.
    + apply String.eqb_neq in Hne. now rewrite Hne.
    + now rewrite IH.
Qed.

(** X13.  What one frame of [transitions.smooth_transition] needs of its
    data: a line plot raises [KeyError] without ['y'], a scatter plot without
    ['x'] or without ['y'], a bar plot without ['heights']; a plot type that
    is none of the three draws nothing and raises nothing. *)
Theorem draw_needs_its_keys (kwargs current_data : dict) :
  (dict_get current_data "y" = None ->
   T.draw "line" kwargs current_data = Raise KeyError)
  /\ (dict_get current_data "x" = None \/ dict_get current_data "y" = None ->
      T.draw "scatter" kwargs current_data = Raise KeyError)
  /\ (dict_get current_data "heights" = None ->
      T.draw "bar" kwargs current_data = Raise KeyError)
  /\ (forall plot_type, ~ known_plot_type plot_type ->
        T.draw plot_type kwargs current_data = Ok []).
Proof.
  split; [| split; [| split]].
  - intro H. unfold T.draw, dict_getitem. cbn. now rewrite H.
  - intros [H | H]; unfold T.draw, dict_getitem; cbn; rewrite H; cbn.
    + reflexivity.
    + now destruct (dict_get current_data "x").
  - intro H. unfold T.draw, dict_getitem. cbn. now rewrite H.
  - intros plot_type Hu. destruct (unknown_plot_type_test _ Hu) as (E1 & E2 & E3).
    unfold T.draw. now rewrite E1, E2, E3.
Qed.

Lemma draw_needs_its_keys_witness :
  T.draw "scatter" [] [("x"%string, PArr [1; 2])] = Raise KeyError
  /\ T.draw "pie" [] [("x"%string, PArr [1; 2])] = Ok [].
Proof.
  destruct (draw_needs_its_keys [] [("x"%string, PArr [1; 2])]) as (_ & Hs & _ & Hu).
  split.
  - apply Hs. right. reflexivity.
  - apply Hu. intros [H | [H | H]]; discriminate.
Defined.

(** X14.  The keywords of the scatter call of a frame: the marker size ['s']
    is always there, and is the frame's ['sizes'] when the data has them,
    else the caller's ['s'], else 50; the colour ['c'] is the frame's
    ['colors'] when the data has them, else it is left as the caller gave it,
    with ['blue'] filled in only when the caller gave neither ['c'] nor
    ['color']. *)
Theorem scatter_keywords (kwargs current_data k : dict) (x y : pyval) :
  T.draw "scatter" kwargs current_data = Ok [T.ax_scatter x y k] ->
  dict_get current_data "x" = Some x
  /\ dict_get current_data "y" = Some y
  /\ dict_get k "s"
     = Some (match dict_get current_data "sizes", dict_get kwargs "s" with
             | Some sizes, _ => sizes
             | None, Some s => s
             | None, None => PNum 50
             end)
  /\ dict_get k "c"
     = match dict_get current_data "colors", dict_get kwargs "c", dict_get kwargs "color" with
       | Some colors, _, _ => Some colors
       | None, Some c, _ => Some c
       | None, None, Some _ => None
       | None, None, None => Some (PStr "blue")
       end.
Proof.
  unfold T.draw, dict_getitem, dict_mem. cbn [String.eqb Ascii.eqb Bool.eqb].
  intro H.
  destruct (dict_get current_data "x") as [x' |] eqn:Ex; [| discriminate H].
  destruct (dict_get current_data "y") as [y' |] eqn:Ey; [| discriminate H].
  cbn in H. injection H as <- <- <-.
  split; [reflexivity | split; [reflexivity |]].
  assert (Hsc : "s"%string <> "c"%string) by discriminate.
  assert (Hcs : "c"%string <> "s"%string) by discriminate.
  destruct (dict_get current_data "sizes") as [sizes |] eqn:Es;
    destruct (dict_get current_data "colors") as [colors |] eqn:Ec;
    destruct (dict_get kwargs "s") as [s |] eqn:Eks;
    destruct (dict_get kwargs "c") as [c |] eqn:Ekc;
    destruct (dict_get kwargs "color") as [c' |] eqn:Ekcol;
    cbn;
    repeat (rewrite ?dict_get_set_same, ?(dict_get_set_other _ "s" "c"),
              ?(dict_get_set_other _ "c" "s"), ?(dict_get_set_other _ "s" "color"),
              ?Eks, ?Ekc, ?Ekcol by discriminate; cbn);
    split; reflexivity.
Qed.

Lemma scatter_keywords_witness :
  dict_get [("alpha"%string, PNum 0.5); ("s"%string, PNum 50); ("c"%string, PStr "blue")]
           "s" = Some (PNum 50).
Proof.
  destruct (scatter_keywords [("alpha"%string, PNum 0.5)]
              [("x"%string, PArr [1]); ("y"%string, PArr [2])]
              [("alpha"%string, PNum 0.5); ("s"%string, PNum 50); ("c"%string, PStr "blue")]
              (PArr [1]) (PArr [2]) eq_refl) as (_ & _ & Hs & _).
  exact Hs.
Defined.

(** ** The convenience functions, frame by frame *)

Lemma interpolate_arrays_T to_rgba xs ys progress :
  length xs = length ys ->
  T.interpolate_values to_rgba (PArr xs) (PArr ys) progress
  = Ok (PArr (zip_with (lerp progress) xs ys)).
Proof. intro H. cbn. now rewrite np_blend_same_length. Qed.

Section Convenience.

Variable to_rgba : pyval -> option rgba.
Variable np_array : pyval -> result pyval.
Variable lib : library.

(** X15.  [transition_line_data] on two arrays of equal length, with an
    easing that selects a function [f] (the default one is
    [ease_in_out_quad]): a keyword that repeats [from_data], [to_data] or
    [plot_type] is a [TypeError]; otherwise, with a frame rate other than
    zero, the animation is built as soon as [FuncAnimation] accepts the frame
    count, it has [int(duration * fps)] frames, and every frame draws one
    line, over [range(len)], whose y values are
    [from_y + (to_y - from_y) * f(progress)] member by member, for the
    progress of the frame. *)
Theorem line_transition_frames (from_y to_y : list R) (duration : R) (fps : Z)
    (easing : option T.easing_arg) (kwargs : dict) (f : R -> R) :
  length from_y = length to_y ->
  (forall t, T.easing_of lib (T.easing_or_default easing) t = Ok (f t)) ->
  let n := py_int (float_mul lib duration (IZR fps)) in
  (T.repeated_keyword kwargs = true ->
   T.transition_line_data to_rgba np_array lib (PArr from_y) (PArr to_y) duration fps
     easing kwargs = Raise TypeError)
  /\ (T.repeated_keyword kwargs = false -> fps <> 0%Z ->
      new_FuncAnimation lib n (1000 / IZR fps) = Ok tt ->
      exists anim,
        T.transition_line_data to_rgba np_array lib (PArr from_y) (PArr to_y) duration fps
          easing kwargs = Ok anim)
  /\ (forall anim,
        T.transition_line_data to_rgba np_array lib (PArr from_y) (PArr to_y) duration fps
          easing kwargs = Ok anim ->
        frames anim = n
        /\ forall frame,
             func anim frame
             = Ok [T.ax_plot (PRange (length from_y))
                     (PArr (zip_with
                              (fun a b => a + (b - a) * f (T.frame_progress n frame))
                              from_y to_y))
                     kwargs])
  /\ (easing = None ->
      forall t, T.easing_of lib (T.easing_or_default easing) t
                = Ok (T.EasingFunctions.ease_in_out_quad t)).
Proof.
  intros Hlen Hf n.
  split; [| split; [| split]].
  - intro Hkw. unfold T.transition_line_data. now rewrite Hkw.
  - intros Hkw Hfps Hnew. unfold T.transition_line_data. rewrite Hkw.
    unfold T.smooth_transition. cbn [T._normalize_data bind].
    rewrite py_truediv_nonzero by assumption. cbn [bind]. fold n. rewrite Hnew.
    cbn [bind]. eexists. reflexivity.
  - intros anim H. unfold T.transition_line_data in H.
    destruct (T.repeated_keyword kwargs); [discriminate H |].
    unfold T.smooth_transition in H. cbn [T._normalize_data bind] in H.
    bind_ok H. injection H as <-. cbn [frames func]. split; [reflexivity |].
    intro frame. unfold T.animate. rewrite Hf. cbn [bind].
    cbn [T.interpolate_data dict_get String.eqb Ascii.eqb Bool.eqb].
    rewrite interpolate_arrays_T by assumption. cbn [bind].
    unfold T.draw, dict_getitem, dict_get_default. cbn.
    rewrite zip_with_length by assumption. reflexivity.
  - intros -> t. reflexivity.
Qed.

(** X16.  [transition_bar_heights] on two arrays of equal length, with an
    easing that selects a function [f]: every frame of the animation draws
    the bars over [range(len)] with the heights
    [from + (to - from) * f(progress)], in the caller's colour when the
    keywords give one and in ['blue'] otherwise.  [transition_scatter_data]
    on two pairs of arrays, equal in length pair by pair: every frame draws
    the points at the x and the y blended in the same way. *)
Theorem bar_and_scatter_transition_frames (duration : R) (fps : Z)
    (easing : option T.easing_arg) (kwargs : dict) (f : R -> R) :
  (forall t, T.easing_of lib (T.easing_or_default easing) t = Ok (f t)) ->
  let n := py_int (float_mul lib duration (IZR fps)) in
  (forall from_heights to_heights : list R, length from_heights = length to_heights ->
     (T.repeated_keyword kwargs = false -> fps <> 0%Z ->
      new_FuncAnimation lib n (1000 / IZR fps) = Ok tt ->
      exists anim,
        T.transition_bar_heights to_rgba np_array lib (PArr from_heights) (PArr to_heights)
          duration fps easing kwargs = Ok anim)
     /\ forall anim,
          T.transition_bar_heights to_rgba np_array lib (PArr from_heights)
            (PArr to_heights) duration fps easing kwargs = Ok anim ->
          frames anim = n
          /\ forall frame,
               func anim frame
               = Ok [T.ax_bar (PRange (length from_heights))
                       (PArr (zip_with
                                (fun a b => a + (b - a) * f (T.frame_progress n frame))
                                from_heights to_heights))
                       (if dict_mem kwargs "color" then kwargs
                        else dict_set kwargs "color" (PStr "blue"))])
  /\ (forall x0 y0 x1 y1 : list R, length x0 = length x1 -> length y0 = length y1 ->
        (T.repeated_keyword kwargs = false -> fps <> 0%Z ->
         new_FuncAnimation lib n (1000 / IZR fps) = Ok tt ->
         exists anim,
           T.transition_scatter_data to_rgba np_array lib (PArr x0, PArr y0)
             (PArr x1, PArr y1) duration fps easing kwargs = Ok anim)
        /\ forall anim,
             T.transition_scatter_data to_rgba np_array lib (PArr x0, PArr y0)
               (PArr x1, PArr y1) duration fps easing kwargs = Ok anim ->
             frames anim = n
             /\ forall frame, exists k,
                  func anim frame
                  = Ok [T.ax_scatter
                          (PArr (zip_with
                                   (fun a b => a + (b - a) * f (T.frame_progress n frame))
                                   x0 x1))
                          (PArr (zip_with
                                   (fun a b => a + (b - a) * f (T.frame_progress n frame))
                                   y0 y1)) k]).
Proof.
  intros Hf n. split.
  - intros from_heights to_heights Hlen. split.
    + intros Hkw Hfps Hnew. unfold T.transition_bar_heights. rewrite Hkw.
      unfold T.smooth_transition. cbn [T._normalize_data bind].
      rewrite py_truediv_nonzero by assumption. cbn [bind]. fold n. rewrite Hnew.
      cbn [bind]. eexists. reflexivity.
    + intros anim H. unfold T.transition_bar_heights in H.
      destruct (T.repeated_keyword kwargs); [discriminate H |].
      unfold T.smooth_transition in H. cbn [T._normalize_data bind] in H.
      bind_ok H. injection H as <-. cbn [frames func]. split; [reflexivity |].
      intro frame. unfold T.animate. rewrite Hf. cbn [bind].
      cbn [T.interpolate_data dict_get String.eqb Ascii.eqb Bool.eqb].
      rewrite interpolate_arrays_T by assumption. cbn [bind].
      unfold T.draw, dict_getitem, dict_get_default. cbn.
      rewrite zip_with_length by assumption. reflexivity.
  - intros x0 y0 x1 y1 Hx Hy. split.
    + intros Hkw Hfps Hnew. unfold T.transition_scatter_data. rewrite Hkw.
      unfold T.smooth_transition. cbn [T._normalize_data bind].
      rewrite py_truediv_nonzero by assumption. cbn [bind]. fold n. rewrite Hnew.
      cbn [bind]. eexists. reflexivity.
    + intros anim H. unfold T.transition_scatter_data in H.
      destruct (T.repeated_keyword kwargs); [discriminate H |].
      unfold T.smooth_transition in H. cbn [T._normalize_data bind] in H.
      bind_ok H. injection H as <-. cbn [frames func]. split; [reflexivity |].
      intro frame. unfold T.animate. rewrite Hf. cbn [bind].
      cbn [T.interpolate_data dict_get String.eqb Ascii.eqb Bool.eqb fst snd].
      rewrite !interpolate_arrays_T by assumption. cbn [bind].
      unfold T.draw, dict_getitem. cbn. eexists. reflexivity.
Qed.

End Convenience.

Lemma line_transition_frames_witness :
  exists anim,
    T.transition_line_data to_rgba_fragment np_array_fragment library_fragment
      (PArr [1; 2; 3]) (PArr [3; 2; 1]) 2.0 30 None [] = Ok anim
    /\ frames anim = 60%Z
    /\ func anim 20
       = Ok [T.ax_plot (PRange 3)
               (PArr [1 + (3 - 1) * T.EasingFunctions.ease_in_out_quad (T.frame_progress 60 20);
                      2 + (2 - 2) * T.EasingFunctions.ease_in_out_quad (T.frame_progress 60 20);
                      3 + (1 - 3) * T.EasingFunctions.ease_in_out_quad (T.frame_progress 60 20)])
               []].
Proof.
  assert (Hfps : 30%Z <> 0%Z) by lia.
  assert (E60 : py_int (float_mul library_fragment 2.0 (IZR 30)) = 60%Z).
  { apply py_int_exact. cbn. lra. }
  destruct (line_transition_frames to_rgba_fragment np_array_fragment library_fragment
              [1; 2; 3] [3; 2; 1] 2.0 30 None [] T.EasingFunctions.ease_in_out_quad
              eq_refl (fun t => eq_refl))
    as (_ & Hex & Hframes & _).
  rewrite E60 in Hex, Hframes.
  destruct (Hex eq_refl Hfps eq_refl) as [anim Hanim].
  destruct (Hframes anim Hanim) as [Hn Hfr].
  exists anim. split; [exact Hanim | split; [exact Hn |]].
  rewrite Hfr. reflexivity.
Defined.

Lemma bar_and_scatter_transition_frames_witness :
  exists anim,
    T.transition_bar_heights to_rgba_fragment np_array_fragment library_fragment
      (PArr [1; 2]) (PArr [4; 0]) 1 10 (Some (T.EasingName "linear")) [] = Ok anim
    /\ frames anim = 10%Z
    /\ func anim 3
       = Ok [T.ax_bar (PRange 2)
               (PArr [1 + (4 - 1) * T.frame_progress 10 3;
                      2 + (0 - 2) * T.frame_progress 10 3])
               [("color"%string, PStr "blue")]].
Proof.
  assert (Hfps : 10%Z <> 0%Z) by lia.
  assert (E10 : py_int (float_mul library_fragment 1 (IZR 10)) = 10%Z).
  { apply py_int_exact. cbn. lra. }
  destruct (bar_and_scatter_transition_frames to_rgba_fragment np_array_fragment
              library_fragment 1 10 (Some (T.EasingName "linear")) []
              T.EasingFunctions.linear (fun t => eq_refl)) as (Hbar & _).
  rewrite E10 in Hbar.
  destruct (Hbar [1; 2] [4; 0] eq_refl) as (Hex & Hframes).
  destruct (Hex eq_refl Hfps eq_refl) as [anim Hanim].
  destruct (Hframes anim Hanim) as [Hn Hfr].
  exists anim. split; [exact Hanim | split; [exact Hn |]].
  rewrite Hfr. reflexivity.
Defined.

(** ** Rendering figure states: what a frame shows, what stops it *)

Lemma render_figure_inv to_rgba from_state to_state progress fig :
  T._render_interpolated_figure to_rgba from_state to_state progress = Ok fig ->
  for_pairs_of (T.render_axes to_rgba progress) (T.axes from_state) (T.axes to_state)
    = Ok (T.rendered fig)
  /\ T.patch_facecolor fig
     = T.fig_facecolor (threshold (T.props from_state) (T.props to_state) progress).
Proof.
  unfold T._render_interpolated_figure, for_pairs_of. intro H.
  bind_ok H. injection H as <-. split; reflexivity.
Qed.

Lemma render_axes_inv to_rgba progress fa ta ra :
  T.render_axes to_rgba progress fa ta = Ok [ra] ->
  exists ls cs ps,
    T.artists ra = ls ++ cs ++ ps
    /\ for_pairs_of (T.render_line to_rgba progress) (T.lines fa) (T.lines ta) = Ok ls
    /\ for_pairs_of (T.render_collection to_rgba progress)
         (T.collections fa) (T.collections ta) = Ok cs
    /\ for_pairs_of (T.render_patch to_rgba progress) (T.patches fa) (T.patches ta) = Ok ps
    /\ T.set_title ra = T.title (threshold fa ta progress)
    /\ T.set_xlabel ra = T.xlabel (threshold fa ta progress)
    /\ T.set_ylabel ra = T.ylabel (threshold fa ta progress).
Proof.
  unfold T.render_axes, for_pairs_of. intro H.
  bind_ok H. injection H as <-. cbn. do 3 eexists. repeat split; reflexivity.
Qed.

Lemma render_axes_at to_rgba from_state to_state progress fig i fa ta :
  T._render_interpolated_figure to_rgba from_state to_state progress = Ok fig ->
  nth_error (T.axes from_state) i = Some fa -> nth_error (T.axes to_state) i = Some ta ->
  exists ra, nth_error (T.rendered fig) i = Some ra
             /\ T.render_axes to_rgba progress fa ta = Ok [ra].
Proof.
  intros H Hfa Hta. destruct (render_figure_inv _ _ _ _ _ H) as [E _].
  destruct (for_pairs_singletons _ _ _ _
              (fun f t out _ _ => render_axes_one to_rgba progress f t out) E) as [_ Hnth].
  exact (Hnth i fa ta Hfa Hta).
Qed.

Lemma threshold_field {A B} (g : A -> B) (a b : A) progress :
  g (threshold a b progress) = if Rlt_dec progress 0.5 then g a else g b.
Proof. unfold threshold. now destruct (Rlt_dec progress 0.5). Qed.

(** X17.  In a delivered frame nothing textual or discrete is blended: the
    figure background, the title and the two axis labels are those of the
    "from" state while the progress is below 0.5 and those of the "to" state
    from there on; and the [j]-th plotted line of a pair keeps the line style
    and the marker of the "from" line at every progress, the last frame
    included. *)
Theorem rendered_labels_and_styles (to_rgba : pyval -> option rgba)
    (from_state to_state : T.figure_state) (progress : R) (fig : T.rendered_figure) :
  T._render_interpolated_figure to_rgba from_state to_state progress = Ok fig ->
  T.patch_facecolor fig
  = (if Rlt_dec progress 0.5 then T.fig_facecolor (T.props from_state)
     else T.fig_facecolor (T.props to_state))
  /\ forall i fa ta,
       nth_error (T.axes from_state) i = Some fa ->
       nth_error (T.axes to_state) i = Some ta ->
       exists ra,
         nth_error (T.rendered fig) i = Some ra
         /\ T.set_title ra = (if Rlt_dec progress 0.5 then T.title fa else T.title ta)
         /\ T.set_xlabel ra = (if Rlt_dec progress 0.5 then T.xlabel fa else T.xlabel ta)
         /\ T.set_ylabel ra = (if Rlt_dec progress 0.5 then T.ylabel fa else T.ylabel ta)
         /\ forall j fl tl,
              nth_error (T.lines fa) j = Some fl -> nth_error (T.lines ta) j = Some tl ->
              exists x y c lw ms,
                nth_error (T.artists ra) j
                = Some (T.plot x y c lw (T.linestyle fl) (T.marker fl) ms).
Proof.
  intro H. split.
  - destruct (render_figure_inv _ _ _ _ _ H) as [_ E]. rewrite E.
    apply (threshold_field (fun q => T.fig_facecolor q)).
  - intros i fa ta Hfa Hta.
    destruct (render_axes_at _ _ _ _ _ _ _ _ H Hfa Hta) as (ra & Hra & Hrender).
    destruct (render_axes_inv _ _ _ _ _ Hrender)
      as (ls & cs & ps & Hart & Hls & _ & _ & Ht & Hx & Hy).
    exists ra. rewrite Ht, Hx, Hy, !threshold_field.
    repeat split; try assumption; try reflexivity.
    intros j fl tl Hfl Htl.
    destruct (for_pairs_singletons _ _ _ _
                (fun f t out _ _ => render_line_one to_rgba progress f t out) Hls)
      as [_ Hnth].
    destruct (Hnth j fl tl Hfl Htl) as (d & Hd & Hline).
    unfold T.render_line in Hline. bind_ok Hline. injection Hline as <-.
    do 5 eexists. rewrite Hart. rewrite nth_error_app1; [exact Hd |].
    apply nth_error_Some. rewrite Hd. discriminate.
Qed.

Lemma rendered_labels_and_styles_witness :
  exists fig,
    T._render_interpolated_figure to_rgba_fragment three_lines two_lines 0.75 = Ok fig
    /\ T.patch_facecolor fig
       = (if Rlt_dec 0.75 0.5 then T.fig_facecolor (T.props three_lines)
          else T.fig_facecolor (T.props two_lines)).
Proof.
  destruct (T._render_interpolated_figure to_rgba_fragment three_lines two_lines 0.75)
    as [fig | e] eqn:E; [| cbn in E; discriminate E].
  exists fig. split; [reflexivity |].
  exact (proj1 (rendered_labels_and_styles to_rgba_fragment three_lines two_lines
                  0.75 fig E)).
Defined.

Lemma for_pairs_raises {A B} (body : A -> A -> result (list B)) froms tos j f t e :
  nth_error froms j = Some f -> nth_error tos j = Some t -> body f t = Raise e ->
  exists e', for_pairs_of body froms tos = Raise e'.
Proof.
  unfold for_pairs_of.
  revert tos j; induction froms as [| f0 froms IH]; intros [| t0 tos] [| j] Hf Ht Hb;
    simpl in Hf, Ht; try discriminate.
  - injection Hf as <-. injection Ht as <-. simpl. rewrite Hb. cbn. eauto.
  - simpl. destruct (body f0 t0) as [out | e0]; cbn; [| eauto].
    destruct (IH tos j Hf Ht Hb) as [e' ->]. cbn. eauto.
Qed.

(** X18.  One failing pair stops the whole frame: when the two lines of some
    pair, in some pair of axes, have x data (or y data) arrays of different
    lengths, neither of length one, [_render_interpolated_figure] raises at
    every progress, and the frame is never completed. *)
Theorem one_failing_pair_stops_the_frame (to_rgba : pyval -> option rgba)
    (from_state to_state : T.figure_state) (progress : R) :
  forall i fa ta j fl tl xs ys,
    nth_error (T.axes from_state) i = Some fa ->
    nth_error (T.axes to_state) i = Some ta ->
    nth_error (T.lines fa) j = Some fl -> nth_error (T.lines ta) j = Some tl ->
    (T.xdata fl = PArr xs /\ T.xdata tl = PArr ys)
    \/ (T.ydata fl = PArr xs /\ T.ydata tl = PArr ys) ->
    length xs <> length ys -> length xs <> 1%nat -> length ys <> 1%nat ->
    exists e,
      T._render_interpolated_figure to_rgba from_state to_state progress = Raise e.
Proof.
  intros i fa ta j fl tl xs ys Hfa Hta Hfl Htl Hdata Hne Hx Hy.
  assert (Hline : exists e, T.render_line to_rgba progress fl tl = Raise e).
  { unfold T.render_line. destruct Hdata as [[-> ->] | [-> ->]].
    - cbn. rewrite np_blend_mismatch by assumption. cbn. eauto.
    - destruct (T.interpolate_values to_rgba (T.xdata fl) (T.xdata tl) progress);
        cbn; [| eauto].
      rewrite np_blend_mismatch by assumption. cbn. eauto. }
  destruct Hline as [e Hline].
  destruct (for_pairs_raises _ _ _ _ _ _ _ Hfl Htl Hline) as [e1 Hlines].
  assert (Haxes : exists e, T.render_axes to_rgba progress fa ta = Raise e).
  { unfold T.render_axes.
    fold (for_pairs_of (T.render_line to_rgba progress) (T.lines fa) (T.lines ta)).
    rewrite Hlines.
    destruct (T.interpolate_values to_rgba (T.xlim fa) (T.xlim ta) progress);
      cbn; [| eauto].
    destruct (T.interpolate_values to_rgba (T.ylim fa) (T.ylim ta) progress);
      cbn; [| eauto].
    destruct (T.interpolate_values to_rgba (T.ax_facecolor fa) (T.ax_facecolor ta)
                progress); cbn; eauto. }
  destruct Haxes as [e2 Haxes].
  destruct (for_pairs_raises _ _ _ _ _ _ _ Hfa Hta Haxes) as [e3 Hfig].
  destruct (T._render_interpolated_figure to_rgba from_state to_state progress)
    as [fig | e4] eqn:E.
  - destruct (render_figure_inv _ _ _ _ _ E) as [E' _]. rewrite Hfig in E'. discriminate.
  - eauto.
Qed.

Lemma one_failing_pair_stops_the_frame_witness :
  exists e,
    T._render_interpolated_figure to_rgba_fragment
      (example_figure [example_line 0 1 "red";
                       T.mk_line (PArr [0; 1; 2]) (PArr [0; 1; 2]) (PStr "red") (PNum 1)
                         (PStr "-") (PStr "None") (PNum 6)])
      (example_figure [example_line 0 1 "red"; example_line 1 2 "blue"]) 0.5
    = Raise e.
Proof.
  apply (one_failing_pair_stops_the_frame to_rgba_fragment
           (example_figure [example_line 0 1 "red";
                            T.mk_line (PArr [0; 1; 2]) (PArr [0; 1; 2]) (PStr "red")
                              (PNum 1) (PStr "-") (PStr "None") (PNum 6)])
           (example_figure [example_line 0 1 "red"; example_line 1 2 "blue"]) 0.5
           0%nat _ _ 1%nat _ _ [0; 1; 2] [0; 1] eq_refl eq_refl eq_refl eq_refl).
  - left. split; reflexivity.
  - simpl. lia.
  - simpl. lia.
  - simpl. lia.
Defined.

(** ** From live figures to frames *)






(** ** [smooth_transitions.py]: the cross-fade of two figures, and line frames *)

Section SmoothFrames.

Variable to_rgba : pyval -> option rgba.
Variable np_array : pyval -> result pyval.
Variable lib : library.

(** X20.  [smooth_transitions.transition_plot_state] needs an axes in each
    figure: without one it raises [ValueError], whatever the frame rate.
    Otherwise, with a frame rate other than zero, it builds the animation
    from the first axes of each figure as soon as [FuncAnimation] accepts the
    frame count, and a delivered frame draws every line of both, none paired
    and none dropped: the [fig_from] lines with alpha [1 - e] and the
    [fig_to] lines with alpha [e], for [e] the eased progress.  The title and
    the two axis labels change over where the plain progress, not the eased
    one, reaches 0.5.  With an easing bound in the class, the first of
    several frames shows [fig_from] opaque and [fig_to] invisible, and the
    last one the reverse. *)
Theorem crossfade_of_two_figures (fig_from fig_to : Figure) (duration : R) (fps : Z)
    (easing : string) :
  let n := py_int (float_mul lib duration (IZR fps)) in
  (get_axes fig_from = [] \/ get_axes fig_to = [] ->
   S.transition_plot_state np_array lib fig_from fig_to duration fps easing
   = Raise ValueError)
  /\ (forall ax_from rest_from ax_to rest_to,
        get_axes fig_from = ax_from :: rest_from ->
        get_axes fig_to = ax_to :: rest_to ->
        (fps <> 0%Z -> new_FuncAnimation lib n (1000 / IZR fps) = Ok tt ->
         exists anim,
           S.transition_plot_state np_array lib fig_from fig_to duration fps easing
           = Ok anim)
        /\ forall anim,
             S.transition_plot_state np_array lib fig_from fig_to duration fps easing
             = Ok anim ->
             frames anim = n
             /\ (forall frame cf, func anim frame = Ok cf ->
                   exists e,
                     getattr_easing lib S.EasingFunctions.attrs S.EasingFunctions.linear
                       easing (S.frame_progress n frame) = Ok e
                     /\ S.plotted cf
                        = map (S.fade (1 - e)) (get_lines ax_from)
                          ++ map (S.fade e) (get_lines ax_to)
                     /\ length (S.plotted cf)
                        = (length (get_lines ax_from) + length (get_lines ax_to))%nat
                     /\ S.shown_title cf
                        = (if Rlt_dec (S.frame_progress n frame) 0.5
                           then get_title ax_from else get_title ax_to)
                     /\ S.shown_xlabel cf
                        = (if Rlt_dec (S.frame_progress n frame) 0.5
                           then get_xlabel ax_from else get_xlabel ax_to)
                     /\ S.shown_ylabel cf
                        = (if Rlt_dec (S.frame_progress n frame) 0.5
                           then get_ylabel ax_from else get_ylabel ax_to))
             /\ (forall f, In (easing, f) S.EasingFunctions.attrs -> (1 < n)%Z ->
                   (forall cf, func anim 0 = Ok cf ->
                      S.plotted cf
                      = map (S.fade (1 - f 0)) (get_lines ax_from)
                        ++ map (S.fade (f 0)) (get_lines ax_to)
                      /\ f 0 = 0)
                   /\ (forall cf, func anim (n - 1) = Ok cf ->
                         S.plotted cf
                         = map (S.fade (1 - f 1)) (get_lines ax_from)
                           ++ map (S.fade (f 1)) (get_lines ax_to)
                         /\ f 1 = 1))).
Proof.
  intro n. split.
  - intros [H | H]; unfold S.transition_plot_state; rewrite H; [reflexivity |].
    now destruct (get_axes fig_from).
  - intros ax_from rest_from ax_to rest_to Hfrom Hto. split.
    + intros Hfps Hnew. unfold S.transition_plot_state. rewrite Hfrom, Hto.
      rewrite py_truediv_nonzero by assumption. cbn [bind]. fold n. rewrite Hnew.
      cbn [bind]. eexists. reflexivity.
    + intros anim H. unfold S.transition_plot_state in H. rewrite Hfrom, Hto in H.
      bind_ok H. injection H as <-. cbn [frames func]. fold n.
      assert (Hframe : forall frame cf,
                S.animate_state np_array
                  (getattr_easing lib S.EasingFunctions.attrs S.EasingFunctions.linear
                     easing) ax_from ax_to n frame = Ok cf ->
                exists e,
                  getattr_easing lib S.EasingFunctions.attrs S.EasingFunctions.linear
                    easing (S.frame_progress n frame) = Ok e
                  /\ S.plotted cf
                     = map (S.fade (1 - e)) (get_lines ax_from)
                       ++ map (S.fade e) (get_lines ax_to)
                  /\ length (S.plotted cf)
                     = (length (get_lines ax_from) + length (get_lines ax_to))%nat
                  /\ S.shown_title cf
                     = (if Rlt_dec (S.frame_progress n frame) 0.5
                        then get_title ax_from else get_title ax_to)
                  /\ S.shown_xlabel cf
                     = (if Rlt_dec (S.frame_progress n frame) 0.5
                        then get_xlabel ax_from else get_xlabel ax_to)
                  /\ S.shown_ylabel cf
                     = (if Rlt_dec (S.frame_progress n frame) 0.5
                        then get_ylabel ax_from else get_ylabel ax_to)).
      { intros frame cf Hcf. unfold S.animate_state in Hcf.
        destruct (getattr_easing lib S.EasingFunctions.attrs S.EasingFunctions.linear
                    easing (S.frame_progress n frame)) as [e |] eqn:Ee;
          cbn [bind] in Hcf; [| discriminate Hcf].
        bind_ok Hcf. injection Hcf as <-.
        cbn [S.plotted S.shown_title S.shown_xlabel S.shown_ylabel].
        exists e. split; [reflexivity |]. split; [reflexivity |].
        split; [now rewrite length_app, !length_map |].
        split; [apply (threshold_field get_title) |].
        split; [apply (threshold_field get_xlabel) | apply (threshold_field get_ylabel)]. }
      split; [reflexivity | split; [exact Hframe |]].
      intros f Hin Hn.
      pose proof easing_ends_S as Hends. rewrite Forall_forall in Hends.
      destruct (Hends _ Hin) as [F0 F1]. cbn [snd] in F0, F1.
      pose proof (getattr_easing_bound lib _ S.EasingFunctions.linear _ _
                    (lookup_In_S _ _ Hin)) as Ef.
      split; intros cf Hcf; destruct (Hframe _ _ Hcf) as (e & He & Hplot & _);
        rewrite Ef in He; injection He as <-.
      * destruct (frame_progress_inside n 0 Hn) as [_ E']; [lia |].
        rewrite E' in Hplot. unfold Rdiv in Hplot. rewrite Rmult_0_l in Hplot.
        split; assumption.
      * destruct (frame_progress_inside n (n - 1) Hn) as [_ E']; [lia |].
        rewrite E', Rdiv_diag in Hplot by (apply not_0_IZR; lia).
        split; assumption.
Qed.

(** X21.  When [smooth_transitions.smooth_transition] has built a line
    animation with an easing that returns a number, a frame updates only what
    both dicts hold: with none of ['y'], ['x'], ['color'], ['linewidth'] in
    both, the frame changes nothing and raises nothing.  A colour of both
    dicts that [to_rgba] refuses makes every frame raise instead of falling
    back; with neither ['y'] nor ['x'] in both, what it raises is the
    [ValueError] of [to_rgba]. *)
Theorem line_frames_without_data_or_colour (from_data to_data : dict) (duration : R)
    (fps : Z) (easing : string) (kwargs : dict) (anim : FuncAnimation (list S.update)) :
  S.smooth_transition to_rgba np_array lib from_data to_data duration fps easing "line"
    kwargs = Ok anim ->
  (forall t, exists e,
     getattr_easing lib S.EasingFunctions.attrs S.EasingFunctions.linear easing t = Ok e) ->
  (S.in_both from_data to_data "y" = None ->
   S.in_both from_data to_data "x" = None ->
   S.in_both from_data to_data "color" = None ->
   S.in_both from_data to_data "linewidth" = None ->
   forall frame, func anim frame = Ok [])
  /\ (forall a b, S.in_both from_data to_data "color" = Some (a, b) ->
        to_rgba a = None \/ to_rgba b = None ->
        forall frame, exists e, func anim frame = Raise e)
  /\ (forall a b, S.in_both from_data to_data "color" = Some (a, b) ->
        to_rgba a = None \/ to_rgba b = None ->
        S.in_both from_data to_data "y" = None ->
        S.in_both from_data to_data "x" = None ->
        forall frame, func anim frame = Raise ValueError).
Proof.
  intros H Heasing. unfold S.smooth_transition in H. bind_ok H. injection H as <-.
  cbn [func]. unfold S.animate. cbn [String.eqb Ascii.eqb Bool.eqb].
  split; [| split].
  - intros Hy Hx Hc Hw frame.
    destruct (Heasing (S.frame_progress
                         (py_int (float_mul lib duration (IZR fps))) frame)) as [e ->].
    cbn [bind]. unfold S.animate_line. now rewrite Hy, Hx, Hc, Hw.
  - intros c1 c2 Hc Hbad frame.
    destruct (Heasing (S.frame_progress
                         (py_int (float_mul lib duration (IZR fps))) frame)) as [e ->].
    cbn [bind]. unfold S.animate_line. rewrite Hc.
    assert (Hcol : forall p, S.interpolate_colors to_rgba c1 c2 p = Raise ValueError).
    { intro p. unfold S.interpolate_colors. destruct Hbad as [-> | Hb]; [reflexivity |].
      rewrite Hb. now destruct (to_rgba c1) as [[[[? ?] ?] ?] |]. }
    rewrite Hcol. cbn.
    repeat match goal with
           | |- context [bind ?m _] =>
               match m with
               | Raise _ => fail 1
               | _ => destruct m; cbn
               end
           end; eauto.
  - intros c1 c2 Hc Hbad Hy Hx frame.
    destruct (Heasing (S.frame_progress
                         (py_int (float_mul lib duration (IZR fps))) frame)) as [e ->].
    cbn [bind]. unfold S.animate_line. rewrite Hc, Hy, Hx.
    assert (Hcol : forall p, S.interpolate_colors to_rgba c1 c2 p = Raise ValueError).
    { intro p. unfold S.interpolate_colors. destruct Hbad as [-> | Hb]; [reflexivity |].
      rewrite Hb. now destruct (to_rgba c1) as [[[[? ?] ?] ?] |]. }
    rewrite Hcol. reflexivity.
Qed.

End SmoothFrames.

Lemma crossfade_of_two_figures_witness :
  S.transition_plot_state np_array_fragment library_fragment
    (mk_Figure (PStr "red") (PArr [6.4; 4.8]) []) example_live_to 1 0 "linear"
  = Raise ValueError
  /\ exists anim cf,
       S.transition_plot_state np_array_fragment library_fragment
         example_live_from example_live_to 2.0 30 "ease_in_quad" = Ok anim
       /\ func anim 0 = Ok cf
       /\ map S.faded_alpha (S.plotted cf)
          = [1 - S.EasingFunctions.ease_in_quad 0; S.EasingFunctions.ease_in_quad 0]
       /\ S.EasingFunctions.ease_in_quad 0 = 0.
Proof.
  split.
  - apply (crossfade_of_two_figures np_array_fragment library_fragment). left. reflexivity.
  - destruct (crossfade_of_two_figures np_array_fragment library_fragment
                example_live_from example_live_to 2.0 30 "ease_in_quad") as [_ H].
    assert (Hfps : 30%Z <> 0%Z) by lia.
    assert (E60 : py_int (float_mul library_fragment 2.0 (IZR 30)) = 60%Z).
    { apply py_int_exact. cbn. lra. }
    rewrite E60 in H.
    destruct (H _ _ _ _ eq_refl eq_refl) as (Hex & Hframes).
    destruct (Hex Hfps eq_refl) as [anim Hanim].
    destruct (Hframes anim Hanim) as (_ & _ & Hends).
    assert (Hcf : exists cf, func anim 0 = Ok cf).
    { unfold S.transition_plot_state in Hanim. rewrite E60 in Hanim.
      cbn in Hanim. injection Hanim as <-. cbn. eauto. }
    destruct Hcf as [cf Hcf].
    exists anim, cf. split; [exact Hanim | split; [exact Hcf |]].
    destruct (Hends S.EasingFunctions.ease_in_quad) as [Hfirst _];
      [cbn; tauto | lia |].
    destruct (Hfirst cf Hcf) as [Hplot H0].
    split; [rewrite Hplot; reflexivity | exact H0].
Defined.

Lemma line_frames_without_data_or_colour_witness :
  exists anim,
    S.smooth_transition to_rgba_fragment np_array_fragment library_fragment
      [("x"%string, PList [PNum 0; PNum 1]); ("y"%string, PList [PNum 1; PNum 2]);
       ("color"%string, PStr "red")]
      [("color"%string, PStr "no-such-colour")]
      1 10 "linear" "line" [] = Ok anim
    /\ forall frame, func anim frame = Raise ValueError.
Proof.
  assert (E10 : py_int (float_mul library_fragment 1 (IZR 10)) = 10%Z).
  { apply py_int_exact. cbn. lra. }
  assert (Hanim : exists anim,
            S.smooth_transition to_rgba_fragment np_array_fragment library_fragment
              [("x"%string, PList [PNum 0; PNum 1]); ("y"%string, PList [PNum 1; PNum 2]);
               ("color"%string, PStr "red")]
              [("color"%string, PStr "no-such-colour")]
              1 10 "linear" "line" [] = Ok anim).
  { unfold S.smooth_transition. rewrite E10, plt_subplots_default. cbn.
    eexists. reflexivity. }
  destruct Hanim as [anim Hanim]. exists anim. split; [exact Hanim |].
  destruct (line_frames_without_data_or_colour to_rgba_fragment np_array_fragment
              library_fragment _ _ _ _ _ _ anim Hanim) as (_ & _ & Hbad).
  - intro t. eexists. reflexivity.
  - apply (Hbad (PStr "red") (PStr "no-such-colour")); try reflexivity.
    right. reflexivity.
Defined.

(** ** More on whole animations *)

(** X22.  [transitions.transition_plot_state] asks nothing of the figures:
    when one of them has no axes, the animation is still built (frame rate not
    zero, frame count accepted by [FuncAnimation]), and with an easing that
    selects a function each of its frames is delivered with no axes in
    it. *)
Theorem figure_without_axes_renders_empty (to_rgba : pyval -> option rgba) (lib : library)
    (fig_from fig_to : Figure) (duration : R) (fps : Z) (easing : T.easing_arg)
    (f : R -> R) :
  get_axes fig_from = [] \/ get_axes fig_to = [] ->
  (forall t, T.easing_of lib easing t = Ok (f t)) ->
  (fps <> 0%Z ->
   new_FuncAnimation lib (py_int (float_mul lib duration (IZR fps))) (1000 / IZR fps)
   = Ok tt ->
   exists anim,
     T.transition_plot_state_figures to_rgba lib fig_from fig_to duration fps easing
     = Ok anim)
  /\ forall anim,
       T.transition_plot_state_figures to_rgba lib fig_from fig_to duration fps easing
       = Ok anim ->
       forall frame, exists fig, func anim frame = Ok fig /\ T.rendered fig = [].
Proof.
  intros Hempty Hf. split.
  - intros Hfps Hnew.
    unfold T.transition_plot_state_figures, T.transition_plot_state.
    rewrite py_truediv_nonzero by assumption. cbn [bind]. rewrite Hnew.
    cbn [bind]. eexists. reflexivity.
  - intros anim H frame.
    unfold T.transition_plot_state_figures, T.transition_plot_state in H.
    bind_ok H. injection H as <-. cbn [func]. rewrite Hf. cbn [bind].
    unfold T._render_interpolated_figure. cbn.
    rewrite !length_map.
    destruct Hempty as [-> | ->]; cbn.
    + eexists. split; reflexivity.
    + rewrite Nat.min_0_r. destruct (map T.extract_axes (get_axes fig_from)); cbn;
        eexists; split; reflexivity.
Qed.

Lemma figure_without_axes_renders_empty_witness :
  exists anim,
    T.transition_plot_state_figures to_rgba_fragment library_fragment
      (mk_Figure (PStr "red") (PArr [6.4; 4.8]) []) example_live_to 1 10
      (T.EasingName "linear") = Ok anim
    /\ forall frame, exists fig, func anim frame = Ok fig /\ T.rendered fig = [].
Proof.
  assert (E10 : py_int (float_mul library_fragment 1 (IZR 10)) = 10%Z).
  { apply py_int_exact. cbn. lra. }
  destruct (figure_without_axes_renders_empty to_rgba_fragment library_fragment
              (mk_Figure (PStr "red") (PArr [6.4; 4.8]) []) example_live_to 1 10
              (T.EasingName "linear") T.EasingFunctions.linear)
    as [Hex Hframes]; [left; reflexivity | intro t; reflexivity |].
  destruct Hex as [anim Hanim]; [lia | rewrite E10; reflexivity |].
  exists anim. split; [exact Hanim | exact (Hframes anim Hanim)].
Defined.

Lemma lerp_monotone p q a b : p <= q -> a <= b -> lerp p a b <= lerp q a b.
Proof. intros Hpq Hab. unfold lerp. nra. Qed.

Lemma lerp_antitone p q a b : p <= q -> b <= a -> lerp q a b <= lerp p a b.
Proof. intros Hpq Hab. unfold lerp. nra. Qed.

(** X23.  With an easing bound in the class and chosen by its name, every
    animated number moves one way only: from one frame to any later frame
    the blend [a + (b - a) * f(progress)] of [a] and [b] never moves back
    towards [a], whether [b] lies above [a] or below.  Both engines. *)
Theorem blend_moves_one_way (name : string) (f : R -> R) (total_frames i j : Z) (a b : R) :
  (i <= j)%Z ->
  (In (name, f) T.EasingFunctions.attrs ->
   (a <= b ->
    a + (b - a) * f (T.frame_progress total_frames i)
    <= a + (b - a) * f (T.frame_progress total_frames j))
   /\ (b <= a ->
       a + (b - a) * f (T.frame_progress total_frames j)
       <= a + (b - a) * f (T.frame_progress total_frames i)))
  /\ (In (name, f) S.EasingFunctions.attrs ->
      (a <= b ->
       a + (b - a) * f (S.frame_progress total_frames i)
       <= a + (b - a) * f (S.frame_progress total_frames j))
      /\ (b <= a ->
          a + (b - a) * f (S.frame_progress total_frames j)
          <= a + (b - a) * f (S.frame_progress total_frames i))).
Proof.
  intros Hij.
  destruct (frame_progress_unit total_frames i) as [[Ti0 _] [Si0 _]].
  destruct (frame_progress_unit total_frames j) as [[_ Tj1] [_ Sj1]].
  destruct (frame_progress_mono total_frames i j Hij) as [HT HS].
  split; intro Hin.
  - pose proof easing_monotone_T as M. rewrite Forall_forall in M.
    pose proof (M _ Hin _ _ Ti0 HT Tj1) as E. cbn [snd] in E.
    split; intro Hab.
    + now apply (lerp_monotone _ _ a b).
    + now apply (lerp_antitone _ _ a b).
  - pose proof easing_monotone_S as M. rewrite Forall_forall in M.
    pose proof (M _ Hin _ _ Si0 HS Sj1) as E. cbn [snd] in E.
    split; intro Hab.
    + now apply (lerp_monotone _ _ a b).
    + now apply (lerp_antitone _ _ a b).
Qed.

Lemma blend_moves_one_way_witness :
  1 + (3 - 1) * T.EasingFunctions.ease_in_out_sine (T.frame_progress 60 10)
  <= 1 + (3 - 1) * T.EasingFunctions.ease_in_out_sine (T.frame_progress 60 11).
Proof.
  assert (H : (10 <= 11)%Z) by lia.
  destruct (blend_moves_one_way "ease_in_out_sine" T.EasingFunctions.ease_in_out_sine
              60 10 11 1 3 H) as [HT _].
  destruct HT as [Hup _]; [cbn; tauto |].
  apply Hup. lra.
Defined.

Section SmoothScatter.

Variable to_rgba : pyval -> option rgba.
Variable np_array : pyval -> result pyval.
Variable lib : library.

(** X24.  A delivered scatter frame of [smooth_transitions.py] always moves
    the points, to the rows that [np.column_stack] makes of the new x and the
    new y, and nothing precedes that: a coordinate of both dicts is
    interpolated, a coordinate missing from either keeps its "from" value (or
    the empty list when "from" has none).  When [np.column_stack] refuses the
    two coordinates the frame raises what it raises.  Colours are animated
    only when both are strings: when either is anything else, such as an
    array of per-point colours, the frame sets no colour. *)
Theorem scatter_frame_updates (from_data to_data : dict) (eased_progress : R) :
  let coordinate key :=
    match S.in_both from_data to_data key with
    | Some (a, b) => S.interpolate_arrays np_array a b eased_progress
    | None => Ok (dict_get_default from_data key (PList []))
    end in
  (forall updates,
     S.animate_scatter to_rgba np_array lib from_data to_data eased_progress = Ok updates ->
     exists new_x new_y offsets rest,
       coordinate "x"%string = Ok new_x
       /\ coordinate "y"%string = Ok new_y
       /\ np_column_stack lib new_x new_y = Ok offsets
       /\ updates = S.set_offsets offsets :: rest
       /\ (forall a b, S.in_both from_data to_data "colors" = Some (a, b) ->
             (forall s, a <> PStr s) \/ (forall s, b <> PStr s) ->
             forall c, ~ In (S.set_color c) updates))
  /\ (forall new_x new_y e,
        coordinate "x"%string = Ok new_x -> coordinate "y"%string = Ok new_y ->
        np_column_stack lib new_x new_y = Raise e ->
        S.animate_scatter to_rgba np_array lib from_data to_data eased_progress = Raise e).
Proof.
  intro coordinate. split.
  - intros updates H. unfold S.animate_scatter in H.
    fold (coordinate "x"%string) in H. fold (coordinate "y"%string) in H.
    destruct (coordinate "x"%string) as [new_x |]; cbn [bind] in H; [| discriminate H].
    destruct (coordinate "y"%string) as [new_y |]; cbn [bind] in H; [| discriminate H].
    destruct (np_column_stack lib new_x new_y) as [offsets |] eqn:Eo; cbn [bind] in H;
      [| discriminate H].
    match type of H with
    | bind ?m _ = _ => destruct m as [u2 |] eqn:Es; cbn [bind] in H; [| discriminate H]
    end.
    match type of H with
    | bind ?m _ = _ => destruct m as [u3 |] eqn:Ec; cbn [bind] in H; [| discriminate H]
    end.
    injection H as <-.
    assert (Hu2 : forall c, ~ In (S.set_color c) u2).
    { intros c Hin. destruct (S.in_both from_data to_data "sizes") as [[a b] |].
      - bind_ok Es. injection Es as <-. destruct Hin as [Hin | []]. discriminate.
      - injection Es as <-. destruct Hin. }
    exists new_x, new_y, offsets, (u2 ++ u3).
    split; [reflexivity |]. split; [reflexivity |]. split; [exact Eo |].
    split; [reflexivity |].
    intros a b Hab Hns c [Hin | Hin]; [discriminate |].
    apply in_app_or in Hin. destruct Hin as [Hin | Hin]; [now apply (Hu2 c) |].
    rewrite Hab in Ec.
    destruct a; try (injection Ec as <-; destruct Hin);
      destruct b; try (injection Ec as <-; destruct Hin).
    destruct Hns as [Hns | Hns]; now apply (Hns _ eq_refl).
  - intros new_x new_y e Hx Hy He. unfold S.animate_scatter.
    fold (coordinate "x"%string). fold (coordinate "y"%string).
    rewrite Hx, Hy. cbn [bind]. now rewrite He.
Qed.

End SmoothScatter.

Lemma scatter_frame_updates_witness :
  exists rest,
    S.animate_scatter to_rgba_fragment np_array_fragment library_fragment
      [("x"%string, PList [PNum 1; PNum 2]); ("y"%string, PList [PNum 3; PNum 4]);
       ("sizes"%string, PList [PNum 10; PNum 10])]
      [("x"%string, PList [PNum 3; PNum 4]); ("y"%string, PList [PNum 5; PNum 6]);
       ("sizes"%string, PList [PNum 20; PNum 20])] 0.5
    = Ok (S.set_offsets [(1 + (3 - 1) * 0.5, 3 + (5 - 3) * 0.5);
                         (2 + (4 - 2) * 0.5, 4 + (6 - 4) * 0.5)] :: rest).
Proof.
  destruct (scatter_frame_updates to_rgba_fragment np_array_fragment library_fragment
              [("x"%string, PList [PNum 1; PNum 2]); ("y"%string, PList [PNum 3; PNum 4]);
               ("sizes"%string, PList [PNum 10; PNum 10])]
              [("x"%string, PList [PNum 3; PNum 4]); ("y"%string, PList [PNum 5; PNum 6]);
               ("sizes"%string, PList [PNum 20; PNum 20])] 0.5) as [H _].
  destruct (S.animate_scatter to_rgba_fragment np_array_fragment library_fragment
              [("x"%string, PList [PNum 1; PNum 2]); ("y"%string, PList [PNum 3; PNum 4]);
               ("sizes"%string, PList [PNum 10; PNum 10])]
              [("x"%string, PList [PNum 3; PNum 4]); ("y"%string, PList [PNum 5; PNum 6]);
               ("sizes"%string, PList [PNum 20; PNum 20])] 0.5)
    as [updates | e] eqn:E; [| cbn in E; discriminate E].
  destruct (H updates eq_refl) as (new_x & new_y & offsets & rest & Hx & Hy & Ho & Hup & _).
  cbn in Hx, Hy. injection Hx as <-. injection Hy as <-.
  cbn in Ho. injection Ho as <-.
  exists rest. now rewrite Hup.
Defined.
